(** * WOO tokenomics simulator: the monthly engine of [js/simulation.js]

    A shallow embedding of class [WOOSimulation] ([src/js/simulation.js])
    and of the constants of [CONFIG] (config.js), followed by the properties
    of the engine.  Of the code around the engine, the timer callback of
    [startSimulation] (main.js), the listener of the fee sliders and the
    year counts of the annual cards (ui.js) are embedded as well.

    Modelling conventions.

    - A JavaScript number is a value of [num]: an exact rational, one of the
      two infinities, or NaN.  The IEEE special values are kept because the
      engine branches on them ([isFinite], [isNaN], comparisons that are
      false on NaN); rounding, overflow and the sign of zero are not
      represented, finite arithmetic is exact.
    - A numeric property that is absent from an object reads as [undefined],
      which every arithmetic operator and comparison of the engine converts
      to NaN; an absent numeric field is therefore represented by [NaN].
    - The engine raises no exception of its own; the only run-time errors are
      the [TypeError]s of a property read on [undefined] (a missing control
      element in [initialize], a missing [history] or [initial_values] object
      in [recordHistory]).  Such objects are [option]s, and a method that can
      throw returns a [completion] together with the mutated object.
    - Console output is not represented; of the [setInterval] handle only
      whether the timer has been stopped.  The code that writes to the page
      reads the simulation without changing it and is a parameter of the
      timer. *)

From Stdlib Require Import ZArith QArith Qcanon Qround Lqa Lia List String Bool.
Import ListNotations.

Set Implicit Arguments.

(** ** JavaScript numbers *)

Inductive num : Type :=
| Fin (q : Qc)
| PInf
| NInf
| NaN.

Declare Scope num_scope.
Delimit Scope num_scope with num.
Bind Scope num_scope with num.

Definition lit (q : Q) : num := Fin (Q2Qc q).
Definition of_Z (z : Z) : num := Fin (Q2Qc (inject_Z z)).

Definition Qc_ltb (x y : Qc) : bool :=
  match (x ?= y)%Qc with Lt => true | _ => false end.
Definition Qc_leb (x y : Qc) : bool :=
  match (x ?= y)%Qc with Gt => false | _ => true end.
Definition Qc_eqb (x y : Qc) : bool :=
  match (x ?= y)%Qc with Eq => true | _ => false end.

(** [x + y] *)
Definition add (a b : num) : num :=
  match a, b with
  | NaN, _ | _, NaN => NaN
  | Fin x, Fin y => Fin (x + y)
  | PInf, NInf | NInf, PInf => NaN
  | PInf, _ | _, PInf => PInf
  | NInf, _ | _, NInf => NInf
  end.

(** [- x] *)
Definition neg (a : num) : num :=
  match a with
  | Fin x => Fin (- x)
  | PInf => NInf
  | NInf => PInf
  | NaN => NaN
  end.

(** [x - y] *)
Definition sub (a b : num) : num := add a (neg b).

(** The infinity of the sign of [c], NaN when [c] is zero. *)
Definition signed_inf (c : comparison) : num :=
  match c with Gt => PInf | Lt => NInf | Eq => NaN end.

Definition flip (c : comparison) : comparison := CompOpp c.

(** [x * y] *)
Definition mul (a b : num) : num :=
  match a, b with
  | NaN, _ | _, NaN => NaN
  | Fin x, Fin y => Fin (x * y)
  | Fin x, PInf | PInf, Fin x => signed_inf (x ?= 0)%Qc
  | Fin x, NInf | NInf, Fin x => signed_inf (flip (x ?= 0)%Qc)
  | PInf, PInf | NInf, NInf => PInf
  | PInf, NInf | NInf, PInf => NInf
  end.

(** [x / y]; a zero divisor counts as [+0]. *)
Definition div (a b : num) : num :=
  match a, b with
  | NaN, _ | _, NaN => NaN
  | Fin x, Fin y =>
      if Qc_eqb y 0 then signed_inf (x ?= 0)%Qc else Fin (x / y)
  | Fin _, PInf | Fin _, NInf => Fin 0
  | PInf, Fin y => if Qc_ltb y 0 then NInf else PInf
  | NInf, Fin y => if Qc_ltb y 0 then PInf else NInf
  | PInf, PInf | PInf, NInf | NInf, PInf | NInf, NInf => NaN
  end.

(** [x < y] *)
Definition ltb (a b : num) : bool :=
  match a, b with
  | NaN, _ | _, NaN => false
  | Fin x, Fin y => Qc_ltb x y
  | NInf, Fin _ | NInf, PInf | Fin _, PInf => true
  | _, _ => false
  end.

(** [x <= y] *)
Definition leb (a b : num) : bool :=
  match a, b with
  | NaN, _ | _, NaN => false
  | Fin x, Fin y => Qc_leb x y
  | NInf, _ | _, PInf => true
  | _, _ => false
  end.

(** [x > y] and [x >= y] *)
Definition gtb (a b : num) : bool := ltb b a.
Definition geb (a b : num) : bool := leb b a.

(** [x === y] on numbers *)
Definition strict_eqb (a b : num) : bool :=
  match a, b with
  | Fin x, Fin y => Qc_eqb x y
  | PInf, PInf | NInf, NInf => true
  | _, _ => false
  end.

Definition isFinite (a : num) : bool :=
  match a with Fin _ => true | _ => false end.

Definition isNaN (a : num) : bool :=
  match a with NaN => true | _ => false end.

(** [Math.min(x, y)] and [Math.max(x, y)]: NaN as soon as one argument is. *)
Definition Math_min (a b : num) : num :=
  match a, b with
  | NaN, _ | _, NaN => NaN
  | _, _ => if ltb b a then b else a
  end.

Definition Math_max (a b : num) : num :=
  match a, b with
  | NaN, _ | _, NaN => NaN
  | _, _ => if ltb a b then b else a
  end.

(** [Math.floor(x)] *)
Definition Math_floor (a : num) : num :=
  match a with
  | Fin x => of_Z (Qfloor x)
  | _ => a
  end.

(** Rounding towards zero. *)
Definition Qc_trunc (x : Qc) : Z :=
  if Qc_ltb x 0 then Qceiling x else Qfloor x.

(** [x % y]: the remainder has the sign of the dividend. *)
Definition rem (a b : num) : num :=
  match a, b with
  | Fin x, Fin y =>
      if Qc_eqb y 0 then NaN
      else Fin (x - y * Q2Qc (inject_Z (Qc_trunc (x / y))))
  | Fin x, PInf | Fin x, NInf => Fin x
  | _, _ => NaN
  end.

(** [parseInt] of the text of a number: the integer part, NaN when the text
    is not a finite number. *)
Definition parseInt (a : num) : num :=
  match a with
  | Fin x => of_Z (Qc_trunc x)
  | _ => NaN
  end.

(** [x || 0] on a possibly absent number: [undefined], NaN and 0 are falsy. *)
Definition or_zero (o : option num) : num :=
  match o with
  | None | Some NaN => Fin 0
  | Some x => x
  end.

Infix "+" := add : num_scope.
Infix "-" := sub : num_scope.
Infix "*" := mul : num_scope.
Infix "/" := div : num_scope.
Infix "<?" := ltb : num_scope.
Infix "<=?" := leb : num_scope.
Infix ">?" := gtb : num_scope.
Infix ">=?" := geb : num_scope.
Infix "%%" := rem (at level 40, left associativity) : num_scope.
Notation "0" := (Fin 0) : num_scope.
Notation "1" := (Fin 1) : num_scope.

Local Open Scope num_scope.

(** ** Completions *)

(** How a method call ends: normally with a value, or by a thrown error. *)
Inductive completion (A : Type) : Type :=
| Normal (a : A)
| Thrown.
Arguments Thrown {A}.

(** ** Configuration constants (config.js) *)

Module CONFIG.
Module INITIAL_STATE.
Definition woo_price : num := lit 0.065.
Definition max_supply : num := lit 3_000_000_000.
Definition total_supply : num := lit 2_209_243_570.
Definition circulating_supply : num := lit 1_909_243_570.
Definition total_staked_woo : num := lit 629_528_114.
Definition woofi_treasury_balance : num := lit 41_766_263.
Definition woox_treasury_balance : num := lit 32_529_236.
Definition cumulative_tokens_burned : num := 0.
Definition temporary_price_impact : num := 0.
End INITIAL_STATE.
Module FIXED_PARAMS.
Definition woox_total_fee_rate : num := lit 0.0001.
Definition woofi_staker_share : num := lit 0.8.
Definition woox_staker_bps_reward : num := lit 0.00001.
End FIXED_PARAMS.
End CONFIG.

(** ** Data *)

(** The [controls] object handed to [initialize]: one entry per DOM control.
    [None] is a control that is missing from the object; [Some v] carries the
    number that [parseFloat] reads from the element's text (NaN for text that
    is not a number). *)
Module Controls.
Record t : Type := mk {
    woofiSwapVolume : option num;
    woofiPerpVolume : option num;
    wooxVolume : option num;
    autoCompoundRate : option num;
    buybackBurnShare : option num;
    stakerShare : option num;
    treasuryShare : option num;
    wooxStakerBps : option num;
    affiliateCut : option num;
    woofiTradingFeeRate : option num;
    supplyElasticity : option num;
    buyingPressureElasticity : option num;
    buyingPressureDecay : option num;
    simulationDuration : option num;
    circulatingSupply : option num;
    initialStaked : option num;
    initialWoofiTreasury : option num;
    initialWooxTreasury : option num
  }.
End Controls.

(** [simParams] *)
Module Params.
Record t : Type := mk {
    monthly_woofi_swap_volume : num;
    monthly_woofi_perp_volume : num;
    monthly_woox_volume : num;
    woofi_staker_share : num;
    auto_compound_adoption_rate : num;
    woox_staker_bps : num;
    buyback_burn_share : num;
    staker_share : num;
    treasury_share : num;
    affiliate_share : num;
    woofi_fee_rate : num;
    supply_elasticity : num;
    buying_pressure_elasticity : num;
    buying_pressure_decay : num;
    simulation_months : num;
    initial_circulating_supply : num;
    woox_total_fee_rate : num;
    woox_staker_bps_reward : num
  }.

(** The empty object [{}] of the constructor. *)
Definition empty : t :=
    mk NaN NaN NaN NaN NaN NaN NaN NaN NaN NaN NaN NaN NaN NaN NaN NaN NaN NaN.
End Params.

(** Result of [calculateFees] *)
Module FeeData.
Record t : Type := mk {
    gross_woofi_swap_fees : num;
    gross_woofi_perp_fees : num;
    total_gross_woofi_fees : num;
    woox_staker_rewards : num;
    total_woox_fees : num;
    woox_treasury_inflow : num
  }.
End FeeData.

(** Result of [distributeFeesV1] and [distributeFeesV2] *)
Module Dist.
Record t : Type := mk {
    buyback_burn_amount : num;
    affiliate_cut : num;
    woofi_staker_rewards : num;
    woofi_treasury_inflow_usd : num;
    woox_treasury_inflow_usd : num;
    total_staker_rewards_usd : num;
    total_affiliate_cut : num;
    staker_fees_total : num;
    treasury_fees_total : num;
    orderly_fees_total : num;
    buyback_fees_total : num
  }.
End Dist.

(** Result of [calculateAutoCompoundAndBurn] and [calculateBuybackAndBurnV2].
    The V2 objects have no [auto_compound_usd] and no [usdc_distribution]
    property; no producer sets the [tokens_to_burn] property that
    [recordHistory] reads. *)
Module Burn.
Record t : Type := mk {
    buyback_usd : num;
    auto_compound_usd : num;
    usdc_distribution : num;
    market_purchase_tokens : num;
    tokens_burned : num;
    usdc_to_stakers : num;
    woofi_tokens_burned : num;
    woox_tokens_burned : num
  }.

Definition tokens_to_burn (_ : t) : num := NaN.
End Burn.

(** Result of [calculatePriceImpact] *)
Module Impact.
Record t : Type := mk {
    permanent_impact : num;
    new_temporary_impact : num;
    total_temporary_impact : num
  }.
End Impact.

(** [simState.history]: the parallel arrays, one entry per recorded month.
    [buyback_fees_received] is created by [recordHistory] on first use. *)
Module History.
Record t : Type := mk {
    months : list num;
    woofi_treasury : list num;
    woox_treasury : list num;
    circulating : list num;
    staked : list num;
    price : list num;
    monthlyBurned : list num;
    marketPurchases : list num;
    permImpact : list num;
    tempImpact : list num;
    usdc_distributed : list num;
    buyback_amounts : list num;
    auto_compound_amounts : list num;
    treasury_inflows : list num;
    woofi_fees_generated : list num;
    woox_fees_generated : list num;
    woox_treasury_inflows : list num;
    staker_fees_received : list num;
    treasury_fees_received : list num;
    orderly_fees_received : list num;
    buyback_fees_received : option (list num);
    treasury_runway_months : list num;
    price_change_pct : list num;
    supply_reduction_pct : list num;
    cumulative_burned : list num;
    staking_ratio : list num;
    treasury_runway : list num
  }.

Definition empty : t :=
    mk [] [] [] [] [] [] [] [] [] [] [] [] [] [] [] [] [] [] [] [] None
       [] [] [] [] [] [].
End History.

(** [simState.initial_values] *)
Module InitialValues.
Record t : Type := mk {
    price : num;
    circulating_supply : num;
    total_treasury : num;
    total_staked : num
  }.
End InitialValues.

(** An element of an annual ratio array: a hole left by an assignment beyond
    the end of the array, [null], or a number. *)
Inductive slot : Type :=
| hole
| null
| number (x : num).

(** The tracking fields of [simState] that [updateIntermediateVariables]
    overwrites every month, gathered in one record.  [buyback_burn_amount]
    is not part of [CONFIG.INITIAL_STATE]. *)
Module Tracking.
Record t : Type := mk {
    total_gross_woofi_fees : num;
    gross_woofi_swap_fees : num;
    gross_woofi_perp_fees : num;
    woox_staker_rewards : num;
    total_woox_fees : num;
    woox_treasury_inflow : num;
    total_staker_rewards_usd : num;
    woofi_treasury_inflow : num;
    total_affiliate_cut : num;
    tokens_to_burn : num;
    buyback_usd : num;
    auto_compound_usd : num;
    market_purchase_tokens : num;
    usdc_to_stakers : num;
    usdc_distribution : num;
    permanent_impact : num;
    total_temporary_impact : num;
    buyback_burn_amount : num
  }.

Definition empty : t :=
    mk NaN NaN NaN NaN NaN NaN NaN NaN NaN NaN NaN NaN NaN NaN NaN NaN NaN NaN.

(** The zeros of [CONFIG.INITIAL_STATE]. *)
Definition initial : t :=
    mk 0 0 0 0 0 0 0 0 0 0 0 0 0 0 0 0 0 NaN.
End Tracking.

(** [simState] *)
Module State.
Record t : Type := mk {
    month : num;
    woo_price : num;
    max_supply : num;
    total_supply : num;
    circulating_supply : num;
    total_staked_woo : num;
    woofi_treasury_balance : num;
    woox_treasury_balance : num;
    cumulative_tokens_burned : num;
    temporary_price_impact : num;
    tracking : Tracking.t;
    history : option History.t;
    initial_values : option InitialValues.t;
    annual_pv_ratios_usd : option (list slot);
    annual_pv_ratios_market : option (list slot);
    annual_pr_ratios : option (list slot)
  }.

(** The empty object [{}] of the constructor. *)
Definition empty : t :=
    mk NaN NaN NaN NaN NaN NaN NaN NaN NaN NaN Tracking.empty
       None None None None None.

Definition set_month (v : num) (s : t) : t :=
    mk v (woo_price s) (max_supply s) (total_supply s) (circulating_supply s)
       (total_staked_woo s) (woofi_treasury_balance s)
       (woox_treasury_balance s) (cumulative_tokens_burned s)
       (temporary_price_impact s) (tracking s) (history s) (initial_values s)
       (annual_pv_ratios_usd s) (annual_pv_ratios_market s)
       (annual_pr_ratios s).

Definition set_treasury (woofi woox : num) (s : t) : t :=
    mk (month s) (woo_price s) (max_supply s) (total_supply s)
       (circulating_supply s) (total_staked_woo s) woofi woox
       (cumulative_tokens_burned s) (temporary_price_impact s) (tracking s)
       (history s) (initial_values s) (annual_pv_ratios_usd s)
       (annual_pv_ratios_market s) (annual_pr_ratios s).

Definition set_total_staked_woo (v : num) (s : t) : t :=
    mk (month s) (woo_price s) (max_supply s) (total_supply s)
       (circulating_supply s) v (woofi_treasury_balance s)
       (woox_treasury_balance s) (cumulative_tokens_burned s)
       (temporary_price_impact s) (tracking s) (history s) (initial_values s)
       (annual_pv_ratios_usd s) (annual_pv_ratios_market s)
       (annual_pr_ratios s).

Definition set_supply (total circ burned : num) (s : t) : t :=
    mk (month s) (woo_price s) (max_supply s) total circ
       (total_staked_woo s) (woofi_treasury_balance s)
       (woox_treasury_balance s) burned (temporary_price_impact s)
       (tracking s) (history s) (initial_values s) (annual_pv_ratios_usd s)
       (annual_pv_ratios_market s) (annual_pr_ratios s).

Definition set_price (p temp : num) (s : t) : t :=
    mk (month s) p (max_supply s) (total_supply s) (circulating_supply s)
       (total_staked_woo s) (woofi_treasury_balance s)
       (woox_treasury_balance s) (cumulative_tokens_burned s) temp
       (tracking s) (history s) (initial_values s) (annual_pv_ratios_usd s)
       (annual_pv_ratios_market s) (annual_pr_ratios s).

Definition set_tracking (v : Tracking.t) (s : t) : t :=
    mk (month s) (woo_price s) (max_supply s) (total_supply s)
       (circulating_supply s) (total_staked_woo s) (woofi_treasury_balance s)
       (woox_treasury_balance s) (cumulative_tokens_burned s)
       (temporary_price_impact s) v (history s) (initial_values s)
       (annual_pv_ratios_usd s) (annual_pv_ratios_market s)
       (annual_pr_ratios s).

Definition set_history (v : History.t) (s : t) : t :=
    mk (month s) (woo_price s) (max_supply s) (total_supply s)
       (circulating_supply s) (total_staked_woo s) (woofi_treasury_balance s)
       (woox_treasury_balance s) (cumulative_tokens_burned s)
       (temporary_price_impact s) (tracking s) (Some v) (initial_values s)
       (annual_pv_ratios_usd s) (annual_pv_ratios_market s)
       (annual_pr_ratios s).

Definition set_annual_pv (usd market : list slot) (s : t) : t :=
    mk (month s) (woo_price s) (max_supply s) (total_supply s)
       (circulating_supply s) (total_staked_woo s) (woofi_treasury_balance s)
       (woox_treasury_balance s) (cumulative_tokens_burned s)
       (temporary_price_impact s) (tracking s) (history s) (initial_values s)
       (Some usd) (Some market) (annual_pr_ratios s).

Definition set_annual_pr (pr : list slot) (s : t) : t :=
    mk (month s) (woo_price s) (max_supply s) (total_supply s)
       (circulating_supply s) (total_staked_woo s) (woofi_treasury_balance s)
       (woox_treasury_balance s) (cumulative_tokens_burned s)
       (temporary_price_impact s) (tracking s) (history s) (initial_values s)
       (annual_pv_ratios_usd s) (annual_pv_ratios_market s) (Some pr).
End State.

(** [DEFAULT_VALUES] of config.js, the values that the reset of the UI
    writes into the controls. *)
Definition DEFAULT_VALUES : Controls.t :=
  {| Controls.woofiSwapVolume := Some (lit 49.4);
     Controls.woofiPerpVolume := Some (lit 11.3);
     Controls.wooxVolume := Some (lit 365.9);
     Controls.autoCompoundRate := Some (lit 70);
     Controls.buybackBurnShare := Some (lit 50);
     Controls.stakerShare := Some (lit 30);
     Controls.treasuryShare := Some (lit 20);
     Controls.wooxStakerBps := Some (lit 0.1);
     Controls.affiliateCut := Some (lit 60);
     Controls.woofiTradingFeeRate := Some (lit 0.08);
     Controls.supplyElasticity := Some (lit 10.0);
     Controls.buyingPressureElasticity := Some (lit 1.5);
     Controls.buyingPressureDecay := Some (lit 15);
     Controls.simulationDuration := Some (lit 36);
     Controls.circulatingSupply := Some (lit 1909.2);
     Controls.initialStaked := Some (lit 629.5);
     Controls.initialWoofiTreasury := Some (lit 41.8);
     Controls.initialWooxTreasury := Some (lit 32.5) |}.

(** The [WOOSimulation] object. *)
Record Sim : Type := mkSim {
  modelVersion : option string;
  simParams : Params.t;
  simState : State.t
}.

(** [new WOOSimulation()] *)
Definition constructor : Sim := mkSim None Params.empty State.empty.

Definition set_simState (st : State.t) (sim : Sim) : Sim :=
  mkSim (modelVersion sim) (simParams sim) st.

(** [this.modelVersion === 'v1'] *)
Definition is_v1 (sim : Sim) : bool :=
  match modelVersion sim with
  | Some v => String.eqb v "v1"
  | None => false
  end.

(** ** initialize *)

Notation "x <- e ;; k" :=
  (match e with Some x => k | None => None end)
  (at level 61, e at next level, right associativity, only parsing).

Definition million : num := lit 1_000_000.

(** The object literal assigned to [this.simParams].  Reading [.value] of a
    missing control throws, which is the [None] result.  The final spread of
    [CONFIG.FIXED_PARAMS] defines [woofi_staker_share] under both models. *)
Definition read_params (controls : Controls.t) (model : string)
  : option Params.t :=
  swap <- Controls.woofiSwapVolume controls ;;
  perp <- Controls.woofiPerpVolume controls ;;
  woox <- Controls.wooxVolume controls ;;
  specific <-
    (if String.eqb model "v1" then
       rate <- Controls.autoCompoundRate controls ;;
       Some (rate / lit 100, CONFIG.FIXED_PARAMS.woox_staker_bps_reward,
             NaN, NaN, NaN)
     else
       buyback <- Controls.buybackBurnShare controls ;;
       staker <- Controls.stakerShare controls ;;
       treasury <- Controls.treasuryShare controls ;;
       bps <- Controls.wooxStakerBps controls ;;
       Some (NaN, bps / lit 10000,
             buyback / lit 100, staker / lit 100, treasury / lit 100)) ;;
  affiliate <- Controls.affiliateCut controls ;;
  fee_rate <- Controls.woofiTradingFeeRate controls ;;
  supply_el <- Controls.supplyElasticity controls ;;
  pressure_el <- Controls.buyingPressureElasticity controls ;;
  decay <- Controls.buyingPressureDecay controls ;;
  duration <- Controls.simulationDuration controls ;;
  circulating <- Controls.circulatingSupply controls ;;
  let '(adoption, staker_bps, buyback_share, staker_share, treasury_share) :=
    specific in
  Some {|
    Params.monthly_woofi_swap_volume := swap * million * lit 30;
    Params.monthly_woofi_perp_volume := perp * million * lit 30;
    Params.monthly_woox_volume := woox * million * lit 30;
    Params.woofi_staker_share := CONFIG.FIXED_PARAMS.woofi_staker_share;
    Params.auto_compound_adoption_rate := adoption;
    Params.woox_staker_bps := staker_bps;
    Params.buyback_burn_share := buyback_share;
    Params.staker_share := staker_share;
    Params.treasury_share := treasury_share;
    Params.affiliate_share := affiliate / lit 100;
    Params.woofi_fee_rate := fee_rate / lit 100 / lit 100;
    Params.supply_elasticity := supply_el;
    Params.buying_pressure_elasticity := pressure_el;
    Params.buying_pressure_decay := decay / lit 100;
    Params.simulation_months := parseInt duration;
    Params.initial_circulating_supply := circulating * million;
    Params.woox_total_fee_rate := CONFIG.FIXED_PARAMS.woox_total_fee_rate;
    Params.woox_staker_bps_reward := CONFIG.FIXED_PARAMS.woox_staker_bps_reward
  |}.

(** The object literal assigned to [this.simState], with the
    [initial_values] stored right after it. *)
Definition read_state (controls : Controls.t) (p : Params.t)
  : option State.t :=
  staked <- Controls.initialStaked controls ;;
  woofi <- Controls.initialWoofiTreasury controls ;;
  woox <- Controls.initialWooxTreasury controls ;;
  let circulating_supply := Params.initial_circulating_supply p in
  let total_staked_woo := staked * million in
  let woofi_treasury_balance := woofi * million in
  let woox_treasury_balance := woox * million in
  Some {|
    State.month := 0;
    State.woo_price := CONFIG.INITIAL_STATE.woo_price;
    State.max_supply := CONFIG.INITIAL_STATE.max_supply;
    State.total_supply := CONFIG.INITIAL_STATE.total_supply;
    State.circulating_supply := circulating_supply;
    State.total_staked_woo := total_staked_woo;
    State.woofi_treasury_balance := woofi_treasury_balance;
    State.woox_treasury_balance := woox_treasury_balance;
    State.cumulative_tokens_burned :=
      CONFIG.INITIAL_STATE.cumulative_tokens_burned;
    State.temporary_price_impact :=
      CONFIG.INITIAL_STATE.temporary_price_impact;
    State.tracking := Tracking.initial;
    State.history := Some History.empty;
    State.initial_values := Some {|
      InitialValues.price := CONFIG.INITIAL_STATE.woo_price;
      InitialValues.circulating_supply := circulating_supply;
      InitialValues.total_treasury :=
        woofi_treasury_balance + woox_treasury_balance;
      InitialValues.total_staked := total_staked_woo
    |};
    State.annual_pv_ratios_usd := Some [];
    State.annual_pv_ratios_market := Some [];
    State.annual_pr_ratios := None
  |}.

(** The default value of the parameter [modelVersion = 'v2']. *)
Definition model_or_default (model : option string) : string :=
  match model with Some v => v | None => "v2"%string end.

(** [initialize(controls, modelVersion = 'v2')].  The model version is stored
    first, then [simParams], then [simState]; an error thrown while one of
    the two literals is evaluated leaves the earlier assignments in place. *)
Definition initialize (controls : Controls.t) (model : option string)
    (sim : Sim) : completion unit * Sim :=
  let model := model_or_default model in
  match read_params controls model with
  | None => (Thrown, mkSim (Some model) (simParams sim) (simState sim))
  | Some p =>
      match read_state controls p with
      | None => (Thrown, mkSim (Some model) p (simState sim))
      | Some st => (Normal tt, mkSim (Some model) p st)
      end
  end.

(** ** Fee generation and distribution *)

Definition calculateFees (sim : Sim) : FeeData.t :=
  let p := simParams sim in
  let gross_woofi_swap_fees :=
    Params.monthly_woofi_swap_volume p * Params.woofi_fee_rate p in
  let gross_woofi_perp_fees :=
    Params.monthly_woofi_perp_volume p * Params.woofi_fee_rate p in
  let total_gross_woofi_fees := gross_woofi_swap_fees + gross_woofi_perp_fees in
  let total_woox_fees :=
    Params.monthly_woox_volume p * Params.woox_total_fee_rate p in
  let woox_staker_rewards :=
    Params.monthly_woox_volume p * Params.woox_staker_bps p in
  let woox_treasury_inflow := total_woox_fees - woox_staker_rewards in
  {| FeeData.gross_woofi_swap_fees := gross_woofi_swap_fees;
     FeeData.gross_woofi_perp_fees := gross_woofi_perp_fees;
     FeeData.total_gross_woofi_fees := total_gross_woofi_fees;
     FeeData.woox_staker_rewards := woox_staker_rewards;
     FeeData.total_woox_fees := total_woox_fees;
     FeeData.woox_treasury_inflow := woox_treasury_inflow |}.

Definition distributeFeesV1 (sim : Sim) (feeData : FeeData.t) : Dist.t :=
  let p := simParams sim in
  let gross_swap_fees := FeeData.gross_woofi_swap_fees feeData in
  let gross_perp_fees := FeeData.gross_woofi_perp_fees feeData in
  let net_swap_fees := gross_swap_fees in
  let swap_staker_rewards := net_swap_fees * Params.woofi_staker_share p in
  let swap_treasury_inflow :=
    net_swap_fees * (1 - Params.woofi_staker_share p) in
  let perp_affiliate_cut := gross_perp_fees * Params.affiliate_share p in
  let net_perp_fees := gross_perp_fees - perp_affiliate_cut in
  let perp_staker_rewards := net_perp_fees * Params.woofi_staker_share p in
  let perp_treasury_inflow :=
    net_perp_fees * (1 - Params.woofi_staker_share p) in
  let total_woofi_staker_rewards := swap_staker_rewards + perp_staker_rewards in
  let total_woofi_treasury_inflow :=
    swap_treasury_inflow + perp_treasury_inflow in
  let total_affiliate_cut := perp_affiliate_cut in
  let total_staker_rewards_usd :=
    total_woofi_staker_rewards + FeeData.woox_staker_rewards feeData in
  {| Dist.buyback_burn_amount := 0;
     Dist.affiliate_cut := total_affiliate_cut;
     Dist.woofi_staker_rewards := total_woofi_staker_rewards;
     Dist.woofi_treasury_inflow_usd := total_woofi_treasury_inflow;
     Dist.woox_treasury_inflow_usd := FeeData.woox_treasury_inflow feeData;
     Dist.total_staker_rewards_usd := total_staker_rewards_usd;
     Dist.total_affiliate_cut := total_affiliate_cut;
     Dist.staker_fees_total :=
       total_woofi_staker_rewards + FeeData.woox_staker_rewards feeData;
     Dist.treasury_fees_total :=
       total_woofi_treasury_inflow + FeeData.woox_treasury_inflow feeData;
     Dist.orderly_fees_total := total_affiliate_cut;
     Dist.buyback_fees_total := 0 |}.

Definition distributeFeesV2 (sim : Sim) (feeData : FeeData.t) : Dist.t :=
  let p := simParams sim in
  let gross_swap_fees := FeeData.gross_woofi_swap_fees feeData in
  let gross_perp_fees := FeeData.gross_woofi_perp_fees feeData in
  let net_swap_fees := gross_swap_fees in
  let swap_buyback_amount := net_swap_fees * Params.buyback_burn_share p in
  let swap_staker_rewards := net_swap_fees * Params.staker_share p in
  let swap_treasury_inflow := net_swap_fees * Params.treasury_share p in
  let perp_affiliate_cut := gross_perp_fees * Params.affiliate_share p in
  let net_perp_fees := gross_perp_fees - perp_affiliate_cut in
  let perp_buyback_amount := net_perp_fees * Params.buyback_burn_share p in
  let perp_staker_rewards := net_perp_fees * Params.staker_share p in
  let perp_treasury_inflow := net_perp_fees * Params.treasury_share p in
  let total_buyback_burn_amount := swap_buyback_amount + perp_buyback_amount in
  let total_woofi_staker_rewards := swap_staker_rewards + perp_staker_rewards in
  let total_woofi_treasury_inflow :=
    swap_treasury_inflow + perp_treasury_inflow in
  let total_affiliate_cut := perp_affiliate_cut in
  let total_staker_rewards_usd :=
    total_woofi_staker_rewards + FeeData.woox_staker_rewards feeData in
  {| Dist.buyback_burn_amount := total_buyback_burn_amount;
     Dist.affiliate_cut := total_affiliate_cut;
     Dist.woofi_staker_rewards := total_woofi_staker_rewards;
     Dist.woofi_treasury_inflow_usd := total_woofi_treasury_inflow;
     Dist.woox_treasury_inflow_usd := FeeData.woox_treasury_inflow feeData;
     Dist.total_staker_rewards_usd := total_staker_rewards_usd;
     Dist.total_affiliate_cut := total_affiliate_cut;
     Dist.staker_fees_total :=
       total_woofi_staker_rewards + FeeData.woox_staker_rewards feeData;
     Dist.treasury_fees_total :=
       total_woofi_treasury_inflow + FeeData.woox_treasury_inflow feeData;
     Dist.orderly_fees_total := total_affiliate_cut;
     Dist.buyback_fees_total := total_buyback_burn_amount |}.

Definition distributeFees (sim : Sim) (feeData : FeeData.t) : Dist.t :=
  if is_v1 sim then distributeFeesV1 sim feeData
  else distributeFeesV2 sim feeData.

(** ** Buyback, burn and price impact *)

(** The object returned by the two guards of [calculateAutoCompoundAndBurn]. *)
Definition zero_burn_v1 : Burn.t :=
  {| Burn.buyback_usd := 0; Burn.auto_compound_usd := 0;
     Burn.usdc_distribution := 0; Burn.market_purchase_tokens := 0;
     Burn.tokens_burned := 0; Burn.usdc_to_stakers := 0;
     Burn.woofi_tokens_burned := 0; Burn.woox_tokens_burned := 0 |}.

(** The object returned by the two guards of [calculateBuybackAndBurnV2]. *)
Definition zero_burn_v2 : Burn.t :=
  {| Burn.buyback_usd := 0; Burn.auto_compound_usd := NaN;
     Burn.usdc_distribution := NaN; Burn.market_purchase_tokens := 0;
     Burn.tokens_burned := 0; Burn.usdc_to_stakers := 0;
     Burn.woofi_tokens_burned := 0; Burn.woox_tokens_burned := 0 |}.

Definition calculateAutoCompoundAndBurn (sim : Sim) (distributionData : Dist.t)
  : Burn.t :=
  let st := simState sim in
  let total_staker_rewards := Dist.total_staker_rewards_usd distributionData in
  if (total_staker_rewards <? 0) || negb (isFinite total_staker_rewards)
  then zero_burn_v1
  else if (State.woo_price st <=? 0) || negb (isFinite (State.woo_price st))
  then zero_burn_v1
  else
    let auto_compound_usd :=
      total_staker_rewards * Params.auto_compound_adoption_rate (simParams sim)
    in
    let usdc_distribution := total_staker_rewards - auto_compound_usd in
    let market_purchase_tokens :=
      if auto_compound_usd >? 0 then auto_compound_usd / State.woo_price st
      else 0 in
    let woofi_tokens_burned :=
      Math_min market_purchase_tokens (State.woofi_treasury_balance st) in
    let woox_tokens_burned := 0 in
    let tokens_burned := woofi_tokens_burned + woox_tokens_burned in
    {| Burn.buyback_usd := 0;
       Burn.auto_compound_usd := auto_compound_usd;
       Burn.usdc_distribution := usdc_distribution;
       Burn.market_purchase_tokens := market_purchase_tokens;
       Burn.tokens_burned := tokens_burned;
       Burn.usdc_to_stakers := usdc_distribution;
       Burn.woofi_tokens_burned := woofi_tokens_burned;
       Burn.woox_tokens_burned := woox_tokens_burned |}.

Definition calculateBuybackAndBurnV2 (sim : Sim) (distributionData : Dist.t)
  : Burn.t :=
  let st := simState sim in
  let buyback_usd := Dist.buyback_burn_amount distributionData in
  let usdc_to_stakers := Dist.total_staker_rewards_usd distributionData in
  if (buyback_usd <? 0) || negb (isFinite buyback_usd)
  then zero_burn_v2
  else if (State.woo_price st <=? 0) || negb (isFinite (State.woo_price st))
  then zero_burn_v2
  else
    let market_purchase_tokens := buyback_usd / State.woo_price st in
    let tokens_burned := market_purchase_tokens in
    {| Burn.buyback_usd := buyback_usd;
       Burn.auto_compound_usd := NaN;
       Burn.usdc_distribution := NaN;
       Burn.market_purchase_tokens := market_purchase_tokens;
       Burn.tokens_burned := tokens_burned;
       Burn.usdc_to_stakers := usdc_to_stakers;
       Burn.woofi_tokens_burned := 0;
       Burn.woox_tokens_burned := 0 |}.

Definition calculateBuybackAndBurn (sim : Sim) (distributionData : Dist.t)
  : Burn.t :=
  if is_v1 sim then calculateAutoCompoundAndBurn sim distributionData
  else calculateBuybackAndBurnV2 sim distributionData.

Definition calculatePriceImpact (sim : Sim) (burnData : Burn.t) : Impact.t :=
  let st := simState sim in
  let p := simParams sim in
  let supply_reduction_pct :=
    if State.circulating_supply st >? 0
    then Burn.tokens_burned burnData / State.circulating_supply st
    else 0 in
  let permanent_impact := supply_reduction_pct * Params.supply_elasticity p in
  let market_depth_proxy :=
    (Params.monthly_woofi_swap_volume p + Params.monthly_woox_volume p)
    / lit 30 in
  let buying_pressure_usd :=
    if is_v1 sim then Burn.auto_compound_usd burnData
    else Burn.buyback_usd burnData in
  let buy_pressure_ratio :=
    if market_depth_proxy >? 0 then buying_pressure_usd / market_depth_proxy
    else 0 in
  let new_temporary_impact :=
    buy_pressure_ratio * Params.buying_pressure_elasticity p in
  let decayed_impact :=
    State.temporary_price_impact st * (1 - Params.buying_pressure_decay p) in
  let total_temporary_impact := decayed_impact + new_temporary_impact in
  {| Impact.permanent_impact := permanent_impact;
     Impact.new_temporary_impact := new_temporary_impact;
     Impact.total_temporary_impact := total_temporary_impact |}.

(** ** State updates *)

Definition updateTreasuryV1 (distributionData : Dist.t) (burnData : Burn.t)
    (sim : Sim) : Sim :=
  let st := simState sim in
  let woofi_inflow_tokens :=
    if State.woo_price st >? 0
    then Dist.woofi_treasury_inflow_usd distributionData / State.woo_price st
    else 0 in
  let woox_inflow_tokens :=
    if State.woo_price st >? 0
    then Dist.woox_treasury_inflow_usd distributionData / State.woo_price st
    else 0 in
  let woofi :=
    State.woofi_treasury_balance st
    + (woofi_inflow_tokens - Burn.woofi_tokens_burned burnData) in
  let woox :=
    State.woox_treasury_balance st
    + (woox_inflow_tokens - Burn.woox_tokens_burned burnData) in
  set_simState (State.set_treasury (Math_max 0 woofi) (Math_max 0 woox) st) sim.

Definition updateTreasuryV2 (distributionData : Dist.t) (burnData : Burn.t)
    (sim : Sim) : Sim :=
  let st := simState sim in
  let woofi_inflow_tokens :=
    if State.woo_price st >? 0
    then Dist.woofi_treasury_inflow_usd distributionData / State.woo_price st
    else 0 in
  let woox_inflow_tokens :=
    if State.woo_price st >? 0
    then Dist.woox_treasury_inflow_usd distributionData / State.woo_price st
    else 0 in
  set_simState
    (State.set_treasury
       (State.woofi_treasury_balance st + woofi_inflow_tokens)
       (State.woox_treasury_balance st + woox_inflow_tokens) st) sim.

Definition updateTreasury (distributionData : Dist.t) (burnData : Burn.t)
    (sim : Sim) : Sim :=
  if is_v1 sim then updateTreasuryV1 distributionData burnData sim
  else updateTreasuryV2 distributionData burnData sim.

Definition updateStakerPositionsV1 (burnData : Burn.t) (sim : Sim) : Sim :=
  let st := simState sim in
  if Burn.market_purchase_tokens burnData >? 0
  then set_simState
         (State.set_total_staked_woo
            (State.total_staked_woo st + Burn.market_purchase_tokens burnData)
            st) sim
  else sim.

Definition updateStakerPositionsV2 (burnData : Burn.t) (sim : Sim) : Sim :=
  sim.

Definition updateStakerPositions (burnData : Burn.t) (sim : Sim) : Sim :=
  if is_v1 sim then updateStakerPositionsV1 burnData sim
  else updateStakerPositionsV2 burnData sim.

Definition updateSupply (burnData : Burn.t) (sim : Sim) : Sim :=
  let st := simState sim in
  if (Burn.tokens_burned burnData <? 0)
     || negb (isFinite (Burn.tokens_burned burnData))
     || (Burn.market_purchase_tokens burnData <? 0)
     || negb (isFinite (Burn.market_purchase_tokens burnData))
  then sim
  else
    set_simState
      (State.set_supply
         (State.total_supply st - Burn.tokens_burned burnData)
         (State.circulating_supply st - Burn.market_purchase_tokens burnData)
         (State.cumulative_tokens_burned st + Burn.tokens_burned burnData)
         st) sim.

(** [1 + permanent_impact + total_temporary_impact] *)
Definition price_change_multiplier (priceImpactData : Impact.t) : num :=
  1 + Impact.permanent_impact priceImpactData
  + Impact.total_temporary_impact priceImpactData.

Definition updatePrice (priceImpactData : Impact.t) (sim : Sim) : Sim :=
  let st := simState sim in
  let m := price_change_multiplier priceImpactData in
  if isNaN m || negb (isFinite m) || (m <=? 0)
  then sim
  else
    let woo_price := State.woo_price st * m in
    let woo_price := Math_max (lit 0.0001) (Math_min (lit 1000) woo_price) in
    set_simState
      (State.set_price woo_price
         (Impact.total_temporary_impact priceImpactData) st) sim.

Definition updateIntermediateVariables (feeData : FeeData.t)
    (distributionData : Dist.t) (burnData : Burn.t)
    (priceImpactData : Impact.t) (sim : Sim) : Sim :=
  let v1 := is_v1 sim in
  set_simState
    (State.set_tracking
       {| Tracking.total_gross_woofi_fees :=
            FeeData.total_gross_woofi_fees feeData;
          Tracking.gross_woofi_swap_fees :=
            FeeData.gross_woofi_swap_fees feeData;
          Tracking.gross_woofi_perp_fees :=
            FeeData.gross_woofi_perp_fees feeData;
          Tracking.woox_staker_rewards := FeeData.woox_staker_rewards feeData;
          Tracking.total_woox_fees := FeeData.total_woox_fees feeData;
          Tracking.woox_treasury_inflow :=
            FeeData.woox_treasury_inflow feeData;
          Tracking.total_staker_rewards_usd :=
            Dist.total_staker_rewards_usd distributionData;
          Tracking.woofi_treasury_inflow :=
            Dist.woofi_treasury_inflow_usd distributionData;
          Tracking.total_affiliate_cut :=
            Dist.total_affiliate_cut distributionData;
          Tracking.tokens_to_burn := Burn.tokens_burned burnData;
          Tracking.market_purchase_tokens :=
            Burn.market_purchase_tokens burnData;
          Tracking.usdc_to_stakers := Burn.usdc_to_stakers burnData;
          Tracking.auto_compound_usd :=
            if v1 then Burn.auto_compound_usd burnData else 0;
          Tracking.usdc_distribution :=
            if v1 then Burn.usdc_distribution burnData else 0;
          Tracking.buyback_usd :=
            if v1 then 0 else Burn.buyback_usd burnData;
          Tracking.buyback_burn_amount :=
            if v1 then 0 else Dist.buyback_burn_amount distributionData;
          Tracking.permanent_impact :=
            Impact.permanent_impact priceImpactData;
          Tracking.total_temporary_impact :=
            Impact.total_temporary_impact priceImpactData |}
       (simState sim)) sim.

(** ** History recording *)

(** [array.push(x)] *)
Definition push {A : Type} (l : list A) (x : A) : list A := l ++ [x].

(** The pushes of [recordHistory] that come before the first read of
    [simState.initial_values]. *)
Definition push_snapshot (sim : Sim) (burnData : Burn.t)
    (distributionData : Dist.t) (feeData : FeeData.t) (treasuryRunway : num)
    (h : History.t) : History.t :=
  let st := simState sim in
  let v1 := is_v1 sim in
  {| History.months := push (History.months h) (State.month st + 1);
     History.woofi_treasury :=
       push (History.woofi_treasury h)
            (State.woofi_treasury_balance st / lit 1e6);
     History.woox_treasury :=
       push (History.woox_treasury h)
            (State.woox_treasury_balance st / lit 1e6);
     History.circulating :=
       push (History.circulating h) (State.circulating_supply st / lit 1e6);
     History.staked :=
       push (History.staked h) (State.total_staked_woo st / lit 1e6);
     History.price := push (History.price h) (State.woo_price st);
     History.monthlyBurned :=
       push (History.monthlyBurned h) (Burn.tokens_burned burnData / lit 1e6);
     History.marketPurchases :=
       push (History.marketPurchases h)
            (Burn.market_purchase_tokens burnData / lit 1e6);
     History.permImpact :=
       push (History.permImpact h)
            (Tracking.permanent_impact (State.tracking st) * lit 100);
     History.tempImpact :=
       push (History.tempImpact h)
            (State.temporary_price_impact st * lit 100);
     History.usdc_distributed :=
       push (History.usdc_distributed h)
            (Burn.usdc_to_stakers burnData / lit 1e6);
     History.buyback_amounts :=
       push (History.buyback_amounts h)
            (if v1 then 0 else Burn.buyback_usd burnData / lit 1e6);
     History.auto_compound_amounts :=
       push (History.auto_compound_amounts h)
            (if v1 then Burn.auto_compound_usd burnData / lit 1e6 else 0);
     History.treasury_inflows :=
       push (History.treasury_inflows h)
            (Dist.woofi_treasury_inflow_usd distributionData / lit 1e6);
     History.woofi_fees_generated :=
       push (History.woofi_fees_generated h)
            (FeeData.total_gross_woofi_fees feeData / lit 1e6);
     History.woox_fees_generated :=
       push (History.woox_fees_generated h)
            (FeeData.total_woox_fees feeData / lit 1e6);
     History.woox_treasury_inflows :=
       push (History.woox_treasury_inflows h)
            (FeeData.woox_treasury_inflow feeData / lit 1e6);
     History.staker_fees_received :=
       push (History.staker_fees_received h)
            (Dist.staker_fees_total distributionData / lit 1e6);
     History.treasury_fees_received :=
       push (History.treasury_fees_received h)
            (Dist.treasury_fees_total distributionData / lit 1e6);
     History.orderly_fees_received :=
       push (History.orderly_fees_received h)
            (Dist.orderly_fees_total distributionData / lit 1e6);
     History.buyback_fees_received :=
       Some (push (match History.buyback_fees_received h with
                   | Some l => l
                   | None => []
                   end)
                  (Dist.buyback_fees_total distributionData / lit 1e6));
     History.treasury_runway_months :=
       push (History.treasury_runway_months h) treasuryRunway;
     History.price_change_pct := History.price_change_pct h;
     History.supply_reduction_pct := History.supply_reduction_pct h;
     History.cumulative_burned := History.cumulative_burned h;
     History.staking_ratio := History.staking_ratio h;
     History.treasury_runway := History.treasury_runway h |}.

(** The pushes that come after it. *)
Definition push_analytics (sim : Sim) (iv : InitialValues.t)
    (treasuryRunway : num) (h : History.t) : History.t :=
  let st := simState sim in
  {| History.months := History.months h;
     History.woofi_treasury := History.woofi_treasury h;
     History.woox_treasury := History.woox_treasury h;
     History.circulating := History.circulating h;
     History.staked := History.staked h;
     History.price := History.price h;
     History.monthlyBurned := History.monthlyBurned h;
     History.marketPurchases := History.marketPurchases h;
     History.permImpact := History.permImpact h;
     History.tempImpact := History.tempImpact h;
     History.usdc_distributed := History.usdc_distributed h;
     History.buyback_amounts := History.buyback_amounts h;
     History.auto_compound_amounts := History.auto_compound_amounts h;
     History.treasury_inflows := History.treasury_inflows h;
     History.woofi_fees_generated := History.woofi_fees_generated h;
     History.woox_fees_generated := History.woox_fees_generated h;
     History.woox_treasury_inflows := History.woox_treasury_inflows h;
     History.staker_fees_received := History.staker_fees_received h;
     History.treasury_fees_received := History.treasury_fees_received h;
     History.orderly_fees_received := History.orderly_fees_received h;
     History.buyback_fees_received := History.buyback_fees_received h;
     History.treasury_runway_months := History.treasury_runway_months h;
     History.price_change_pct :=
       push (History.price_change_pct h)
            ((State.woo_price st - InitialValues.price iv)
             / InitialValues.price iv * lit 100);
     History.supply_reduction_pct :=
       push (History.supply_reduction_pct h)
            (State.cumulative_tokens_burned st
             / InitialValues.circulating_supply iv * lit 100);
     History.cumulative_burned :=
       push (History.cumulative_burned h)
            (State.cumulative_tokens_burned st / lit 1e6);
     History.staking_ratio :=
       push (History.staking_ratio h)
            (State.total_staked_woo st / State.total_supply st * lit 100);
     History.treasury_runway :=
       push (History.treasury_runway h) treasuryRunway |}.

(** The accumulators of the loop over the trailing window:
    [annualUSDC], [annualBuybackUSD], [annualAutoCompoundUSD] and
    [annualTokensBurned]. *)
Record annual : Type := mkAnnual {
  annualUSDC : num;
  annualBuybackUSD : num;
  annualAutoCompoundUSD : num;
  annualTokensBurned : num
}.

(** [arr[i]] *)
Definition at_index (arr : list num) (i : nat) : option num := nth_error arr i.

(** The indices visited by
    [for (let i = startIndex; i < endIndex; i++) { ... }] with
    [startIndex = Math.max(0, months.length - 12)] and
    [endIndex = months.length]; the subtraction on [nat] stops at zero. *)
Definition annual_window (h : History.t) : list nat :=
  let endIndex := List.length (History.months h) in
  let startIndex := Nat.max 0 (endIndex - 12) in
  seq startIndex (endIndex - startIndex).

(** The body of that loop, folded over the window. *)
Definition annual_sums (h : History.t) : annual :=
  fold_left
    (fun acc i =>
       {| annualUSDC :=
            annualUSDC acc
            + or_zero (at_index (History.usdc_distributed h) i) * lit 1e6;
          annualBuybackUSD :=
            annualBuybackUSD acc
            + or_zero (at_index (History.buyback_amounts h) i) * lit 1e6;
          annualAutoCompoundUSD :=
            annualAutoCompoundUSD acc
            + or_zero (at_index (History.auto_compound_amounts h) i) * lit 1e6;
          annualTokensBurned :=
            annualTokensBurned acc
            + or_zero (at_index (History.monthlyBurned h) i) * lit 1e6 |})
    (annual_window h)
    (mkAnnual 0 0 0 0).

(** [isFinite(r) ? r : null] *)
Definition finite_or_null (r : num) : slot :=
  if isFinite r then number r else null.

(** [value > 0 ? marketCap / value : Infinity] *)
Definition ratio (marketCap value : num) : num :=
  if value >? 0 then marketCap / value else PInf.

(** The array index denoted by a number, if it denotes one. *)
Definition array_index (i : num) : option nat :=
  match i with
  | Fin q =>
      if Qc_eqb q (Q2Qc (inject_Z (Qfloor q))) && Qc_leb 0 q
      then Some (Z.to_nat (Qfloor q))
      else None
  | _ => None
  end.

(** [arr[i] = v] for an array index [i]: elements between the old end of
    the array and [i] are holes. *)
Fixpoint array_set (arr : list slot) (i : nat) (v : slot) : list slot :=
  match arr, i with
  | [], O => [v]
  | [], S j => hole :: array_set [] j v
  | _ :: rest, O => v :: rest
  | x :: rest, S j => x :: array_set rest j v
  end.

(** [arr[i] = v] for a number [i]; when [i] is not an array index the
    assignment defines a named property and leaves the elements alone. *)
Definition assign (arr : list slot) (i : num) (v : slot) : list slot :=
  match array_index i with
  | Some n => array_set arr n v
  | None => arr
  end.

(** [if (!arr) arr = []] *)
Definition or_empty (arr : option (list slot)) : list slot :=
  match arr with Some l => l | None => [] end.

(** The annual P/V block of [recordHistory], entered when
    [(month + 1) % 12 === 0]; [h] is [simState.history]. *)
Definition record_annual_ratios (h : History.t) (sim : Sim) : Sim :=
  let st := simState sim in
  let yearNumber := Math_floor ((State.month st + 1) / lit 12) in
  let marketCap := State.circulating_supply st * State.woo_price st in
  let sums := annual_sums h in
  if is_v1 sim then
    let annualBurnValue := annualTokensBurned sums * State.woo_price st in
    let totalAnnualValue :=
      annualUSDC sums + annualBurnValue + annualAutoCompoundUSD sums in
    let prRatio := ratio marketCap totalAnnualValue in
    set_simState
      (State.set_annual_pr
         (assign (or_empty (State.annual_pr_ratios st)) (yearNumber - 1)
                 (finite_or_null prRatio)) st) sim
  else
    let totalAnnualValueUSD := annualUSDC sums + annualBuybackUSD sums in
    let pvRatioUSD := ratio marketCap totalAnnualValueUSD in
    let annualBurnValue := annualTokensBurned sums * State.woo_price st in
    let totalAnnualValueMarket := annualUSDC sums + annualBurnValue in
    let pvRatioMarket := ratio marketCap totalAnnualValueMarket in
    set_simState
      (State.set_annual_pv
         (assign (or_empty (State.annual_pv_ratios_usd st)) (yearNumber - 1)
                 (finite_or_null pvRatioUSD))
         (assign (or_empty (State.annual_pv_ratios_market st))
                 (yearNumber - 1) (finite_or_null pvRatioMarket)) st) sim.

(** [try { body } catch (error) { handler }] *)
Definition try_catch {A : Type} (body handler : Sim -> completion A * Sim)
    (sim : Sim) : completion A * Sim :=
  match body sim with
  | (Normal a, sim') => (Normal a, sim')
  | (Thrown, sim') => handler sim'
  end.

(** [throw error] *)
Definition throw {A : Type} (sim : Sim) : completion A * Sim := (Thrown, sim).

(** The body of the [try] of [recordHistory].  Reading a property of
    [simState.history] or of [simState.initial_values] throws when that
    object is missing. *)
Definition recordHistory_body (burnData : Burn.t) (distributionData : Dist.t)
    (feeData : FeeData.t) (sim : Sim) : completion unit * Sim :=
  let st := simState sim in
  match State.history st with
  | None => throw sim
  | Some h =>
      let currentBurnRate := Burn.tokens_to_burn burnData / lit 1e6 in
      let totalTreasury :=
        (State.woofi_treasury_balance st + State.woox_treasury_balance st)
        / lit 1e6 in
      let treasuryRunway :=
        if currentBurnRate >? 0 then totalTreasury / currentBurnRate
        else PInf in
      let h :=
        push_snapshot sim burnData distributionData feeData treasuryRunway h in
      let sim := set_simState (State.set_history h st) sim in
      match State.initial_values st with
      | None => throw sim
      | Some iv =>
          let h := push_analytics sim iv treasuryRunway h in
          let sim := set_simState (State.set_history h (simState sim)) sim in
          if strict_eqb ((State.month st + 1) %% lit 12) 0
          then (Normal tt, record_annual_ratios h sim)
          else (Normal tt, sim)
      end
  end.

(** [recordHistory]: the handler logs and throws the error again. *)
Definition recordHistory (burnData : Burn.t) (distributionData : Dist.t)
    (feeData : FeeData.t) : Sim -> completion unit * Sim :=
  try_catch (recordHistory_body burnData distributionData feeData) throw.

(** ** The monthly step *)

(** [this.simState.month++] *)
Definition increment_month (sim : Sim) : Sim :=
  set_simState (State.set_month (State.month (simState sim) + 1) (simState sim))
               sim.

(** The body of the [try] of [simulationStep]. *)
Definition simulationStep_body (sim : Sim) : completion bool * Sim :=
  let feeData := calculateFees sim in
  let distributionData := distributeFees sim feeData in
  let burnData := calculateBuybackAndBurn sim distributionData in
  let priceImpactData := calculatePriceImpact sim burnData in
  let sim :=
    updateIntermediateVariables feeData distributionData burnData
      priceImpactData sim in
  let sim := updateTreasury distributionData burnData sim in
  let sim := updateStakerPositions burnData sim in
  let sim := updateSupply burnData sim in
  let sim := updatePrice priceImpactData sim in
  match recordHistory burnData distributionData feeData sim with
  | (Thrown, sim) => throw sim
  | (Normal _, sim) => (Normal true, increment_month sim)
  end.

(** [simulationStep()]: [true] to continue, [false] to stop. *)
Definition simulationStep (sim : Sim) : completion bool * Sim :=
  let currentMonth := State.month (simState sim) in
  if currentMonth >=? Params.simulation_months (simParams sim)
  then (Normal false, sim)
  else if is_v1 sim && (State.woofi_treasury_balance (simState sim) <=? 0)
  then (Normal false, sim)
  else try_catch simulationStep_body (fun sim' => (Normal false, sim')) sim.

(** [getState()] *)
Definition getState (sim : Sim) : State.t := simState sim.

(** The object after [n] further calls of [simulationStep], whatever each
    call returned. *)
Fixpoint steps (n : nat) (sim : Sim) : Sim :=
  match n with
  | O => sim
  | S k => steps k (snd (simulationStep sim))
  end.

(** ** Derived notions used by the statements *)

(** [a <= b] and [a < b] hold as JavaScript comparisons. *)
Definition le (a b : num) : Prop := (a <=? b) = true.
Definition lt (a b : num) : Prop := (a <? b) = true.
Infix "<=" := le : num_scope.
Infix "<" := lt : num_scope.

(** The values that one call of [simulationStep] computes from the object
    as it stands on entry. *)
Definition month_distribution (sim : Sim) : Dist.t :=
  distributeFees sim (calculateFees sim).
Definition month_burn (sim : Sim) : Burn.t :=
  calculateBuybackAndBurn sim (month_distribution sim).
Definition month_impact (sim : Sim) : Impact.t :=
  calculatePriceImpact sim (month_burn sim).


(** Projections of the object on the groups of fields that one stage owns. *)
Definition supply (sim : Sim) : num * num * num :=
  (State.total_supply (simState sim),
   State.circulating_supply (simState sim),
   State.cumulative_tokens_burned (simState sim)).
Definition pricing (sim : Sim) : num * num :=
  (State.woo_price (simState sim),
   State.temporary_price_impact (simState sim)).
Definition treasuries (sim : Sim) : num * num :=
  (State.woofi_treasury_balance (simState sim),
   State.woox_treasury_balance (simState sim)).


(** The object that reaches [recordHistory] in a step. *)
Definition before_recording (sim : Sim) : Sim :=
  let feeData := calculateFees sim in
  let distributionData := month_distribution sim in
  let burnData := month_burn sim in
  let priceImpactData := month_impact sim in
  updatePrice priceImpactData
    (updateSupply burnData
       (updateStakerPositions burnData
          (updateTreasury distributionData burnData
             (updateIntermediateVariables feeData distributionData burnData
                priceImpactData sim)))).

(** The two tests that end a run before the [try] of [simulationStep]. *)
Definition run_is_over (sim : Sim) : bool :=
  (State.month (simState sim) >=? Params.simulation_months (simParams sim))
  || (is_v1 sim && (State.woofi_treasury_balance (simState sim) <=? 0)).

(** The guard of [updateSupply]. *)
Definition invalid_burn_data (burnData : Burn.t) : bool :=
  (Burn.tokens_burned burnData <? 0)
  || negb (isFinite (Burn.tokens_burned burnData))
  || (Burn.market_purchase_tokens burnData <? 0)
  || negb (isFinite (Burn.market_purchase_tokens burnData)).

(** The order kept by [simulationStep]: a finite total supply below the
    ceiling and a circulating supply at most the total supply. *)
Definition supply_ordered (sim : Sim) : Prop :=
  State.circulating_supply (simState sim) <= State.total_supply (simState sim)
  /\ State.total_supply (simState sim) <= State.max_supply (simState sim)
  /\ isFinite (State.total_supply (simState sim)) = true.





(** [woo_price > 0 ? usd / woo_price : 0], the conversion of an inflow in
    [updateTreasuryV1] and [updateTreasuryV2]. *)
Definition inflow_tokens (sim : Sim) (usd : num) : num :=
  if State.woo_price (simState sim) >? 0
  then usd / State.woo_price (simState sim)
  else 0.

(** The guards of the burn stage of the active model: the tests under which
    [calculateAutoCompoundAndBurn] (v1) or [calculateBuybackAndBurnV2] (v2)
    returns its all-zero object for the month. *)
Definition burn_guard_fires (sim : Sim) : bool :=
  let d := month_distribution sim in
  let price := State.woo_price (simState sim) in
  if is_v1 sim
  then (Dist.total_staker_rewards_usd d <? 0)
       || negb (isFinite (Dist.total_staker_rewards_usd d))
       || (price <=? 0) || negb (isFinite price)
  else (Dist.buyback_burn_amount d <? 0)
       || negb (isFinite (Dist.buyback_burn_amount d))
       || (price <=? 0) || negb (isFinite price).

Definition present (o : option num) : bool :=
  match o with Some _ => true | None => false end.

(** The controls whose [.value] the two object literals of [initialize]
    read under model [model]. *)
Definition params_controls_present (controls : Controls.t) (model : string)
  : bool :=
  present (Controls.woofiSwapVolume controls)
  && present (Controls.woofiPerpVolume controls)
  && present (Controls.wooxVolume controls)
  && (if String.eqb model "v1"
      then present (Controls.autoCompoundRate controls)
      else present (Controls.buybackBurnShare controls)
           && present (Controls.stakerShare controls)
           && present (Controls.treasuryShare controls)
           && present (Controls.wooxStakerBps controls))
  && present (Controls.affiliateCut controls)
  && present (Controls.woofiTradingFeeRate controls)
  && present (Controls.supplyElasticity controls)
  && present (Controls.buyingPressureElasticity controls)
  && present (Controls.buyingPressureDecay controls)
  && present (Controls.simulationDuration controls)
  && present (Controls.circulatingSupply controls).

Definition state_controls_present (controls : Controls.t) : bool :=
  present (Controls.initialStaked controls)
  && present (Controls.initialWoofiTreasury controls)
  && present (Controls.initialWooxTreasury controls).

Definition controls_present (controls : Controls.t) (model : string) : bool :=
  params_controls_present controls model && state_controls_present controls.

(** The three annual ratio arrays of [simState]. *)
Definition annuals (sim : Sim)
  : option (list slot) * option (list slot) * option (list slot) :=
  (State.annual_pv_ratios_usd (simState sim),
   State.annual_pv_ratios_market (simState sim),
   State.annual_pr_ratios (simState sim)).

(** The element at index [i] of an annual array, if there is one. *)
Definition stored (arr : option (list slot)) (i : nat) : option slot :=
  nth_error (or_empty arr) i.

(** [marketCap] and the three denominators of the annual block, for the
    history [h] and the object [sim] at the time of recording. *)
Definition market_cap (sim : Sim) : num :=
  State.circulating_supply (simState sim) * State.woo_price (simState sim).
Definition pr_total_annual_value (h : History.t) (sim : Sim) : num :=
  annualUSDC (annual_sums h)
  + annualTokensBurned (annual_sums h) * State.woo_price (simState sim)
  + annualAutoCompoundUSD (annual_sums h).
Definition pv_total_annual_value_usd (h : History.t) : num :=
  annualUSDC (annual_sums h) + annualBuybackUSD (annual_sums h).
Definition pv_total_annual_value_market (h : History.t) (sim : Sim) : num :=
  annualUSDC (annual_sums h)
  + annualTokensBurned (annual_sums h) * State.woo_price (simState sim).

(** What the annual block stores for a market cap and a denominator. *)
Definition stored_ratio (marketCap value : num) : slot :=
  finite_or_null (ratio marketCap value).

(** The history that [recordHistory] has built when it reaches the annual
    block, from the history [h] and initial values [iv] it found. *)
Definition recorded_history (b : Burn.t) (d : Dist.t) (f : FeeData.t)
    (sim : Sim) (h : History.t) (iv : InitialValues.t) : History.t :=
  let st := simState sim in
  let currentBurnRate := Burn.tokens_to_burn b / lit 1e6 in
  let totalTreasury :=
    (State.woofi_treasury_balance st + State.woox_treasury_balance st)
    / lit 1e6 in
  let treasuryRunway :=
    if currentBurnRate >? 0 then totalTreasury / currentBurnRate else PInf in
  let h1 := push_snapshot sim b d f treasuryRunway h in
  push_analytics (set_simState (State.set_history h1 st) sim) iv
    treasuryRunway h1.

(** An object whose month counter is a natural number and whose history
    and initial values exist, as [initialize] leaves it and every step keeps
    it. *)
Definition initialised (sim : Sim) : Prop :=
  exists (m : Z) h iv,
    (0 <= m)%Z
    /\ State.month (simState sim) = of_Z m
    /\ State.history (simState sim) = Some h
    /\ State.initial_values (simState sim) = Some iv.

(** ** The driver and the slider balancer (main.js, ui.js) *)

(** [Math.round(x)]: the nearest integer, halves going up. *)
Definition Math_round (a : num) : num :=
  match a with
  | Fin x => of_Z (Qfloor (x + Q2Qc (1 # 2))%Qc)
  | _ => a
  end.

(** The body of the [input] listener that [setupFeeDistributionSliders]
    attaches to each of the three fee sliders.  [changedValue] is
    [parseInt(e.target.value)], [otherValues] the [parseInt] of the values of
    the other sliders; the result lists the numbers assigned to the [value]
    of those sliders, in the same order. *)
Definition balance_other_sliders (changedValue : num) (otherValues : list num)
  : list num :=
  let remaining := lit 100 - changedValue in
  let otherTotal := fold_left (fun sum val => sum + val) otherValues 0 in
  if otherTotal >? 0
  then map (fun value =>
              let proportion := value / otherTotal in
              let newValue := Math_round (remaining * proportion) in
              Math_max 0 newValue)
           otherValues
  else
    let equalShare :=
      Math_floor (remaining / of_Z (Z.of_nat (List.length otherValues))) in
    map (fun _ => equalShare) otherValues.

(** The timer callback of [startSimulation] (main.js), ticking at most
    [ticks] times.  Each tick calls [simulationStep], then
    [this.updateDisplay()], and stops the timer when the step did not return
    [true] or when the callback caught an error.  The display code writes to
    the page and to the charts and only reads the simulation; it is a
    parameter here, with the outcome of the call as its result.  The boolean
    tells whether the timer was stopped. *)
Section Timer.

Variable updateDisplay : Sim -> completion unit.

Fixpoint run_timer (ticks : nat) (sim : Sim) : bool * Sim :=
  match ticks with
  | O => (false, sim)
  | S k =>
      match simulationStep sim with
      | (Normal continueSimulation, sim') =>
          match updateDisplay sim' with
          | Normal _ =>
              if continueSimulation then run_timer k sim' else (true, sim')
          | Thrown => (true, sim')
          end
      | (Thrown, sim') => (true, sim')
      end
  end.

End Timer.

(** The lengths of the parallel arrays of the history. *)
Definition history_lengths (h : History.t) : list nat :=
  [ List.length (History.months h);
    List.length (History.woofi_treasury h);
    List.length (History.woox_treasury h);
    List.length (History.circulating h);
    List.length (History.staked h);
    List.length (History.price h);
    List.length (History.monthlyBurned h);
    List.length (History.marketPurchases h);
    List.length (History.permImpact h);
    List.length (History.tempImpact h);
    List.length (History.usdc_distributed h);
    List.length (History.buyback_amounts h);
    List.length (History.auto_compound_amounts h);
    List.length (History.treasury_inflows h);
    List.length (History.woofi_fees_generated h);
    List.length (History.woox_fees_generated h);
    List.length (History.woox_treasury_inflows h);
    List.length (History.staker_fees_received h);
    List.length (History.treasury_fees_received h);
    List.length (History.orderly_fees_received h);
    List.length (match History.buyback_fees_received h with
                 | Some l => l
                 | None => []
                 end);
    List.length (History.treasury_runway_months h);
    List.length (History.price_change_pct h);
    List.length (History.supply_reduction_pct h);
    List.length (History.cumulative_burned h);
    List.length (History.staking_ratio h);
    List.length (History.treasury_runway h) ].

(** The month numbers [1], ..., [n]. *)
Definition month_numbers (n : nat) : list num :=
  map (fun k => of_Z (Z.of_nat k)) (seq 1 n).


(** An annual array that holds exactly [years] elements, none of them a
    hole. *)
Definition dense (arr : option (list slot)) (years : nat) : Prop :=
  List.length (or_empty arr) = years
  /\ Forall (fun x => x <> hole) (or_empty arr).

(** The last entry of each state series of the history [h] is the value in
    the state [st]; [arr[arr.length - 1]] of an empty array is [undefined],
    hence the default. *)
Definition last_record_matches (h : History.t) (st : State.t) : Prop :=
  last (History.months h) NaN = State.month st
  /\ last (History.price h) NaN = State.woo_price st
  /\ last (History.circulating h) NaN
     = State.circulating_supply st / lit 1e6
  /\ last (History.staked h) NaN = State.total_staked_woo st / lit 1e6
  /\ last (History.woofi_treasury h) NaN
     = State.woofi_treasury_balance st / lit 1e6
  /\ last (History.woox_treasury h) NaN
     = State.woox_treasury_balance st / lit 1e6
  /\ last (History.cumulative_burned h) NaN
     = State.cumulative_tokens_burned st / lit 1e6
  /\ last (History.tempImpact h) NaN
     = State.temporary_price_impact st * lit 100.

(** The state of the annual arrays after [years] completed years: the array
    (v1) or the two arrays (v2) of the model hold [years] elements, and the
    arrays of the other model are as [initialize] left them. *)
Definition annual_arrays_hold (sim : Sim) (years : nat) : Prop :=
  if is_v1 sim
  then dense (State.annual_pr_ratios (simState sim)) years
       /\ State.annual_pv_ratios_usd (simState sim) = Some []
       /\ State.annual_pv_ratios_market (simState sim) = Some []
  else dense (State.annual_pv_ratios_usd (simState sim)) years
       /\ dense (State.annual_pv_ratios_market (simState sim)) years
       /\ State.annual_pr_ratios (simState sim) = None.

(** [years] of [createPriceToRevenueCards(simulationMonths)] (ui.js): the
    page gets one card (v1) or one pair of cards (v2) for each year from 1 to
    [Math.floor(simulationMonths / 12)]. *)
Definition card_years (simulationMonths : num) : num :=
  Math_floor (simulationMonths / lit 12).

(** [currentYear] of [updatePriceToRevenueCards(simState)] (ui.js), the
    number of the card that shows the progress of the running year. *)
Definition currentYear (st : State.t) : num :=
  Math_floor (State.month st / lit 12) + 1.

(** ** Example inputs *)

(** The controls with one of them changed. *)
Definition with_circulatingSupply (v : option num) (c : Controls.t)
  : Controls.t :=
  Controls.mk (Controls.woofiSwapVolume c) (Controls.woofiPerpVolume c)
    (Controls.wooxVolume c) (Controls.autoCompoundRate c)
    (Controls.buybackBurnShare c) (Controls.stakerShare c)
    (Controls.treasuryShare c) (Controls.wooxStakerBps c)
    (Controls.affiliateCut c) (Controls.woofiTradingFeeRate c)
    (Controls.supplyElasticity c) (Controls.buyingPressureElasticity c)
    (Controls.buyingPressureDecay c) (Controls.simulationDuration c) v
    (Controls.initialStaked c) (Controls.initialWoofiTreasury c)
    (Controls.initialWooxTreasury c).

Definition with_buybackBurnShare (v : option num) (c : Controls.t)
  : Controls.t :=
  Controls.mk (Controls.woofiSwapVolume c) (Controls.woofiPerpVolume c)
    (Controls.wooxVolume c) (Controls.autoCompoundRate c) v
    (Controls.stakerShare c) (Controls.treasuryShare c)
    (Controls.wooxStakerBps c) (Controls.affiliateCut c)
    (Controls.woofiTradingFeeRate c) (Controls.supplyElasticity c)
    (Controls.buyingPressureElasticity c) (Controls.buyingPressureDecay c)
    (Controls.simulationDuration c) (Controls.circulatingSupply c)
    (Controls.initialStaked c) (Controls.initialWoofiTreasury c)
    (Controls.initialWooxTreasury c).

Definition with_stakerShare (v : option num) (c : Controls.t)
  : Controls.t :=
  Controls.mk (Controls.woofiSwapVolume c) (Controls.woofiPerpVolume c)
    (Controls.wooxVolume c) (Controls.autoCompoundRate c)
    (Controls.buybackBurnShare c) v (Controls.treasuryShare c)
    (Controls.wooxStakerBps c) (Controls.affiliateCut c)
    (Controls.woofiTradingFeeRate c) (Controls.supplyElasticity c)
    (Controls.buyingPressureElasticity c) (Controls.buyingPressureDecay c)
    (Controls.simulationDuration c) (Controls.circulatingSupply c)
    (Controls.initialStaked c) (Controls.initialWoofiTreasury c)
    (Controls.initialWooxTreasury c).

Definition with_woofiSwapVolume (v : option num) (c : Controls.t)
  : Controls.t :=
  Controls.mk v (Controls.woofiPerpVolume c) (Controls.wooxVolume c)
    (Controls.autoCompoundRate c) (Controls.buybackBurnShare c)
    (Controls.stakerShare c) (Controls.treasuryShare c)
    (Controls.wooxStakerBps c) (Controls.affiliateCut c)
    (Controls.woofiTradingFeeRate c) (Controls.supplyElasticity c)
    (Controls.buyingPressureElasticity c) (Controls.buyingPressureDecay c)
    (Controls.simulationDuration c) (Controls.circulatingSupply c)
    (Controls.initialStaked c) (Controls.initialWoofiTreasury c)
    (Controls.initialWooxTreasury c).

Definition with_affiliateCut (v : option num) (c : Controls.t)
  : Controls.t :=
  Controls.mk (Controls.woofiSwapVolume c) (Controls.woofiPerpVolume c)
    (Controls.wooxVolume c) (Controls.autoCompoundRate c)
    (Controls.buybackBurnShare c) (Controls.stakerShare c)
    (Controls.treasuryShare c) (Controls.wooxStakerBps c) v
    (Controls.woofiTradingFeeRate c) (Controls.supplyElasticity c)
    (Controls.buyingPressureElasticity c) (Controls.buyingPressureDecay c)
    (Controls.simulationDuration c) (Controls.circulatingSupply c)
    (Controls.initialStaked c) (Controls.initialWoofiTreasury c)
    (Controls.initialWooxTreasury c).

Definition with_buyingPressureDecay (v : option num) (c : Controls.t)
  : Controls.t :=
  Controls.mk (Controls.woofiSwapVolume c) (Controls.woofiPerpVolume c)
    (Controls.wooxVolume c) (Controls.autoCompoundRate c)
    (Controls.buybackBurnShare c) (Controls.stakerShare c)
    (Controls.treasuryShare c) (Controls.wooxStakerBps c)
    (Controls.affiliateCut c) (Controls.woofiTradingFeeRate c)
    (Controls.supplyElasticity c) (Controls.buyingPressureElasticity c) v
    (Controls.simulationDuration c) (Controls.circulatingSupply c)
    (Controls.initialStaked c) (Controls.initialWoofiTreasury c)
    (Controls.initialWooxTreasury c).

Definition with_initialStaked (v : option num) (c : Controls.t)
  : Controls.t :=
  Controls.mk (Controls.woofiSwapVolume c) (Controls.woofiPerpVolume c)
    (Controls.wooxVolume c) (Controls.autoCompoundRate c)
    (Controls.buybackBurnShare c) (Controls.stakerShare c)
    (Controls.treasuryShare c) (Controls.wooxStakerBps c)
    (Controls.affiliateCut c) (Controls.woofiTradingFeeRate c)
    (Controls.supplyElasticity c) (Controls.buyingPressureElasticity c)
    (Controls.buyingPressureDecay c) (Controls.simulationDuration c)
    (Controls.circulatingSupply c) v (Controls.initialWoofiTreasury c)
    (Controls.initialWooxTreasury c).

Definition with_wooxVolume (v : option num) (c : Controls.t)
  : Controls.t :=
  Controls.mk (Controls.woofiSwapVolume c) (Controls.woofiPerpVolume c) v
    (Controls.autoCompoundRate c) (Controls.buybackBurnShare c)
    (Controls.stakerShare c) (Controls.treasuryShare c)
    (Controls.wooxStakerBps c) (Controls.affiliateCut c)
    (Controls.woofiTradingFeeRate c) (Controls.supplyElasticity c)
    (Controls.buyingPressureElasticity c) (Controls.buyingPressureDecay c)
    (Controls.simulationDuration c) (Controls.circulatingSupply c)
    (Controls.initialStaked c) (Controls.initialWoofiTreasury c)
    (Controls.initialWooxTreasury c).

(** The object after [initialize] on the default controls, under each
    model. *)
Definition default_v1 : Sim :=
  snd (initialize DEFAULT_VALUES (Some "v1"%string) constructor).
Definition default_v2 : Sim :=
  snd (initialize DEFAULT_VALUES (Some "v2"%string) constructor).

(** Controls whose circulating supply (2,500 million) exceeds the configured
    total supply. *)
Definition oversupplied_controls : Controls.t :=
  with_circulatingSupply (Some (lit 2500)) DEFAULT_VALUES.
Definition oversupplied_v2 : Sim :=
  snd (initialize oversupplied_controls (Some "v2"%string) constructor).

(** A run under v2 with no buyback allocation and a decay of 50 percent:
    nothing is bought or burned and the buying pressure is zero. *)
Definition no_buyback_controls : Controls.t :=
  with_buybackBurnShare (Some (lit 0))
    (with_stakerShare (Some (lit 80))
       (with_buyingPressureDecay (Some (lit 50)) DEFAULT_VALUES)).
Definition no_buyback_v2 : Sim :=
  snd (initialize no_buyback_controls (Some "v2"%string) constructor).


(** A run under v2 whose circulating-supply control is 0.0625 (million),
    that is 62,500 tokens. *)
Definition scarce_controls : Controls.t :=
  with_circulatingSupply (Some (lit 0.0625)) DEFAULT_VALUES.
Definition scarce_v2 : Sim :=
  snd (initialize scarce_controls (Some "v2"%string) constructor).

(** Controls whose buyback share is not a number (an empty text field). *)
Definition nan_buyback_controls : Controls.t :=
  with_buybackBurnShare (Some NaN) DEFAULT_VALUES.
Definition nan_buyback_v2 : Sim :=
  snd (initialize nan_buyback_controls (Some "v2"%string) constructor).

(** Controls with a swap volume that is not a number and a staker share of
    500 percent. *)
Definition invalid_controls : Controls.t :=
  with_woofiSwapVolume (Some NaN)
    (with_stakerShare (Some (lit 500)) DEFAULT_VALUES).

(** Controls without the [initialStaked] element. *)
Definition incomplete_controls : Controls.t :=
  with_initialStaked None DEFAULT_VALUES.

(** A run under v1 with no swap and no WOO X volume and an affiliate cut of
    200 percent: the net perpetual fees, and with them the staker rewards,
    are negative. *)
Definition overcut_controls : Controls.t :=
  with_woofiSwapVolume (Some (lit 0))
    (with_wooxVolume (Some (lit 0))
       (with_affiliateCut (Some (lit 200)) DEFAULT_VALUES)).
Definition overcut_v1 : Sim :=
  snd (initialize overcut_controls (Some "v1"%string) constructor).

(** A run under v2 without fees: every denominator of the annual block is
    zero. *)
Definition idle_controls : Controls.t :=
  with_woofiSwapVolume (Some (lit 0))
    (with_wooxVolume (Some (lit 0))
       (with_affiliateCut (Some (lit 100)) DEFAULT_VALUES)).
Definition idle_v2 : Sim :=
  snd (initialize idle_controls (Some "v2"%string) constructor).

Definition with_simulationDuration (v : option num) (c : Controls.t)
  : Controls.t :=
  Controls.mk (Controls.woofiSwapVolume c) (Controls.woofiPerpVolume c)
    (Controls.wooxVolume c)
    (Controls.autoCompoundRate c) (Controls.buybackBurnShare c)
    (Controls.stakerShare c) (Controls.treasuryShare c)
    (Controls.wooxStakerBps c) (Controls.affiliateCut c)
    (Controls.woofiTradingFeeRate c) (Controls.supplyElasticity c)
    (Controls.buyingPressureElasticity c) (Controls.buyingPressureDecay c)
    v (Controls.circulatingSupply c)
    (Controls.initialStaked c) (Controls.initialWoofiTreasury c)
    (Controls.initialWooxTreasury c).

(** The run without buyback with a duration that is not a number. *)
Definition endless_controls : Controls.t :=
  with_simulationDuration (Some NaN) no_buyback_controls.
Definition endless_v2 : Sim :=
  snd (initialize endless_controls (Some "v2"%string) constructor).

(** * Properties *)

(** ** Arithmetic of [num] *)

Lemma Qc_ltb_true x y : Qc_ltb x y = true <-> (x < y)%Qc.
Proof.
  unfold Qc_ltb. rewrite Qclt_alt. destruct (x ?= y)%Qc; split; congruence.
Qed.

Lemma Qc_ltb_false x y : Qc_ltb x y = false <-> (y <= x)%Qc.
Proof.
  unfold Qc_ltb. split.
  - intros H. apply Qcnot_lt_le. rewrite Qclt_alt.
    destruct (x ?= y)%Qc; congruence.
  - intros H. destruct (x ?= y)%Qc eqn:E; try reflexivity.
    apply Qclt_alt in E. exfalso. eapply Qcle_not_lt; eauto.
Qed.

Lemma Qc_leb_true x y : Qc_leb x y = true <-> (x <= y)%Qc.
Proof.
  unfold Qc_leb. rewrite Qcle_alt. destruct (x ?= y)%Qc; split; congruence.
Qed.

Lemma Qc_leb_false x y : Qc_leb x y = false <-> (y < x)%Qc.
Proof.
  unfold Qc_leb. rewrite (Qcgt_alt x y).
  destruct (x ?= y)%Qc; split; congruence.
Qed.

Lemma Qc_eqb_true x y : Qc_eqb x y = true <-> x = y.
Proof.
  unfold Qc_eqb. rewrite Qceq_alt. destruct (x ?= y)%Qc; split; congruence.
Qed.

Lemma Qc_eqb_false x y : Qc_eqb x y = false <-> x <> y.
Proof.
  rewrite <- Qc_eqb_true. destruct (Qc_eqb x y); split; congruence.
Qed.

Lemma this_plus (x y : Qc) : (this (x + y)%Qc == this x + this y)%Q.
Proof. unfold Qcplus, Q2Qc. cbn [this]. apply Qred_correct. Qed.

Lemma this_opp (x : Qc) : (this (- x)%Qc == - this x)%Q.
Proof. unfold Qcopp, Q2Qc. cbn [this]. apply Qred_correct. Qed.

Lemma this_minus (x y : Qc) : (this (x - y)%Qc == this x - this y)%Q.
Proof. unfold Qcminus. rewrite this_plus, this_opp. reflexivity. Qed.

Lemma this_mult (x y : Qc) : (this (x * y)%Qc == this x * this y)%Q.
Proof. unfold Qcmult, Q2Qc. cbn [this]. apply Qred_correct. Qed.

Lemma this_Q2Qc (q : Q) : (this (Q2Qc q) == q)%Q.
Proof. unfold Q2Qc. cbn [this]. apply Qred_correct. Qed.

(** Moves comparisons of canonical rationals to [Q], where [lra] works. *)
Ltac qc_to_q :=
  repeat match goal with
  | H : Qc_ltb _ _ = true |- _ => apply Qc_ltb_true in H
  | H : Qc_ltb _ _ = false |- _ => apply Qc_ltb_false in H
  | H : Qc_leb _ _ = true |- _ => apply Qc_leb_true in H
  | H : Qc_leb _ _ = false |- _ => apply Qc_leb_false in H
  | |- Qc_ltb _ _ = true => apply Qc_ltb_true
  | |- Qc_ltb _ _ = false => apply Qc_ltb_false
  | |- Qc_leb _ _ = true => apply Qc_leb_true
  | |- Qc_leb _ _ = false => apply Qc_leb_false
  end;
  unfold Qcle, Qclt in *;
  repeat match goal with
  | H : context [this (_ + _)%Qc] |- _ => rewrite this_plus in H
  | H : context [this (_ - _)%Qc] |- _ => rewrite this_minus in H
  | H : context [this (- _)%Qc] |- _ => rewrite this_opp in H
  | H : context [this (_ * _)%Qc] |- _ => rewrite this_mult in H
  | H : context [this (Q2Qc _)] |- _ => rewrite this_Q2Qc in H
  | |- context [this (_ + _)%Qc] => rewrite this_plus
  | |- context [this (_ - _)%Qc] => rewrite this_minus
  | |- context [this (- _)%Qc] => rewrite this_opp
  | |- context [this (_ * _)%Qc] => rewrite this_mult
  | |- context [this (Q2Qc _)] => rewrite this_Q2Qc
  end.

Ltac qc_lra := qc_to_q; lra.



Lemma finite_nonneg (x : num) :
  (x <? 0) || negb (isFinite x) = false ->
  exists q, x = Fin q /\ (0 <= q)%Qc.
Proof.
  destruct x; cbn; try discriminate.
  rewrite orb_false_r. intros H. exists q. split; [reflexivity |].
  now apply Qc_ltb_false.
Qed.

#[local] Arguments add : simpl never.
#[local] Arguments sub : simpl never.
#[local] Arguments mul : simpl never.
#[local] Arguments div : simpl never.
#[local] Arguments ltb : simpl never.
#[local] Arguments leb : simpl never.
#[local] Arguments Math_min : simpl never.
#[local] Arguments Math_max : simpl never.
#[local] Arguments lit : simpl never.

(** ** What each stage leaves alone *)

Ltac split_ifs :=
  repeat match goal with
  | |- context [if ?b then _ else _] => destruct b
  end.

Lemma recordHistory_frame b d f sim :
  let sim' := snd (recordHistory b d f sim) in
  supply sim' = supply sim /\ pricing sim' = pricing sim
  /\ treasuries sim' = treasuries sim
  /\ State.month (simState sim') = State.month (simState sim)
  /\ modelVersion sim' = modelVersion sim /\ simParams sim' = simParams sim.
Proof.
  unfold recordHistory, try_catch, recordHistory_body, throw,
    record_annual_ratios.
  destruct (State.history (simState sim));
    [destruct (State.initial_values (simState sim)) |];
    split_ifs; cbn; repeat split.
Qed.

Lemma updateSupply_frame b sim :
  pricing (updateSupply b sim) = pricing sim
  /\ treasuries (updateSupply b sim) = treasuries sim
  /\ State.month (simState (updateSupply b sim)) = State.month (simState sim)
  /\ State.history (simState (updateSupply b sim)) = State.history (simState sim)
  /\ State.initial_values (simState (updateSupply b sim))
     = State.initial_values (simState sim)
  /\ modelVersion (updateSupply b sim) = modelVersion sim
  /\ simParams (updateSupply b sim) = simParams sim.
Proof. unfold updateSupply. split_ifs; cbn; repeat split. Qed.

Lemma updatePrice_frame i sim :
  supply (updatePrice i sim) = supply sim
  /\ treasuries (updatePrice i sim) = treasuries sim
  /\ State.month (simState (updatePrice i sim)) = State.month (simState sim)
  /\ State.history (simState (updatePrice i sim)) = State.history (simState sim)
  /\ State.initial_values (simState (updatePrice i sim))
     = State.initial_values (simState sim)
  /\ modelVersion (updatePrice i sim) = modelVersion sim
  /\ simParams (updatePrice i sim) = simParams sim.
Proof. unfold updatePrice. split_ifs; cbn; repeat split. Qed.

Lemma updateTreasury_frame d b sim :
  supply (updateTreasury d b sim) = supply sim
  /\ pricing (updateTreasury d b sim) = pricing sim
  /\ State.month (simState (updateTreasury d b sim))
     = State.month (simState sim)
  /\ State.history (simState (updateTreasury d b sim))
     = State.history (simState sim)
  /\ State.initial_values (simState (updateTreasury d b sim))
     = State.initial_values (simState sim)
  /\ modelVersion (updateTreasury d b sim) = modelVersion sim
  /\ simParams (updateTreasury d b sim) = simParams sim.
Proof.
  unfold updateTreasury, updateTreasuryV1, updateTreasuryV2.
  destruct (is_v1 sim); cbn; repeat split.
Qed.

Lemma updateStakerPositions_frame b sim :
  supply (updateStakerPositions b sim) = supply sim
  /\ pricing (updateStakerPositions b sim) = pricing sim
  /\ treasuries (updateStakerPositions b sim) = treasuries sim
  /\ State.month (simState (updateStakerPositions b sim))
     = State.month (simState sim)
  /\ State.history (simState (updateStakerPositions b sim))
     = State.history (simState sim)
  /\ State.initial_values (simState (updateStakerPositions b sim))
     = State.initial_values (simState sim)
  /\ modelVersion (updateStakerPositions b sim) = modelVersion sim
  /\ simParams (updateStakerPositions b sim) = simParams sim.
Proof.
  unfold updateStakerPositions, updateStakerPositionsV1,
    updateStakerPositionsV2.
  split_ifs; cbn; repeat split.
Qed.

Lemma updateIntermediateVariables_frame f d b i sim :
  let sim' := updateIntermediateVariables f d b i sim in
  supply sim' = supply sim /\ pricing sim' = pricing sim
  /\ treasuries sim' = treasuries sim
  /\ State.month (simState sim') = State.month (simState sim)
  /\ State.history (simState sim') = State.history (simState sim)
  /\ State.initial_values (simState sim')
     = State.initial_values (simState sim)
  /\ modelVersion sim' = modelVersion sim /\ simParams sim' = simParams sim.
Proof. cbn. repeat split. Qed.

Lemma increment_month_frame sim :
  supply (increment_month sim) = supply sim
  /\ pricing (increment_month sim) = pricing sim
  /\ treasuries (increment_month sim) = treasuries sim
  /\ State.month (simState (increment_month sim))
     = State.month (simState sim) + 1
  /\ modelVersion (increment_month sim) = modelVersion sim
  /\ simParams (increment_month sim) = simParams sim.
Proof. cbn. repeat split. Qed.

Lemma is_v1_ext s1 s2 : modelVersion s1 = modelVersion s2 -> is_v1 s1 = is_v1 s2.
Proof. unfold is_v1. now intros ->. Qed.

Lemma updateSupply_supply b s1 s2 :
  supply s1 = supply s2 ->
  supply (updateSupply b s1) = supply (updateSupply b s2).
Proof.
  unfold supply, updateSupply. intros H. injection H as Ht Hc Hb.
  split_ifs; cbn; congruence.
Qed.

Lemma updatePrice_pricing i s1 s2 :
  pricing s1 = pricing s2 ->
  pricing (updatePrice i s1) = pricing (updatePrice i s2).
Proof.
  unfold pricing, updatePrice. intros H. injection H as Hp Ht.
  split_ifs; cbn; congruence.
Qed.

Lemma updateTreasury_treasuries d b s1 s2 :
  treasuries s1 = treasuries s2 -> pricing s1 = pricing s2 ->
  modelVersion s1 = modelVersion s2 ->
  treasuries (updateTreasury d b s1) = treasuries (updateTreasury d b s2).
Proof.
  unfold treasuries, pricing, updateTreasury, updateTreasuryV1,
    updateTreasuryV2.
  intros H1 H2 Hv. injection H1 as Hf Hx. injection H2 as Hp _.
  rewrite (is_v1_ext _ _ Hv). destruct (is_v1 s2); cbn; rewrite Hf, Hx, Hp;
    reflexivity.
Qed.

Lemma before_recording_effect sim :
  let sim' := before_recording sim in
  supply sim' = supply (updateSupply (month_burn sim) sim)
  /\ pricing sim' = pricing (updatePrice (month_impact sim) sim)
  /\ treasuries sim'
     = treasuries
         (updateTreasury (month_distribution sim) (month_burn sim) sim)
  /\ State.month (simState sim') = State.month (simState sim)
  /\ State.history (simState sim') = State.history (simState sim)
  /\ State.initial_values (simState sim')
     = State.initial_values (simState sim)
  /\ modelVersion sim' = modelVersion sim /\ simParams sim' = simParams sim.
Proof.
  unfold before_recording.
  set (f := calculateFees sim). set (d := month_distribution sim).
  set (b := month_burn sim). set (i := month_impact sim).
  destruct (updateIntermediateVariables_frame f d b i sim)
    as (S1 & P1 & T1 & M1 & H1 & I1 & V1 & Q1).
  set (s1 := updateIntermediateVariables f d b i sim) in *.
  destruct (updateTreasury_frame d b s1) as (S2 & P2 & M2 & H2 & I2 & V2 & Q2).
  set (s2 := updateTreasury d b s1) in *.
  destruct (updateStakerPositions_frame b s2)
    as (S3 & P3 & T3 & M3 & H3 & I3 & V3 & Q3).
  set (s3 := updateStakerPositions b s2) in *.
  destruct (updateSupply_frame b s3) as (P4 & T4 & M4 & H4 & I4 & V4 & Q4).
  set (s4 := updateSupply b s3) in *.
  destruct (updatePrice_frame i s4) as (S5 & T5 & M5 & H5 & I5 & V5 & Q5).
  cbv zeta. repeat split; try congruence.
  - rewrite S5. apply updateSupply_supply. congruence.
  - apply updatePrice_pricing. congruence.
  - rewrite T5, T4, T3. apply updateTreasury_treasuries; congruence.
Qed.

Lemma simulationStep_body_unfold sim :
  simulationStep_body sim =
  match
    recordHistory (month_burn sim) (month_distribution sim)
      (calculateFees sim) (before_recording sim)
  with
  | (Thrown, sim') => (Thrown, sim')
  | (Normal _, sim') => (Normal true, increment_month sim')
  end.
Proof. reflexivity. Qed.

(** [recordHistory] throws exactly when one of the two objects it reads
    through is missing. *)
Lemma recordHistory_thrown b d f sim :
  fst (recordHistory b d f sim) = Thrown <->
  State.history (simState sim) = None
  \/ State.initial_values (simState sim) = None.
Proof.
  unfold recordHistory, try_catch, recordHistory_body, throw.
  destruct (State.history (simState sim));
    [destruct (State.initial_values (simState sim)) |];
    split_ifs; cbn; intuition congruence.
Qed.

Lemma simulationStep_body_effect sim :
  let r := simulationStep_body sim in
  supply (snd r) = supply (updateSupply (month_burn sim) sim)
  /\ pricing (snd r) = pricing (updatePrice (month_impact sim) sim)
  /\ treasuries (snd r)
     = treasuries
         (updateTreasury (month_distribution sim) (month_burn sim) sim)
  /\ modelVersion (snd r) = modelVersion sim
  /\ simParams (snd r) = simParams sim
  /\ (fst r = Thrown /\ State.month (simState (snd r))
                        = State.month (simState sim)
                     /\ (State.history (simState sim) = None
                         \/ State.initial_values (simState sim) = None)
      \/ fst r = Normal true
         /\ State.month (simState (snd r)) = State.month (simState sim) + 1
         /\ State.history (simState sim) <> None
         /\ State.initial_values (simState sim) <> None).
Proof.
  cbv zeta. rewrite simulationStep_body_unfold.
  destruct (before_recording_effect sim)
    as (S0 & P0 & T0 & M0 & H0 & I0 & V0 & Q0).
  set (s0 := before_recording sim) in *.
  pose proof (recordHistory_frame (month_burn sim) (month_distribution sim)
                (calculateFees sim) s0) as F. cbv zeta in F.
  pose proof (recordHistory_thrown (month_burn sim) (month_distribution sim)
                (calculateFees sim) s0) as Th.
  destruct (recordHistory (month_burn sim) (month_distribution sim)
              (calculateFees sim) s0) as [[[] |] s6];
    cbn [fst snd] in *; destruct F as (S6 & P6 & T6 & M6 & V6 & Q6).
  - destruct (increment_month_frame s6) as (S7 & P7 & T7 & M7 & V7 & Q7).
    repeat split; try congruence.
    right. repeat split; try congruence.
    + intros E. rewrite <- H0 in E.
      assert (X : @Normal unit tt = Thrown) by (apply Th; now left).
      discriminate X.
    + intros E. rewrite <- I0 in E.
      assert (X : @Normal unit tt = Thrown) by (apply Th; now right).
      discriminate X.
  - repeat split; try congruence.
    left. repeat split; try congruence.
    rewrite <- H0, <- I0. now apply Th.
Qed.

Lemma simulationStep_unfold sim :
  simulationStep sim =
  if run_is_over sim then (Normal false, sim)
  else match simulationStep_body sim with
       | (Normal a, sim') => (Normal a, sim')
       | (Thrown, sim') => (Normal false, sim')
       end.
Proof.
  unfold simulationStep, run_is_over, try_catch.
  destruct (State.month (simState sim)
            >=? Params.simulation_months (simParams sim)); cbn [orb];
    [reflexivity |].
  destruct (is_v1 sim
            && (State.woofi_treasury_balance (simState sim) <=? 0));
    reflexivity.
Qed.

(** One call of [simulationStep] either leaves the object alone or applies
    the body of its [try]. *)
Lemma simulationStep_snd sim :
  snd (simulationStep sim) =
  if run_is_over sim then sim else snd (simulationStep_body sim).
Proof.
  rewrite simulationStep_unfold. destruct (run_is_over sim); [reflexivity |].
  destruct (simulationStep_body sim) as [[a |] s']; reflexivity.
Qed.

Lemma simulationStep_frame sim :
  modelVersion (snd (simulationStep sim)) = modelVersion sim
  /\ simParams (snd (simulationStep sim)) = simParams sim.
Proof.
  rewrite simulationStep_snd. destruct (run_is_over sim); [now split |].
  destruct (simulationStep_body_effect sim) as (_ & _ & _ & V & Q & _).
  now split.
Qed.

Lemma steps_S n sim :
  steps (S n) sim = snd (simulationStep (steps n sim)).
Proof.
  revert sim. induction n as [| n IH]; intros sim; [reflexivity |].
  cbn [steps] in *. now rewrite IH.
Qed.

(** ** Supply *)

Lemma updateSupply_cases b sim :
  invalid_burn_data b = true /\ updateSupply b sim = sim
  \/ exists tb mp,
       Burn.tokens_burned b = Fin tb /\ Burn.market_purchase_tokens b = Fin mp
       /\ (0 <= tb)%Qc /\ (0 <= mp)%Qc
       /\ supply (updateSupply b sim)
          = (State.total_supply (simState sim) - Fin tb,
             State.circulating_supply (simState sim) - Fin mp,
             State.cumulative_tokens_burned (simState sim) + Fin tb).
Proof.
  unfold updateSupply, invalid_burn_data.
  destruct ((Burn.tokens_burned b <? 0)
            || negb (isFinite (Burn.tokens_burned b))) eqn:E1;
    cbn [orb]; [now left |].
  destruct ((Burn.market_purchase_tokens b <? 0)
            || negb (isFinite (Burn.market_purchase_tokens b))) eqn:E2;
    [now left |].
  right.
  destruct (finite_nonneg _ E1) as (tb & Hb & Hb0).
  destruct (finite_nonneg _ E2) as (mp & Hp & Hp0).
  exists tb, mp. rewrite Hb, Hp. repeat split; assumption.
Qed.



(** ** initialize *)

Lemma initialize_cases controls model sim :
  let v := model_or_default model in
  match read_params controls v with
  | None =>
      initialize controls model sim
      = (Thrown, mkSim (Some v) (simParams sim) (simState sim))
  | Some p =>
      match read_state controls p with
      | None =>
          initialize controls model sim
          = (Thrown, mkSim (Some v) p (simState sim))
      | Some st => initialize controls model sim
                   = (Normal tt, mkSim (Some v) p st)
      end
  end.
Proof.
  unfold initialize. cbv zeta.
  destruct (read_params controls _) as [p |]; [| reflexivity].
  destruct (read_state controls p); reflexivity.
Qed.

Lemma initialize_Normal controls model sim0 sim :
  initialize controls model sim0 = (Normal tt, sim) ->
  exists v p st,
    read_params controls v = Some p /\ read_state controls p = Some st
    /\ sim = mkSim (Some v) p st.
Proof.
  intros H. pose proof (initialize_cases controls model sim0) as C.
  cbv zeta in C.
  set (v := model_or_default model) in *.
  destruct (read_params controls v) as [p |] eqn:Ep; [| congruence].
  destruct (read_state controls p) as [st |] eqn:Es; [| congruence].
  exists v, p, st. repeat split; congruence.
Qed.

Lemma read_state_fields controls p st :
  read_state controls p = Some st ->
  State.month st = 0
  /\ State.woo_price st = CONFIG.INITIAL_STATE.woo_price
  /\ State.max_supply st = CONFIG.INITIAL_STATE.max_supply
  /\ State.total_supply st = CONFIG.INITIAL_STATE.total_supply
  /\ State.circulating_supply st = Params.initial_circulating_supply p
  /\ State.cumulative_tokens_burned st = 0
  /\ State.temporary_price_impact st = 0
  /\ State.history st = Some History.empty
  /\ State.initial_values st <> None.
Proof.
  unfold read_state.
  destruct (Controls.initialStaked controls); [| discriminate].
  destruct (Controls.initialWoofiTreasury controls); [| discriminate].
  destruct (Controls.initialWooxTreasury controls); [| discriminate].
  intros H. injection H as <-. cbn. repeat split. discriminate.
Qed.




(** ** Burn data *)

Lemma add_0_r (x : num) : x + 0 = x.
Proof. destruct x; unfold add; try reflexivity. now rewrite Qcplus_0_r. Qed.

Lemma Math_min_Fin_l (x : Qc) (t : num) (r : Qc) :
  Math_min (Fin x) t = Fin r -> (r <= x)%Qc.
Proof.
  destruct t as [y | | |]; unfold Math_min, ltb; try discriminate.
  - destruct (Qc_ltb y x) eqn:E; intros H; injection H as <-.
    + apply Qc_ltb_true in E. now apply Qclt_le_weak.
    + apply Qcle_refl.
  - intros H; injection H as <-. apply Qcle_refl.
Qed.

(** Whenever the burn data of a month passes the guard of [updateSupply],
    the tokens burned do not exceed the tokens purchased. *)
Lemma month_burn_le sim tb mp :
  Burn.tokens_burned (month_burn sim) = Fin tb ->
  Burn.market_purchase_tokens (month_burn sim) = Fin mp ->
  (tb <= mp)%Qc.
Proof.
  unfold month_burn, calculateBuybackAndBurn, calculateAutoCompoundAndBurn,
    calculateBuybackAndBurnV2.
  generalize (month_distribution sim). intros d.
  destruct (is_v1 sim).
  - destruct ((Dist.total_staker_rewards_usd d <? 0)
              || negb (isFinite (Dist.total_staker_rewards_usd d)));
      [cbn; intros H1 H2; injection H1 as <-; injection H2 as <-;
       apply Qcle_refl |].
    destruct ((State.woo_price (simState sim) <=? 0)
              || negb (isFinite (State.woo_price (simState sim))));
      [cbn; intros H1 H2; injection H1 as <-; injection H2 as <-;
       apply Qcle_refl |].
    cbn [Burn.tokens_burned Burn.market_purchase_tokens].
    rewrite add_0_r. intros H1 H2. rewrite H2 in H1.
    eapply Math_min_Fin_l; eauto.
  - destruct ((Dist.buyback_burn_amount d <? 0)
              || negb (isFinite (Dist.buyback_burn_amount d)));
      [cbn; intros H1 H2; injection H1 as <-; injection H2 as <-;
       apply Qcle_refl |].
    destruct ((State.woo_price (simState sim) <=? 0)
              || negb (isFinite (State.woo_price (simState sim))));
      [cbn; intros H1 H2; injection H1 as <-; injection H2 as <-;
       apply Qcle_refl |].
    cbn [Burn.tokens_burned Burn.market_purchase_tokens].
    intros H1 H2. rewrite H2 in H1. injection H1 as <-. apply Qcle_refl.
Qed.

(** ** Supply order and monotonicity *)

Lemma le_refl_of_le (x y : num) : x <= y -> x <= x /\ y <= y.
Proof.
  destruct x, y; unfold le, leb; try discriminate; intros _; split;
    try reflexivity; apply Qc_leb_true, Qcle_refl.
Qed.

Lemma supply_step_shape sim :
  supply (snd (simulationStep sim)) = supply sim
  \/ exists tb mp,
       (0 <= tb)%Qc /\ (tb <= mp)%Qc
       /\ supply (snd (simulationStep sim))
          = (State.total_supply (simState sim) - Fin tb,
             State.circulating_supply (simState sim) - Fin mp,
             State.cumulative_tokens_burned (simState sim) + Fin tb).
Proof.
  rewrite simulationStep_snd. destruct (run_is_over sim); [now left |].
  destruct (simulationStep_body_effect sim) as (S & _). rewrite S.
  destruct (updateSupply_cases (month_burn sim) sim)
    as [[_ ->] | (tb & mp & Hb & Hp & Hb0 & _ & E)]; [now left |].
  right. exists tb, mp. repeat split; try assumption.
  eapply month_burn_le; eauto.
Qed.

Lemma max_supply_step sim :
  State.max_supply (simState (snd (simulationStep sim)))
  = State.max_supply (simState sim).
Proof.
  rewrite simulationStep_snd. destruct (run_is_over sim); [reflexivity |].
  rewrite simulationStep_body_unfold.
  assert (B : State.max_supply (simState (before_recording sim))
              = State.max_supply (simState sim)).
  { unfold before_recording.
    assert (P : forall i s, State.max_supply (simState (updatePrice i s))
                            = State.max_supply (simState s))
      by (intros; unfold updatePrice; split_ifs; reflexivity).
    assert (U : forall b s, State.max_supply (simState (updateSupply b s))
                            = State.max_supply (simState s))
      by (intros; unfold updateSupply; split_ifs; reflexivity).
    assert (K : forall b s,
               State.max_supply (simState (updateStakerPositions b s))
               = State.max_supply (simState s))
      by (intros; unfold updateStakerPositions, updateStakerPositionsV1,
            updateStakerPositionsV2; split_ifs; reflexivity).
    assert (T : forall d b s,
               State.max_supply (simState (updateTreasury d b s))
               = State.max_supply (simState s))
      by (intros; unfold updateTreasury, updateTreasuryV1, updateTreasuryV2;
          destruct (is_v1 s); reflexivity).
    now rewrite P, U, K, T. }
  rewrite <- B. generalize (before_recording sim) as s0. intros s0.
  unfold recordHistory, try_catch, recordHistory_body, throw,
    record_annual_ratios.
  destruct (State.history (simState s0));
    [destruct (State.initial_values (simState s0)) |];
    split_ifs; reflexivity.
Qed.

Lemma supply_step sim :
  supply_ordered sim ->
  supply_ordered (snd (simulationStep sim))
  /\ State.total_supply (simState (snd (simulationStep sim)))
     <= State.total_supply (simState sim)
  /\ State.circulating_supply (simState (snd (simulationStep sim)))
     <= State.circulating_supply (simState sim).
Proof.
  intros (Hct & Htm & Hfin). unfold supply_ordered.
  rewrite max_supply_step.
  set (s' := snd (simulationStep sim)).
  assert (Et : State.total_supply (simState s') = fst (fst (supply s')))
    by reflexivity.
  assert (Ec : State.circulating_supply (simState s') = snd (fst (supply s')))
    by reflexivity.
  rewrite Et, Ec. subst s'.
  destruct (supply_step_shape sim) as [-> | (tb & mp & H0 & Hle & ->)];
    cbn [fst snd supply].
  - destruct (le_refl_of_le Hct) as (Hc & Ht). repeat split; assumption.
  - destruct (State.total_supply (simState sim)) as [t | | |];
      try discriminate Hfin.
    destruct (State.max_supply (simState sim)) as [m | | |];
      try discriminate Htm;
      destruct (State.circulating_supply (simState sim)) as [c | | |];
      try discriminate Hct;
      unfold le, leb, sub, add, neg, isFinite in *;
      repeat split; try reflexivity; qc_lra.
Qed.

Lemma supply_steps n : forall sim,
  supply_ordered sim -> supply_ordered (steps n sim).
Proof.
  induction n as [| n IH]; intros sim H; [exact H |].
  cbn [steps]. apply IH. now apply supply_step.
Qed.

(** C4 (as stated, refuted).  With the circulating-supply control at 2,500
    million, [initialize] succeeds and the run starts with a circulating
    supply above the total supply. *)
Lemma supply_order_counterexample :
  initialize oversupplied_controls (Some "v2"%string) constructor
  = (Normal tt, oversupplied_v2)
  /\ (State.circulating_supply (simState (steps 0 oversupplied_v2))
      <=? State.total_supply (simState (steps 0 oversupplied_v2))) = false.
Proof. split; vm_compute; reflexivity. Qed.

(** C4 (amended).  For every run, under either model, that [initialize]
    starts with a circulating supply at most the total supply, every month
    has [circulating_supply <= total_supply <= max_supply], and neither the
    total nor the circulating supply increases from one month to the next. *)
Theorem supply_order_and_monotonicity controls model sim0 sim n :
  initialize controls model sim0 = (Normal tt, sim) ->
  State.circulating_supply (simState sim) <= State.total_supply (simState sim) ->
  let st := simState (steps n sim) in
  let st' := simState (steps (S n) sim) in
  State.circulating_supply st <= State.total_supply st
  /\ State.total_supply st <= State.max_supply st
  /\ State.total_supply st' <= State.total_supply st
  /\ State.circulating_supply st' <= State.circulating_supply st.
Proof.
  intros H Hle. cbv zeta.
  destruct (initialize_Normal _ _ _ H) as (v & p & st0 & _ & Hs & ->).
  destruct (read_state_fields _ _ Hs) as (_ & _ & Hm & Ht & _).
  cbn [simState] in Hle.
  assert (O : supply_ordered (mkSim (Some v) p st0)).
  { unfold supply_ordered. cbn [simState]. rewrite Hm, Ht.
    split; [now rewrite <- Ht |]. split; vm_compute; reflexivity. }
  pose proof (supply_steps n O) as On.
  destruct (supply_step On) as (_ & Ht' & Hc').
  rewrite steps_S. destruct On as (A & B & _). repeat split; assumption.
Qed.

(** The supply order after two months of the default run under v1. *)
Lemma supply_order_and_monotonicity_witness :
  initialize DEFAULT_VALUES (Some "v1"%string) constructor
  = (Normal tt, default_v1)
  /\ State.circulating_supply (simState default_v1)
     <= State.total_supply (simState default_v1)
  /\ State.circulating_supply (simState (steps 2 default_v1))
     <= State.total_supply (simState (steps 2 default_v1)).
Proof.
  assert (E : initialize DEFAULT_VALUES (Some "v1"%string) constructor
              = (Normal tt, default_v1)) by (vm_compute; reflexivity).
  assert (L : State.circulating_supply (simState default_v1)
              <= State.total_supply (simState default_v1))
    by (vm_compute; reflexivity).
  split; [exact E |]. split; [exact L |].
  exact (proj1 (supply_order_and_monotonicity DEFAULT_VALUES
                  (Some "v1"%string) constructor 2 E L)).
Defined.

(** ** Price *)





Lemma Math_max_Fin (a b : Qc) :
  Math_max (Fin a) (Fin b) = if Qc_ltb a b then Fin b else Fin a.
Proof. reflexivity. Qed.











(** ** Decay of the temporary impact *)










(** ** Clamping *)

Lemma Math_max_0_not_negative (x : num) :
  (Math_max 0 x <? 0) = false /\ (Math_max 0 x = NaN \/ 0 <= Math_max 0 x).
Proof.
  destruct x as [q | | |].
  - rewrite Math_max_Fin. destruct (Qc_ltb 0 q) eqn:E; unfold le, ltb, leb.
    + split; [| right]; qc_lra.
    + split; [| right]; vm_compute; reflexivity.
  - split; [| right]; reflexivity.
  - split; [| right]; reflexivity.
  - split; [| left]; reflexivity.
Qed.

(** The step returns [true] as soon as neither end test holds and the two
    objects read by [recordHistory] exist. *)
Lemma simulationStep_continues sim :
  run_is_over sim = false ->
  State.history (simState sim) <> None ->
  State.initial_values (simState sim) <> None ->
  fst (simulationStep sim) = Normal true
  /\ State.month (simState (snd (simulationStep sim)))
     = State.month (simState sim) + 1.
Proof.
  intros Hrun Hh Hi. rewrite simulationStep_unfold, Hrun.
  destruct (simulationStep_body_effect sim)
    as (_ & _ & _ & _ & _ & [(_ & _ & [E | E]) | (E & M & _)]);
    try contradiction.
  destruct (simulationStep_body sim) as [[a |] s']; cbn [fst snd] in *;
    [| discriminate E].
  injection E as ->. now split.
Qed.

(** C3 (as stated, refuted).  Under v2, with 62,500 circulating tokens, the
    first month buys back 6,470.4 USD at 0.065, about 99,545 tokens: the step
    returns [true] and leaves a negative circulating supply. *)
Lemma supply_clamp_counterexample :
  initialize scarce_controls (Some "v2"%string) constructor
  = (Normal tt, scarce_v2)
  /\ fst (simulationStep scarce_v2) = Normal true
  /\ (State.circulating_supply (simState (snd (simulationStep scarce_v2)))
      <? 0) = true.
Proof. repeat split; vm_compute; reflexivity. Qed.

(** C3 (amended).  [updateTreasuryV1] clamps both treasury balances with
    [Math.max(0, .)]: they are never negative afterwards.
    [updateTreasuryV2] adds the inflow and [updateSupply] subtracts the burn
    and the purchase without a floor.  None of the three can stop the step:
    it returns [true] whenever the run is not over and the history exists. *)
Theorem state_updater_clamping d b sim :
  (let s' := updateTreasuryV1 d b sim in
   (State.woofi_treasury_balance (simState s') <? 0) = false
   /\ (State.woox_treasury_balance (simState s') <? 0) = false
   /\ (State.woofi_treasury_balance (simState s') = NaN
       \/ 0 <= State.woofi_treasury_balance (simState s'))
   /\ (State.woox_treasury_balance (simState s') = NaN
       \/ 0 <= State.woox_treasury_balance (simState s')))
  /\ treasuries (updateTreasuryV2 d b sim)
     = (State.woofi_treasury_balance (simState sim)
        + inflow_tokens sim (Dist.woofi_treasury_inflow_usd d),
        State.woox_treasury_balance (simState sim)
        + inflow_tokens sim (Dist.woox_treasury_inflow_usd d))
  /\ (invalid_burn_data b = false ->
      supply (updateSupply b sim)
      = (State.total_supply (simState sim) - Burn.tokens_burned b,
         State.circulating_supply (simState sim)
         - Burn.market_purchase_tokens b,
         State.cumulative_tokens_burned (simState sim)
         + Burn.tokens_burned b))
  /\ (run_is_over sim = false ->
      State.history (simState sim) <> None ->
      State.initial_values (simState sim) <> None ->
      fst (simulationStep sim) = Normal true).
Proof.
  split; [| split; [| split]].
  - cbv zeta. unfold updateTreasuryV1. cbn [simState set_simState
      State.set_treasury State.woofi_treasury_balance
      State.woox_treasury_balance].
    match goal with
    | |- (Math_max 0 ?x <? 0) = false /\ (Math_max 0 ?y <? 0) = false /\ _ =>
        destruct (Math_max_0_not_negative x) as (A1 & A2);
        destruct (Math_max_0_not_negative y) as (B1 & B2)
    end.
    repeat split; assumption.
  - reflexivity.
  - intros G. unfold updateSupply. fold (invalid_burn_data b). now rewrite G.
  - intros Hrun Hh Hi. now apply simulationStep_continues.
Qed.

(** The first month of the run with 62,500 circulating tokens. *)
Lemma state_updater_clamping_witness :
  invalid_burn_data (month_burn scarce_v2) = false
  /\ run_is_over scarce_v2 = false
  /\ State.history (simState scarce_v2) <> None
  /\ State.initial_values (simState scarce_v2) <> None
  /\ supply (updateSupply (month_burn scarce_v2) scarce_v2)
     = (State.total_supply (simState scarce_v2)
        - Burn.tokens_burned (month_burn scarce_v2),
        State.circulating_supply (simState scarce_v2)
        - Burn.market_purchase_tokens (month_burn scarce_v2),
        State.cumulative_tokens_burned (simState scarce_v2)
        + Burn.tokens_burned (month_burn scarce_v2))
  /\ fst (simulationStep scarce_v2) = Normal true.
Proof.
  assert (G : invalid_burn_data (month_burn scarce_v2) = false)
    by (vm_compute; reflexivity).
  assert (R : run_is_over scarce_v2 = false) by (vm_compute; reflexivity).
  assert (Hh : State.history (simState scarce_v2) <> None)
    by (vm_compute; discriminate).
  assert (Hi : State.initial_values (simState scarce_v2) <> None)
    by (vm_compute; discriminate).
  pose proof (state_updater_clamping (month_distribution scarce_v2)
                (month_burn scarce_v2) scarce_v2) as (_ & _ & S & C).
  split; [exact G |]. split; [exact R |]. split; [exact Hh |].
  split; [exact Hi |]. split; [exact (S G) | exact (C R Hh Hi)].
Defined.

(** ** Guards of the burn stage *)

Lemma burn_guard_zero sim :
  burn_guard_fires sim = true ->
  month_burn sim = if is_v1 sim then zero_burn_v1 else zero_burn_v2.
Proof.
  unfold burn_guard_fires, month_burn, calculateBuybackAndBurn,
    calculateAutoCompoundAndBurn, calculateBuybackAndBurnV2.
  cbv zeta. generalize (month_distribution sim). intros d.
  destruct (is_v1 sim).
  - destruct ((Dist.total_staker_rewards_usd d <? 0)
              || negb (isFinite (Dist.total_staker_rewards_usd d)));
      [reflexivity |].
    cbn [orb]. intros G.
    assert (G' : (State.woo_price (simState sim) <=? 0)
                 || negb (isFinite (State.woo_price (simState sim))) = true)
      by exact G.
    now rewrite G'.
  - destruct ((Dist.buyback_burn_amount d <? 0)
              || negb (isFinite (Dist.buyback_burn_amount d)));
      [reflexivity |].
    cbn [orb]. intros G.
    assert (G' : (State.woo_price (simState sim) <=? 0)
                 || negb (isFinite (State.woo_price (simState sim))) = true)
      by exact G.
    now rewrite G'.
Qed.

(** C1 (as stated, refuted).  With a buyback share that is not a number the
    month's buyback amount is NaN, the guard of [calculateBuybackAndBurnV2]
    fires, and [simulationStep] still returns [true]. *)
Lemma degenerate_month_counterexample :
  initialize nan_buyback_controls (Some "v2"%string) constructor
  = (Normal tt, nan_buyback_v2)
  /\ isNaN (Dist.buyback_burn_amount (month_distribution nan_buyback_v2))
     = true
  /\ month_burn nan_buyback_v2 = zero_burn_v2
  /\ fst (simulationStep nan_buyback_v2) = Normal true.
Proof. repeat split; vm_compute; reflexivity. Qed.

(** C1 (amended).  When a guard of the month's burn stage fires (v1: staker
    rewards negative or not finite, or price [<= 0] or not finite; v2: the
    same with the buyback amount in place of the staker rewards), the stage
    returns its all-zero object for that month, and the step is not fatal:
    if the run is not over, [simulationStep] goes through the updates and
    the history, increments the month and returns [true]. *)
Theorem degenerate_month_is_not_fatal sim :
  burn_guard_fires sim = true ->
  month_burn sim = (if is_v1 sim then zero_burn_v1 else zero_burn_v2)
  /\ (run_is_over sim = false ->
      State.history (simState sim) <> None ->
      State.initial_values (simState sim) <> None ->
      fst (simulationStep sim) = Normal true
      /\ State.month (simState (snd (simulationStep sim)))
         = State.month (simState sim) + 1).
Proof.
  intros G. split; [now apply burn_guard_zero |].
  intros Hrun Hh Hi. now apply simulationStep_continues.
Qed.

(** The first month of the run whose buyback share is not a number. *)
Lemma degenerate_month_is_not_fatal_witness :
  burn_guard_fires nan_buyback_v2 = true
  /\ run_is_over nan_buyback_v2 = false
  /\ State.history (simState nan_buyback_v2) <> None
  /\ State.initial_values (simState nan_buyback_v2) <> None
  /\ fst (simulationStep nan_buyback_v2) = Normal true.
Proof.
  assert (G : burn_guard_fires nan_buyback_v2 = true)
    by (vm_compute; reflexivity).
  assert (R : run_is_over nan_buyback_v2 = false)
    by (vm_compute; reflexivity).
  assert (Hh : State.history (simState nan_buyback_v2) <> None)
    by (vm_compute; discriminate).
  assert (Hi : State.initial_values (simState nan_buyback_v2) <> None)
    by (vm_compute; discriminate).
  split; [exact G |]. split; [exact R |]. split; [exact Hh |].
  split; [exact Hi |].
  exact (proj1 (proj2 (degenerate_month_is_not_fatal nan_buyback_v2 G)
                  R Hh Hi)).
Defined.

(** ** Validation in initialize *)

Ltac split_reads :=
  repeat match goal with
  | |- context [match ?o with Some _ => _ | None => _ end] =>
      destruct o; cbn [present andb]; try reflexivity
  end.

Lemma read_params_present controls model :
  params_controls_present controls model
  = match read_params controls model with Some _ => true | None => false end.
Proof.
  unfold params_controls_present, read_params, present.
  destruct (Controls.woofiSwapVolume controls); [| reflexivity].
  destruct (Controls.woofiPerpVolume controls); [| reflexivity].
  destruct (Controls.wooxVolume controls); [| reflexivity].
  cbn [andb].
  destruct (String.eqb model "v1").
  - destruct (Controls.autoCompoundRate controls); [| reflexivity].
    split_reads; rewrite ?andb_false_r; reflexivity.
  - destruct (Controls.buybackBurnShare controls); [| reflexivity].
    destruct (Controls.stakerShare controls); [| reflexivity].
    destruct (Controls.treasuryShare controls); [| reflexivity].
    destruct (Controls.wooxStakerBps controls); [| reflexivity].
    split_reads; rewrite ?andb_false_r; reflexivity.
Qed.

Lemma read_state_present controls p :
  state_controls_present controls
  = match read_state controls p with Some _ => true | None => false end.
Proof.
  unfold state_controls_present, read_state, present.
  destruct (Controls.initialStaked controls); [| reflexivity].
  destruct (Controls.initialWoofiTreasury controls); [| reflexivity].
  destruct (Controls.initialWooxTreasury controls); reflexivity.
Qed.

(** C2 (as stated, refuted).  A swap volume that is not a number and a
    staker share of 500 percent are accepted: [initialize] returns normally
    and stores them. *)
Lemma initialize_validation_counterexample :
  fst (initialize invalid_controls (Some "v2"%string) constructor) = Normal tt
  /\ isNaN (Params.monthly_woofi_swap_volume
              (simParams (snd (initialize invalid_controls
                                 (Some "v2"%string) constructor)))) = true
  /\ strict_eqb
       (Params.staker_share
          (simParams (snd (initialize invalid_controls
                             (Some "v2"%string) constructor)))) (lit 5)
     = true.
Proof. repeat split; vm_compute; reflexivity. Qed.

(** C2 (amended).  [initialize] validates no value.  It returns normally,
    with the month at 0, an empty history and the supply constants of
    [CONFIG.INITIAL_STATE], exactly when every control that the chosen model
    reads is present in [controls], whatever the numbers are; when one is
    missing it throws after having stored the model version, leaving the
    previous [simState] in place. *)
Theorem initialize_validates_nothing controls model sim :
  let v := model_or_default model in
  (controls_present controls v = true ->
   exists p st,
     initialize controls model sim = (Normal tt, mkSim (Some v) p st)
     /\ State.month st = 0
     /\ State.history st = Some History.empty
     /\ State.total_supply st = CONFIG.INITIAL_STATE.total_supply
     /\ State.circulating_supply st = Params.initial_circulating_supply p)
  /\ (controls_present controls v = false ->
      fst (initialize controls model sim) = Thrown
      /\ modelVersion (snd (initialize controls model sim)) = Some v
      /\ simState (snd (initialize controls model sim)) = simState sim).
Proof.
  cbv zeta. unfold controls_present.
  rewrite read_params_present.
  pose proof (initialize_cases controls model sim) as C. cbv zeta in C.
  destruct (read_params controls (model_or_default model)) as [p |].
  - rewrite (read_state_present controls p).
    destruct (read_state controls p) as [st |] eqn:Es; split; intros H;
      try discriminate H.
    + exists p, st. split; [exact C |].
      destruct (read_state_fields _ _ Es) as (M & _ & _ & T & Ci & _ & _ & Hh & _).
      repeat split; assumption.
    + rewrite C. repeat split.
  - split; intros H; try discriminate H. rewrite C. repeat split.
Qed.

(** An accepted invalid configuration, and a second [initialize] under v1 that
    throws on the missing [initialStaked] control. *)
Lemma initialize_validates_nothing_witness :
  controls_present invalid_controls "v2" = true
  /\ controls_present incomplete_controls "v1" = false
  /\ (exists p st,
        initialize invalid_controls (Some "v2"%string) constructor
        = (Normal tt, mkSim (Some "v2"%string) p st)
        /\ State.month st = 0
        /\ State.history st = Some History.empty
        /\ State.total_supply st = CONFIG.INITIAL_STATE.total_supply
        /\ State.circulating_supply st = Params.initial_circulating_supply p)
  /\ fst (initialize incomplete_controls (Some "v1"%string) default_v2)
     = Thrown
  /\ modelVersion (snd (initialize incomplete_controls (Some "v1"%string)
                          default_v2)) = Some "v1"%string.
Proof.
  assert (P : controls_present invalid_controls "v2" = true)
    by (vm_compute; reflexivity).
  assert (A : controls_present incomplete_controls "v1" = false)
    by (vm_compute; reflexivity).
  split; [exact P |]. split; [exact A |].
  split.
  - exact (proj1 (initialize_validates_nothing invalid_controls
                    (Some "v2"%string) constructor) P).
  - pose proof (proj2 (initialize_validates_nothing incomplete_controls
                         (Some "v1"%string) default_v2) A) as (T & V & _).
    split; [exact T | exact V].
Defined.

(** ** Treasury-matched burn (v1) *)

Lemma nonneg_cases (x : num) :
  0 <= x -> (x >? 0) = true \/ x = 0.
Proof.
  destruct x as [q | | |]; unfold le, leb, gtb, ltb; try discriminate;
    [| now left].
  intros H. destruct (Qc_ltb 0 q) eqn:E; [now left | right].
  f_equal. apply Qc_leb_true in H. apply Qc_ltb_false in E.
  now apply Qcle_antisym.
Qed.

Lemma zero_div_Fin (p : Qc) : (0 < p)%Qc -> 0 / Fin p = 0.
Proof.
  intros H. unfold div. destruct (Qc_eqb p 0) eqn:E.
  - apply Qc_eqb_true in E. subst p. now apply Qclt_not_eq in H.
  - f_equal. unfold Qcdiv. apply Qcmult_0_l.
Qed.

(** C5 (as stated, refuted).  Under v1, with a positive price and finite
    staker rewards of -2,169.6 USD, the first guard of
    [calculateAutoCompoundAndBurn] returns zero tokens burned, where
    [min(auto_compound_usd / price, treasury)] is negative. *)
Lemma treasury_match_counterexample :
  is_v1 overcut_v1 = true
  /\ (0 <? State.woo_price (simState overcut_v1)) = true
  /\ isFinite (Dist.total_staker_rewards_usd (month_distribution overcut_v1))
     = true
  /\ strict_eqb (Burn.tokens_burned (month_burn overcut_v1)) 0 = true
  /\ (Math_min
        (Dist.total_staker_rewards_usd (month_distribution overcut_v1)
         * Params.auto_compound_adoption_rate (simParams overcut_v1)
         / State.woo_price (simState overcut_v1))
        (State.woofi_treasury_balance (simState overcut_v1)) <? 0) = true.
Proof. repeat split; vm_compute; reflexivity. Qed.

(** C5 (amended).  Under v1, for every month with a finite positive price,
    finite non-negative staker rewards and a non-negative auto-compound
    amount [rewards * adoption rate], the tokens burned equal
    [min(purchase_tokens, primary treasury balance)] with
    [purchase_tokens = auto_compound_usd / price]; only the primary treasury
    burns. *)
Theorem treasury_match_burn sim :
  let rewards := Dist.total_staker_rewards_usd (month_distribution sim) in
  let rate := Params.auto_compound_adoption_rate (simParams sim) in
  let price := State.woo_price (simState sim) in
  let b := month_burn sim in
  is_v1 sim = true ->
  0 < price -> isFinite price = true ->
  0 <= rewards -> isFinite rewards = true ->
  0 <= rewards * rate ->
  Burn.auto_compound_usd b = rewards * rate
  /\ Burn.market_purchase_tokens b = rewards * rate / price
  /\ Burn.tokens_burned b
     = Math_min (rewards * rate / price)
         (State.woofi_treasury_balance (simState sim))
  /\ Burn.woofi_tokens_burned b = Burn.tokens_burned b
  /\ Burn.woox_tokens_burned b = 0.
Proof.
  cbv zeta. intros V Hp Fp Hr Fr Ha.
  unfold month_burn, calculateBuybackAndBurn. rewrite V.
  unfold calculateAutoCompoundAndBurn.
  generalize dependent (month_distribution sim). intros d Hr Fr Ha.
  destruct (Dist.total_staker_rewards_usd d) as [r | | |] eqn:Er;
    try discriminate Fr.
  destruct (State.woo_price (simState sim)) as [p | | |] eqn:Ep;
    try discriminate Fp.
  assert (G1 : (Fin r <? 0) || negb (isFinite (Fin r)) = false).
  { cbn [isFinite negb]. rewrite orb_false_r. unfold ltb, le, leb in *.
    qc_lra. }
  assert (G2 : (Fin p <=? 0) || negb (isFinite (Fin p)) = false).
  { cbn [isFinite negb]. rewrite orb_false_r. unfold lt, ltb, leb in *.
    qc_lra. }
  rewrite G1, G2.
  cbn [Burn.auto_compound_usd Burn.market_purchase_tokens Burn.tokens_burned
       Burn.woofi_tokens_burned Burn.woox_tokens_burned].
  rewrite add_0_r.
  assert (P : (if Fin r * Params.auto_compound_adoption_rate (simParams sim)
                  >? 0
               then Fin r * Params.auto_compound_adoption_rate (simParams sim)
                    / Fin p
               else 0)
              = Fin r * Params.auto_compound_adoption_rate (simParams sim)
                / Fin p).
  { destruct (nonneg_cases Ha) as [-> | ->]; [reflexivity |].
    unfold gtb, ltb. replace (Qc_ltb 0 0) with false by reflexivity.
    symmetry. apply zero_div_Fin. unfold lt, ltb in Hp.
    now apply Qc_ltb_true. }
  rewrite P. repeat split.
Qed.

(** The first month of the default run under v1. *)
Lemma treasury_match_burn_witness :
  is_v1 default_v1 = true
  /\ 0 < State.woo_price (simState default_v1)
  /\ isFinite (State.woo_price (simState default_v1)) = true
  /\ 0 <= Dist.total_staker_rewards_usd (month_distribution default_v1)
  /\ isFinite (Dist.total_staker_rewards_usd (month_distribution default_v1))
     = true
  /\ 0 <= Dist.total_staker_rewards_usd (month_distribution default_v1)
          * Params.auto_compound_adoption_rate (simParams default_v1)
  /\ Burn.tokens_burned (month_burn default_v1)
     = Math_min
         (Dist.total_staker_rewards_usd (month_distribution default_v1)
          * Params.auto_compound_adoption_rate (simParams default_v1)
          / State.woo_price (simState default_v1))
         (State.woofi_treasury_balance (simState default_v1)).
Proof.
  assert (V : is_v1 default_v1 = true) by (vm_compute; reflexivity).
  assert (Hp : 0 < State.woo_price (simState default_v1))
    by (vm_compute; reflexivity).
  assert (Fp : isFinite (State.woo_price (simState default_v1)) = true)
    by (vm_compute; reflexivity).
  assert (Hr : 0 <= Dist.total_staker_rewards_usd
                      (month_distribution default_v1))
    by (vm_compute; reflexivity).
  assert (Fr : isFinite (Dist.total_staker_rewards_usd
                           (month_distribution default_v1)) = true)
    by (vm_compute; reflexivity).
  assert (Ha : 0 <= Dist.total_staker_rewards_usd
                      (month_distribution default_v1)
                    * Params.auto_compound_adoption_rate
                        (simParams default_v1))
    by (vm_compute; reflexivity).
  split; [exact V |]. split; [exact Hp |]. split; [exact Fp |].
  split; [exact Hr |]. split; [exact Fr |]. split; [exact Ha |].
  exact (proj1 (proj2 (proj2 (treasury_match_burn default_v1
                                V Hp Fp Hr Fr Ha)))).
Defined.

(** ** Integers among the numbers *)

Lemma this_inv (x : Qc) : (this (/ x)%Qc == / this x)%Q.
Proof. unfold Qcinv, Q2Qc. cbn [this]. apply Qred_correct. Qed.

Lemma this_div (x y : Qc) : (this (x / y)%Qc == this x / this y)%Q.
Proof. unfold Qcdiv. rewrite this_mult, this_inv. reflexivity. Qed.

Lemma Fin_inj (x y : Qc) : Fin x = Fin y -> x = y.
Proof.
  intros H.
  exact (f_equal (fun n => match n with Fin q => q | _ => x end) H).
Qed.

Lemma of_Z_inj_iff (a b : Z) : of_Z a = of_Z b <-> a = b.
Proof.
  unfold of_Z. split; [| now intros ->].
  intros H. apply Fin_inj, Q2Qc_eq_iff in H.
  unfold Qeq in H. cbn in H. lia.
Qed.

Lemma add_of_Z (a b : Z) : of_Z a + of_Z b = of_Z (a + b).
Proof.
  unfold of_Z, add. f_equal. apply Qc_is_canon.
  rewrite this_plus, !this_Q2Qc, inject_Z_plus. reflexivity.
Qed.

Lemma sub_of_Z (a b : Z) : of_Z a - of_Z b = of_Z (a - b).
Proof.
  unfold of_Z, sub, add, neg. f_equal. apply Qc_is_canon.
  rewrite this_plus, this_opp, !this_Q2Qc.
  unfold Z.sub. rewrite inject_Z_plus, inject_Z_opp. reflexivity.
Qed.

Lemma Qfloor_div_12 (a : Z) :
  Qfloor (this (Q2Qc (inject_Z a) / Q2Qc 12)%Qc) = (a / 12)%Z.
Proof.
  rewrite (Qfloor_comp _ (inject_Z a / inject_Z 12)).
  - symmetry. apply Zdiv_Qdiv.
  - rewrite this_div, !this_Q2Qc. reflexivity.
Qed.

Lemma floor_div_of_Z (a : Z) : Math_floor (of_Z a / lit 12) = of_Z (a / 12).
Proof.
  unfold of_Z, lit, div.
  replace (Qc_eqb (Q2Qc 12) 0) with false by (vm_compute; reflexivity).
  unfold Math_floor. now rewrite Qfloor_div_12.
Qed.

Lemma rem_of_Z (a : Z) :
  (0 <= a)%Z -> of_Z a %% lit 12 = of_Z (a mod 12).
Proof.
  intros Ha. unfold of_Z, lit, rem.
  replace (Qc_eqb (Q2Qc 12) 0) with false by (vm_compute; reflexivity).
  f_equal. unfold Qc_trunc.
  assert (N : Qc_ltb (Q2Qc (inject_Z a) / Q2Qc 12) 0 = false).
  { apply Qc_ltb_false. unfold Qcle. rewrite this_div, !this_Q2Qc.
    apply Qle_shift_div_l; [reflexivity |].
    rewrite Qmult_0_l. change 0%Q with (inject_Z 0). now rewrite <- Zle_Qle. }
  rewrite N, Qfloor_div_12. apply Qc_is_canon.
  rewrite this_minus, this_mult, !this_Q2Qc.
  rewrite (Z.mod_eq a 12) by lia.
  unfold Z.sub. rewrite inject_Z_plus, inject_Z_opp, inject_Z_mult.
  reflexivity.
Qed.

Lemma strict_eqb_of_Z (a : Z) : strict_eqb (of_Z a) 0 = (a =? 0)%Z.
Proof.
  unfold of_Z, strict_eqb.
  destruct (a =? 0)%Z eqn:E.
  - apply Z.eqb_eq in E. subst a. reflexivity.
  - apply Qc_eqb_false. intros H. apply Z.eqb_neq in E. apply E.
    apply (of_Z_inj_iff a 0). unfold of_Z. now f_equal.
Qed.

Lemma array_index_of_Z (k : Z) :
  (0 <= k)%Z -> array_index (of_Z k) = Some (Z.to_nat k).
Proof.
  intros Hk. unfold of_Z, array_index.
  assert (F : Qfloor (this (Q2Qc (inject_Z k))) = k).
  { rewrite (Qfloor_comp _ (inject_Z k)) by apply this_Q2Qc.
    apply Qfloor_Z. }
  rewrite F.
  replace (Qc_eqb (Q2Qc (inject_Z k)) (Q2Qc (inject_Z k))) with true
    by (symmetry; now apply Qc_eqb_true).
  replace (Qc_leb 0 (Q2Qc (inject_Z k))) with true; [reflexivity |].
  symmetry. apply Qc_leb_true. unfold Qcle. rewrite !this_Q2Qc.
  change 0%Q with (inject_Z 0). now rewrite <- Zle_Qle.
Qed.

Lemma nth_error_array_set (arr : list slot) (i : nat) (v : slot) :
  nth_error (array_set arr i v) i = Some v.
Proof.
  revert arr. induction i as [| i IH]; intros [| x arr]; cbn; auto.
Qed.

(** ** Annual ratios *)

Lemma stored_ratio_shape (marketCap value : num) :
  stored_ratio marketCap value = null
  \/ exists q, stored_ratio marketCap value = number (Fin q).
Proof.
  unfold stored_ratio, finite_or_null.
  destruct (ratio marketCap value) as [q | | |]; cbn [isFinite]; eauto.
Qed.

Lemma stored_ratio_null (marketCap value : num) :
  (value >? 0) = false -> stored_ratio marketCap value = null.
Proof. unfold stored_ratio, ratio. now intros ->. Qed.

Lemma before_recording_annuals sim :
  annuals (before_recording sim) = annuals sim.
Proof.
  unfold before_recording.
  assert (P : forall i s, annuals (updatePrice i s) = annuals s)
    by (intros; unfold updatePrice; split_ifs; reflexivity).
  assert (U : forall b s, annuals (updateSupply b s) = annuals s)
    by (intros; unfold updateSupply; split_ifs; reflexivity).
  assert (K : forall b s, annuals (updateStakerPositions b s) = annuals s)
    by (intros; unfold updateStakerPositions, updateStakerPositionsV1,
          updateStakerPositionsV2; split_ifs; reflexivity).
  assert (T : forall d b s, annuals (updateTreasury d b s) = annuals s)
    by (intros; unfold updateTreasury, updateTreasuryV1, updateTreasuryV2;
        destruct (is_v1 s); reflexivity).
  now rewrite P, U, K, T.
Qed.

Lemma recordHistory_at_month b d f sim h iv (m : Z) :
  State.history (simState sim) = Some h ->
  State.initial_values (simState sim) = Some iv ->
  State.month (simState sim) = of_Z m -> (0 <= m)%Z ->
  let h' := recorded_history b d f sim h iv in
  let sim1 := set_simState (State.set_history h' (simState sim)) sim in
  recordHistory b d f sim
  = (Normal tt,
     if ((m + 1) mod 12 =? 0)%Z then record_annual_ratios h' sim1 else sim1).
Proof.
  intros Hh Hi Hm Pos. cbv zeta.
  unfold recordHistory, try_catch, recordHistory_body, throw.
  rewrite Hh, Hi, Hm. change 1 with (of_Z 1). rewrite add_of_Z.
  rewrite rem_of_Z by lia. rewrite strict_eqb_of_Z.
  unfold recorded_history.
  destruct ((m + 1) mod 12 =? 0)%Z; reflexivity.
Qed.

Lemma annual_window_trailing h :
  annual_window h
  = seq (List.length (History.months h) - 12)
        (Nat.min 12 (List.length (History.months h))).
Proof.
  unfold annual_window. cbv zeta. rewrite Nat.max_0_l. f_equal. lia.
Qed.

Lemma recorded_history_months b d f sim h iv :
  History.months (recorded_history b d f sim h iv)
  = History.months h ++ [State.month (simState sim) + 1].
Proof. reflexivity. Qed.

Lemma year_index (m : Z) :
  (0 <= m)%Z -> ((m + 1) mod 12 = 0)%Z -> (0 <= (m + 1) / 12 - 1)%Z.
Proof.
  intros Pos Hmod.
  pose proof (Z.div_mod (m + 1) 12 ltac:(lia)) as E. rewrite Hmod in E. lia.
Qed.

Lemma record_annual_ratios_at h s (m : Z) :
  State.month (simState s) = of_Z m ->
  (0 <= m)%Z -> ((m + 1) mod 12 = 0)%Z ->
  let i := Z.to_nat ((m + 1) / 12 - 1) in
  let s' := increment_month (record_annual_ratios h s) in
  State.history (simState s') = State.history (simState s)
  /\ if is_v1 s
     then stored (State.annual_pr_ratios (simState s')) i
          = Some (stored_ratio (market_cap s') (pr_total_annual_value h s'))
          /\ State.annual_pv_ratios_usd (simState s')
             = State.annual_pv_ratios_usd (simState s)
          /\ State.annual_pv_ratios_market (simState s')
             = State.annual_pv_ratios_market (simState s)
     else stored (State.annual_pv_ratios_usd (simState s')) i
          = Some (stored_ratio (market_cap s') (pv_total_annual_value_usd h))
          /\ stored (State.annual_pv_ratios_market (simState s')) i
             = Some (stored_ratio (market_cap s')
                       (pv_total_annual_value_market h s'))
          /\ State.annual_pr_ratios (simState s')
             = State.annual_pr_ratios (simState s).
Proof.
  intros Hm Pos Hmod. cbv zeta. unfold record_annual_ratios.
  rewrite Hm. change 1 with (of_Z 1).
  rewrite add_of_Z, floor_div_of_Z, sub_of_Z.
  unfold assign. rewrite array_index_of_Z by now apply year_index.
  destruct (is_v1 s); (split; [reflexivity |]); unfold stored;
    cbn [simState set_simState increment_month State.set_month
         State.set_annual_pr State.set_annual_pv State.annual_pr_ratios
         State.annual_pv_ratios_usd State.annual_pv_ratios_market or_empty];
    rewrite ?nth_error_array_set; repeat split.
Qed.

(** The annual block within one step, from any object with a natural month
    counter, a history and initial values. *)
Lemma annual_ratio_step sim (m : Z) h iv :
  (0 <= m)%Z ->
  State.month (simState sim) = of_Z m ->
  run_is_over sim = false ->
  State.history (simState sim) = Some h ->
  State.initial_values (simState sim) = Some iv ->
  let sim' := snd (simulationStep sim) in
  let i := Z.to_nat ((m + 1) / 12 - 1) in
  (exists h',
     State.history (simState sim') = Some h'
     /\ History.months h' = History.months h ++ [of_Z (m + 1)]
     /\ if ((m + 1) mod 12 =? 0)%Z
        then if is_v1 sim
             then stored (State.annual_pr_ratios (simState sim')) i
                  = Some (stored_ratio (market_cap sim')
                            (pr_total_annual_value h' sim'))
                  /\ State.annual_pv_ratios_usd (simState sim')
                     = State.annual_pv_ratios_usd (simState sim)
                  /\ State.annual_pv_ratios_market (simState sim')
                     = State.annual_pv_ratios_market (simState sim)
             else stored (State.annual_pv_ratios_usd (simState sim')) i
                  = Some (stored_ratio (market_cap sim')
                            (pv_total_annual_value_usd h'))
                  /\ stored (State.annual_pv_ratios_market (simState sim')) i
                     = Some (stored_ratio (market_cap sim')
                               (pv_total_annual_value_market h' sim'))
                  /\ State.annual_pr_ratios (simState sim')
                     = State.annual_pr_ratios (simState sim)
        else annuals sim' = annuals sim)
  /\ (forall marketCap value,
        stored_ratio marketCap value = null
        \/ exists q, stored_ratio marketCap value = number (Fin q))
  /\ (forall marketCap value,
        (value >? 0) = false -> stored_ratio marketCap value = null)
  /\ (forall marketCap, stored_ratio marketCap 0 = null)
  /\ (forall h0,
        annual_window h0
        = seq (List.length (History.months h0) - 12)
              (Nat.min 12 (List.length (History.months h0)))).
Proof.
  intros Pos Hm Hrun Hh Hi. cbv zeta.
  split; [| split; [apply stored_ratio_shape |
                    split; [apply stored_ratio_null |
                            split; [reflexivity |
                                    apply annual_window_trailing]]]].
  rewrite simulationStep_snd, Hrun, simulationStep_body_unfold.
  destruct (before_recording_effect sim)
    as (_ & _ & _ & M0 & H0 & I0 & V0 & _).
  pose proof (before_recording_annuals sim) as A0.
  set (s0 := before_recording sim) in *.
  rewrite Hh in H0. rewrite Hi in I0. rewrite Hm in M0.
  rewrite (recordHistory_at_month (month_burn sim) (month_distribution sim)
             (calculateFees sim) s0 H0 I0 M0 Pos).
  cbn [snd].
  set (h' := recorded_history (month_burn sim) (month_distribution sim)
               (calculateFees sim) s0 h iv).
  set (s1 := set_simState (State.set_history h' (simState s0)) s0).
  exists h'.
  assert (Mh : History.months h' = History.months h ++ [of_Z (m + 1)]).
  { subst h'. rewrite recorded_history_months, M0.
    change 1 with (of_Z 1). now rewrite add_of_Z. }
  assert (A1 : annuals s1 = annuals sim) by (rewrite <- A0; reflexivity).
  destruct ((m + 1) mod 12 =? 0)%Z eqn:E; cbv iota.
  - apply Z.eqb_eq in E.
    assert (M1 : State.month (simState s1) = of_Z m) by exact M0.
    destruct (record_annual_ratios_at h' s1 M1 Pos E) as (Hh' & R).
    split; [exact Hh' |]. split; [exact Mh |].
    assert (V1 : is_v1 s1 = is_v1 sim) by (apply is_v1_ext; exact V0).
    rewrite V1 in R. unfold annuals in A1.
    injection A1 as Eu Em Er.
    destruct (is_v1 sim); destruct R as (R1 & R2 & R3).
    + split; [exact R1 |]. split; [rewrite R2; exact Eu | rewrite R3; exact Em].
    + split; [exact R1 |]. split; [exact R2 | rewrite R3; exact Er].
  - split; [reflexivity |]. split; [exact Mh | exact A1].
Qed.

Lemma recordHistory_initial_values b d f sim :
  State.initial_values (simState (snd (recordHistory b d f sim)))
  = State.initial_values (simState sim).
Proof.
  unfold recordHistory, try_catch, recordHistory_body, throw,
    record_annual_ratios.
  destruct (State.history (simState sim));
    [destruct (State.initial_values (simState sim)) eqn:E |];
    split_ifs; cbn; rewrite ?E; reflexivity.
Qed.

Lemma initialised_step sim :
  initialised sim -> initialised (snd (simulationStep sim)).
Proof.
  intros (m & h & iv & Pos & Hm & Hh & Hi).
  destruct (run_is_over sim) eqn:Hrun.
  - rewrite simulationStep_snd, Hrun. now exists m, h, iv.
  - destruct (annual_ratio_step sim Pos Hm Hrun Hh Hi)
      as ((h' & Hh' & _) & _).
    assert (Hc : State.history (simState sim) <> None) by congruence.
    assert (Ic : State.initial_values (simState sim) <> None) by congruence.
    destruct (simulationStep_continues sim Hrun Hc Ic) as (_ & M).
    exists (m + 1)%Z, h', iv. split; [lia |]. split; [| split; [exact Hh' |]].
    + rewrite M, Hm. change 1 with (of_Z 1). apply add_of_Z.
    + rewrite simulationStep_snd, Hrun, simulationStep_body_unfold.
      destruct (before_recording_effect sim)
        as (_ & _ & _ & _ & _ & I0 & _).
      pose proof (recordHistory_initial_values (month_burn sim)
                    (month_distribution sim) (calculateFees sim)
                    (before_recording sim)) as I1.
      destruct (recordHistory (month_burn sim) (month_distribution sim)
                  (calculateFees sim) (before_recording sim))
        as [[[] |] s6]; cbn [fst snd] in *; cbn [increment_month simState
          set_simState State.set_month State.initial_values];
        congruence.
Qed.


Lemma initialize_initialised controls model sim0 sim :
  initialize controls model sim0 = (Normal tt, sim) -> initialised sim.
Proof.
  intros H. destruct (initialize_Normal _ _ _ H) as (v & p & st & _ & Hs & ->).
  destruct (read_state_fields _ _ Hs) as (M & _ & _ & _ & _ & _ & _ & Hh & Hi).
  destruct (State.initial_values st) as [iv |] eqn:E; [| contradiction].
  exists 0%Z, History.empty, iv. cbn [simState]. repeat split; try assumption.
  lia.
Qed.



(** The first year of two runs under v2: without fees both denominators are
    zero and [null] is stored; without buyback the cash-flow ratio is the
    finite number 129268750 / 1501533.  Nothing is stored after eleven
    months. *)
Example annual_ratio_examples :
  State.annual_pv_ratios_usd (simState (steps 11 idle_v2)) = Some []
  /\ State.annual_pv_ratios_usd (simState (steps 12 idle_v2)) = Some [null]
  /\ State.annual_pv_ratios_market (simState (steps 12 idle_v2))
     = Some [null]
  /\ State.annual_pv_ratios_usd (simState (steps 11 no_buyback_v2)) = Some []
  /\ match State.annual_pv_ratios_usd (simState (steps 12 no_buyback_v2)) with
     | Some [number x] => strict_eqb x (lit (129268750 # 1501533))
     | _ => false
     end = true.
Proof. repeat split; vm_compute; reflexivity. Qed.

(** ** Exceptions *)

(** C10. Step totality.  [simulationStep] always completes normally with a
    boolean.  When the body of its [try] throws (which [recordHistory] does
    when the history or the initial values are missing, after its own
    handler has thrown the error again), the step returns [false], the month
    counter is the one on entry, and the object returned is the one the body
    had mutated up to the failure: the five updates of the month are kept,
    and so are the pushes that [recordHistory] made before it failed. *)
Theorem simulationStep_never_throws sim :
  (exists continue, fst (simulationStep sim) = Normal continue)
  /\ (run_is_over sim = false ->
      fst (simulationStep_body sim) = Thrown ->
      simulationStep sim = (Normal false, snd (simulationStep_body sim))
      /\ State.month (simState (snd (simulationStep sim)))
         = State.month (simState sim)
      /\ snd (simulationStep sim)
         = snd (recordHistory (month_burn sim) (month_distribution sim)
                  (calculateFees sim) (before_recording sim))
      /\ (State.history (simState sim) = None ->
          snd (simulationStep sim) = before_recording sim)).
Proof.
  split.
  - rewrite simulationStep_unfold. destruct (run_is_over sim); [now exists false |].
    destruct (simulationStep_body sim) as [[a |] s']; [now exists a |
                                                        now exists false].
  - intros Hrun T.
    destruct (simulationStep_body_effect sim)
      as (_ & _ & _ & _ & _ & [(_ & M & _) | (E & _)]); [| congruence].
    destruct (before_recording_effect sim) as (_ & _ & _ & _ & H0 & _).
    rewrite simulationStep_unfold, Hrun.
    revert T M. rewrite simulationStep_body_unfold.
    destruct (recordHistory (month_burn sim) (month_distribution sim)
                (calculateFees sim) (before_recording sim))
      as [[[] |] s6] eqn:R; cbn [fst snd]; [discriminate |].
    intros _ M. repeat split; [exact M |].
    intros Hh. rewrite <- H0 in Hh.
    revert R. unfold recordHistory, try_catch, recordHistory_body, throw.
    rewrite Hh. intros R. now injection R as <-.
Qed.

(** A step on an object that was never initialised. *)
Lemma simulationStep_never_throws_witness :
  run_is_over constructor = false
  /\ fst (simulationStep_body constructor) = Thrown
  /\ simulationStep constructor
     = (Normal false, snd (simulationStep_body constructor))
  /\ State.month (simState (snd (simulationStep constructor)))
     = State.month (simState constructor).
Proof.
  assert (R : run_is_over constructor = false) by (vm_compute; reflexivity).
  assert (T : fst (simulationStep_body constructor) = Thrown)
    by (vm_compute; reflexivity).
  split; [exact R |]. split; [exact T |].
  pose proof (proj2 (simulationStep_never_throws constructor) R T)
    as (E & M & _).
  split; [exact E | exact M].
Defined.

(** On a [WOOSimulation] that was never initialised the step stops on the
    missing history, and the tracking fields written before the failure stay
    written: [tokens_to_burn] was absent and is 0 afterwards. *)
Example uninitialised_step_keeps_updates :
  fst (simulationStep constructor) = Normal false
  /\ isNaN (Tracking.tokens_to_burn (State.tracking (simState constructor)))
     = true
  /\ strict_eqb
       (Tracking.tokens_to_burn
          (State.tracking (simState (snd (simulationStep constructor))))) 0
     = true.
Proof. repeat split; vm_compute; reflexivity. Qed.

(** * Further properties of the engine and of its callers *)

(** ** Fee distribution *)






(** ** Runs of an initialised object *)

(** The step that runs on an object with a natural month counter, a history
    and initial values, in full. *)
Lemma simulationStep_initialised sim (m : Z) h iv :
  (0 <= m)%Z ->
  State.month (simState sim) = of_Z m ->
  run_is_over sim = false ->
  State.history (simState sim) = Some h ->
  State.initial_values (simState sim) = Some iv ->
  let s0 := before_recording sim in
  let h' :=
    recorded_history (month_burn sim) (month_distribution sim)
      (calculateFees sim) s0 h iv in
  let s1 := set_simState (State.set_history h' (simState s0)) s0 in
  simulationStep sim
  = (Normal true,
     increment_month
       (if ((m + 1) mod 12 =? 0)%Z then record_annual_ratios h' s1 else s1)).
Proof.
  intros Pos Hm Hrun Hh Hi. cbv zeta.
  rewrite simulationStep_unfold, Hrun, simulationStep_body_unfold.
  destruct (before_recording_effect sim)
    as (_ & _ & _ & M0 & H0 & I0 & _).
  rewrite Hh in H0. rewrite Hi in I0. rewrite Hm in M0.
  rewrite (recordHistory_at_month (month_burn sim) (month_distribution sim)
             (calculateFees sim) (before_recording sim) H0 I0 M0 Pos).
  reflexivity.
Qed.

(** An invariant of the steps that run, indexed by the number of months
    played, holds throughout a run. *)
Lemma steps_invariant (P : Sim -> Z -> Prop) :
  (forall sim m,
     P sim m -> run_is_over sim = false ->
     P (snd (simulationStep sim)) (m + 1)%Z) ->
  forall n sim m,
    P sim m ->
    exists m', (m <= m' <= m + Z.of_nat n)%Z /\ P (steps n sim) m'.
Proof.
  intros Hstep. induction n as [| n IH]; intros sim m H.
  - exists m. split; [lia | exact H].
  - cbn [steps]. destruct (run_is_over sim) eqn:Hrun.
    + rewrite simulationStep_snd, Hrun.
      destruct (IH sim m H) as (m' & B & H'). exists m'. split; [lia | exact H'].
    + destruct (IH _ _ (Hstep sim m H Hrun)) as (m' & B & H').
      exists m'. split; [lia | exact H'].
Qed.

Lemma recorded_history_lengths b d f sim h iv :
  history_lengths (recorded_history b d f sim h iv)
  = map S (history_lengths h).
Proof.
  unfold recorded_history, history_lengths, push_analytics, push_snapshot,
    push.
  cbn [History.months History.woofi_treasury History.woox_treasury
       History.circulating History.staked History.price History.monthlyBurned
       History.marketPurchases History.permImpact History.tempImpact
       History.usdc_distributed History.buyback_amounts
       History.auto_compound_amounts History.treasury_inflows
       History.woofi_fees_generated History.woox_fees_generated
       History.woox_treasury_inflows History.staker_fees_received
       History.treasury_fees_received History.orderly_fees_received
       History.buyback_fees_received History.treasury_runway_months
       History.price_change_pct History.supply_reduction_pct
       History.cumulative_burned History.staking_ratio
       History.treasury_runway map].
  rewrite !length_app. cbn [List.length]. rewrite !Nat.add_1_r. reflexivity.
Qed.

Lemma month_numbers_S (n : nat) :
  month_numbers (S n) = month_numbers n ++ [of_Z (Z.of_nat n + 1)].
Proof.
  unfold month_numbers. rewrite seq_S, map_app. cbn [map]. do 3 f_equal. lia.
Qed.

Lemma history_after_recording (b : bool) h s :
  State.history
    (simState
       (increment_month
          (if b
           then record_annual_ratios h
                  (set_simState (State.set_history h (simState s)) s)
           else set_simState (State.set_history h (simState s)) s)))
  = Some h.
Proof.
  unfold record_annual_ratios. destruct b; [destruct (is_v1 _) |]; reflexivity.
Qed.

Lemma initial_values_after_recording (b : bool) h s :
  State.initial_values
    (simState
       (increment_month
          (if b
           then record_annual_ratios h
                  (set_simState (State.set_history h (simState s)) s)
           else set_simState (State.set_history h (simState s)) s)))
  = State.initial_values (simState s).
Proof.
  unfold record_annual_ratios. destruct b; [destruct (is_v1 _) |]; reflexivity.
Qed.

Lemma month_after_recording (b : bool) h s :
  State.month
    (simState
       (increment_month
          (if b
           then record_annual_ratios h
                  (set_simState (State.set_history h (simState s)) s)
           else set_simState (State.set_history h (simState s)) s)))
  = State.month (simState s) + 1.
Proof.
  unfold record_annual_ratios. destruct b; [destruct (is_v1 _) |]; reflexivity.
Qed.

(** X3.  The arrays of the history grow together: in a run started by
    [initialize], after any number of calls of [simulationStep], the month
    counter is the number [m] of months played, each of the 27 arrays of the
    history has exactly [m] entries, and [history.months] lists 1, ..., [m].
    An index into [history.months] is therefore an index into every other
    array, which is how the result tables read them. *)
Theorem history_arrays_in_lockstep controls model sim0 sim n :
  initialize controls model sim0 = (Normal tt, sim) ->
  exists (m : nat) h,
    (m <= n)%nat
    /\ State.month (simState (steps n sim)) = of_Z (Z.of_nat m)
    /\ State.history (simState (steps n sim)) = Some h
    /\ Forall (fun len => len = m) (history_lengths h)
    /\ History.months h = month_numbers m.
Proof.
  intros H.
  set (P := fun (s : Sim) (m : Z) =>
              (0 <= m)%Z
              /\ State.month (simState s) = of_Z m
              /\ State.initial_values (simState s) <> None
              /\ exists h,
                   State.history (simState s) = Some h
                   /\ history_lengths h = repeat (Z.to_nat m) 27
                   /\ History.months h = month_numbers (Z.to_nat m)).
  assert (Hstep : forall s m, P s m -> run_is_over s = false ->
                              P (snd (simulationStep s)) (m + 1)%Z).
  { intros s m (Pos & Hm & Hi & h & Hh & Hl & Hn) Hrun.
    destruct (State.initial_values (simState s)) as [iv |] eqn:Ei;
      [| contradiction].
    pose proof (simulationStep_initialised s Pos Hm Hrun Hh Ei) as E.
    cbv zeta in E. rewrite E. cbn [snd].
    destruct (before_recording_effect s) as (_ & _ & _ & M0 & _ & I0 & _).
    unfold P. split; [lia |].
    rewrite month_after_recording, initial_values_after_recording,
      history_after_recording.
    split; [rewrite M0, Hm; change 1 with (of_Z 1); apply add_of_Z |].
    split; [congruence |].
    eexists. split; [reflexivity |].
    rewrite recorded_history_lengths, Hl, recorded_history_months, Hn, M0, Hm.
    replace (Z.to_nat (m + 1)) with (S (Z.to_nat m)) by lia.
    split; [reflexivity |].
    rewrite month_numbers_S. change 1 with (of_Z 1). rewrite add_of_Z.
    do 3 f_equal. lia. }
  assert (H0 : P sim 0%Z).
  { destruct (initialize_Normal _ _ _ H) as (v & p & st & _ & Hs & ->).
    destruct (read_state_fields _ _ Hs)
      as (M & _ & _ & _ & _ & _ & _ & Hh & Hi).
    unfold P. cbn [simState]. split; [lia |]. split; [exact M |].
    split; [exact Hi |]. exists History.empty. now split. }
  destruct (@steps_invariant P Hstep n sim 0%Z H0)
    as (m' & B & Pos & Hm & _ & h & Hh & Hl & Hn).
  exists (Z.to_nat m'), h. split; [lia |].
  split; [rewrite Hm; f_equal; lia |]. split; [exact Hh |].
  split; [| exact Hn].
  rewrite Hl. apply Forall_forall. intros x Hx. now apply repeat_spec in Hx.
Qed.

(** The history after twelve months of the run without buyback. *)
Lemma history_arrays_in_lockstep_witness :
  initialize no_buyback_controls (Some "v2"%string) constructor
  = (Normal tt, no_buyback_v2)
  /\ exists (m : nat) h,
       (m <= 12)%nat
       /\ State.history (simState (steps 12 no_buyback_v2)) = Some h
       /\ History.months h = month_numbers m.
Proof.
  assert (E : initialize no_buyback_controls (Some "v2"%string) constructor
              = (Normal tt, no_buyback_v2)) by (vm_compute; reflexivity).
  split; [exact E |].
  destruct (history_arrays_in_lockstep no_buyback_controls
              (Some "v2"%string) constructor 12 E)
    as (m & h & B & _ & Hh & _ & Hn).
  exists m, h. split; [exact B |]. split; [exact Hh | exact Hn].
Defined.

(** ** The annual arrays over a run *)

Lemma array_set_at_end (arr : list slot) (v : slot) :
  array_set arr (List.length arr) v = arr ++ [v].
Proof. induction arr as [| x arr IH]; cbn; congruence. Qed.

Lemma dense_push (arr : list slot) (r : num) (years : nat) :
  dense (Some arr) years ->
  dense (Some (array_set arr years (finite_or_null r))) (S years).
Proof.
  unfold dense. cbn [or_empty]. intros (L & F). subst years.
  rewrite array_set_at_end. split.
  - rewrite length_app. cbn [List.length]. lia.
  - apply Forall_app. split; [exact F |].
    constructor; [| constructor].
    unfold finite_or_null. destruct (isFinite r); discriminate.
Qed.

Lemma dense_or_empty (arr : option (list slot)) (years : nat) :
  dense arr years <-> dense (Some (or_empty arr)) years.
Proof. reflexivity. Qed.

Lemma year_slot (m : Z) :
  (0 <= m)%Z -> ((m + 1) mod 12 = 0)%Z ->
  ((m + 1) / 12 - 1 = m / 12)%Z /\ ((m + 1) / 12 = m / 12 + 1)%Z.
Proof. intros Pos Hmod. Z.to_euclidean_division_equations. lia. Qed.

Lemma year_unchanged (m : Z) :
  (0 <= m)%Z -> ((m + 1) mod 12 <> 0)%Z -> ((m + 1) / 12 = m / 12)%Z.
Proof. intros Pos Hmod. Z.to_euclidean_division_equations. lia. Qed.

Lemma record_annual_ratios_dense h s (m : Z) :
  State.month (simState s) = of_Z m ->
  (0 <= m)%Z -> ((m + 1) mod 12 = 0)%Z ->
  let years := Z.to_nat (m / 12) in
  let s' := increment_month (record_annual_ratios h s) in
  if is_v1 s
  then (dense (State.annual_pr_ratios (simState s)) years ->
        dense (State.annual_pr_ratios (simState s')) (S years))
       /\ State.annual_pv_ratios_usd (simState s')
          = State.annual_pv_ratios_usd (simState s)
       /\ State.annual_pv_ratios_market (simState s')
          = State.annual_pv_ratios_market (simState s)
  else (dense (State.annual_pv_ratios_usd (simState s)) years ->
        dense (State.annual_pv_ratios_usd (simState s')) (S years))
       /\ (dense (State.annual_pv_ratios_market (simState s)) years ->
           dense (State.annual_pv_ratios_market (simState s')) (S years))
       /\ State.annual_pr_ratios (simState s')
          = State.annual_pr_ratios (simState s).
Proof.
  intros Hm Pos Hmod. cbv zeta. unfold record_annual_ratios.
  rewrite Hm. change 1 with (of_Z 1).
  rewrite add_of_Z, floor_div_of_Z, sub_of_Z.
  unfold assign. rewrite array_index_of_Z by now apply year_index.
  rewrite (proj1 (year_slot Pos Hmod)).
  destruct (is_v1 s);
    cbn [simState set_simState increment_month State.set_month
         State.set_annual_pr State.set_annual_pv State.annual_pr_ratios
         State.annual_pv_ratios_usd State.annual_pv_ratios_market];
    (split; [| split]); try reflexivity;
    intros D; apply dense_push, dense_or_empty, D.
Qed.

Lemma read_state_annuals controls p st :
  read_state controls p = Some st ->
  State.annual_pv_ratios_usd st = Some []
  /\ State.annual_pv_ratios_market st = Some []
  /\ State.annual_pr_ratios st = None.
Proof.
  unfold read_state.
  destruct (Controls.initialStaked controls); [| discriminate].
  destruct (Controls.initialWoofiTreasury controls); [| discriminate].
  destruct (Controls.initialWooxTreasury controls); [| discriminate].
  intros H. injection H as <-. cbn. repeat split.
Qed.

Lemma annual_arrays_step s (m : Z) :
  (0 <= m)%Z ->
  State.month (simState s) = of_Z m ->
  State.history (simState s) <> None ->
  State.initial_values (simState s) <> None ->
  run_is_over s = false ->
  annual_arrays_hold s (Z.to_nat (m / 12)) ->
  annual_arrays_hold (snd (simulationStep s)) (Z.to_nat ((m + 1) / 12)).
Proof.
  intros Pos Hm Hh Hi Hrun A.
  destruct (State.history (simState s)) as [h |] eqn:Eh; [| contradiction].
  destruct (State.initial_values (simState s)) as [iv |] eqn:Ei;
    [| contradiction].
  pose proof (simulationStep_initialised s Pos Hm Hrun Eh Ei) as E.
  cbv zeta in E.
  assert (V : is_v1 (snd (simulationStep s)) = is_v1 s)
    by (apply is_v1_ext, simulationStep_frame).
  unfold annual_arrays_hold in *. rewrite V. rewrite E. cbn [snd].
  destruct (before_recording_effect s) as (_ & _ & _ & M0 & _ & I0 & V0 & _).
  pose proof (before_recording_annuals s) as A0.
  set (s0 := before_recording s) in *.
  set (h' := recorded_history (month_burn s) (month_distribution s)
               (calculateFees s) s0 h iv) in *.
  set (s1 := set_simState (State.set_history h' (simState s0)) s0) in *.
  assert (Eu : State.annual_pv_ratios_usd (simState s1)
               = State.annual_pv_ratios_usd (simState s))
    by (unfold annuals in A0; now injection A0).
  assert (Em : State.annual_pv_ratios_market (simState s1)
               = State.annual_pv_ratios_market (simState s))
    by (unfold annuals in A0; now injection A0).
  assert (Er : State.annual_pr_ratios (simState s1)
               = State.annual_pr_ratios (simState s))
    by (unfold annuals in A0; now injection A0).
  destruct ((m + 1) mod 12 =? 0)%Z eqn:Emod.
  - apply Z.eqb_eq in Emod.
    assert (M1 : State.month (simState s1) = of_Z m)
      by (rewrite <- Hm, <- M0; reflexivity).
    pose proof (record_annual_ratios_dense h' s1 M1 Pos Emod) as R.
    cbv zeta in R.
    assert (V1 : is_v1 s1 = is_v1 s) by (apply is_v1_ext; exact V0).
    rewrite V1 in R.
    replace (Z.to_nat ((m + 1) / 12)) with (S (Z.to_nat (m / 12)))
      by (rewrite (proj2 (year_slot Pos Emod));
          assert (0 <= m / 12)%Z by (apply Z.div_pos; lia); lia).
    destruct (is_v1 s).
    + destruct R as (R1 & R2 & R3). destruct A as (A1 & A2 & A3).
      split; [apply R1; rewrite Er; exact A1 |].
      split; [rewrite R2, Eu; exact A2 | rewrite R3, Em; exact A3].
    + destruct R as (R1 & R2 & R3). destruct A as (A1 & A2 & A3).
      split; [apply R1; rewrite Eu; exact A1 |].
      split; [apply R2; rewrite Em; exact A2 | rewrite R3, Er; exact A3].
  - apply Z.eqb_neq in Emod. rewrite (year_unchanged Pos Emod).
    change (State.annual_pr_ratios (simState (increment_month s1)))
      with (State.annual_pr_ratios (simState s1)).
    change (State.annual_pv_ratios_usd (simState (increment_month s1)))
      with (State.annual_pv_ratios_usd (simState s1)).
    change (State.annual_pv_ratios_market (simState (increment_month s1)))
      with (State.annual_pv_ratios_market (simState s1)).
    rewrite Eu, Em, Er. exact A.
Qed.

Lemma annual_arrays_initial controls model sim0 sim :
  initialize controls model sim0 = (Normal tt, sim) ->
  annual_arrays_hold sim 0.
Proof.
  intros H.
  destruct (initialize_Normal _ _ _ H) as (v & p & st & _ & Hs & ->).
  destruct (read_state_annuals _ _ Hs) as (Au & Am & Ar).
  unfold annual_arrays_hold. cbn [simState]. rewrite Au, Am, Ar.
  assert (D : forall a, or_empty a = [] -> dense a 0)
    by (intros a Ha; unfold dense; rewrite Ha; split; [reflexivity |
                                                       constructor]).
  destruct (is_v1 _); repeat split; try (apply D; reflexivity).
Qed.

Lemma initialised_after_step s (m : Z) :
  (0 <= m)%Z ->
  State.month (simState s) = of_Z m ->
  State.history (simState s) <> None ->
  State.initial_values (simState s) <> None ->
  run_is_over s = false ->
  State.month (simState (snd (simulationStep s))) = of_Z (m + 1)
  /\ State.history (simState (snd (simulationStep s))) <> None
  /\ State.initial_values (simState (snd (simulationStep s))) <> None.
Proof.
  intros Pos Hm Hh Hi Hrun.
  destruct (State.history (simState s)) as [h |] eqn:Eh; [| contradiction].
  destruct (State.initial_values (simState s)) as [iv |] eqn:Ei;
    [| contradiction].
  pose proof (simulationStep_initialised s Pos Hm Hrun Eh Ei) as E.
  cbv zeta in E. rewrite E. cbn [snd].
  destruct (before_recording_effect s) as (_ & _ & _ & M0 & _ & I0 & _).
  rewrite month_after_recording, initial_values_after_recording,
    history_after_recording.
  split; [rewrite M0, Hm; change 1 with (of_Z 1); apply add_of_Z |].
  split; [discriminate | congruence].
Qed.

(** X4.  The annual arrays hold one element per completed year and no hole: in a
    run started by [initialize], after [m] months, the array (v1) or the two
    arrays (v2) of the model have exactly [m / 12] elements, each of them a
    number or [null].  The arrays of the other model are never written: the
    two P/V arrays stay empty under v1, and [annual_pr_ratios] is never
    created under v2. *)
Theorem annual_arrays_are_dense controls model sim0 sim n :
  initialize controls model sim0 = (Normal tt, sim) ->
  let s := steps n sim in
  exists m : Z,
    (0 <= m <= Z.of_nat n)%Z
    /\ State.month (simState s) = of_Z m
    /\ let years := Z.to_nat (m / 12) in
       if is_v1 s
       then dense (State.annual_pr_ratios (simState s)) years
            /\ State.annual_pv_ratios_usd (simState s) = Some []
            /\ State.annual_pv_ratios_market (simState s) = Some []
       else dense (State.annual_pv_ratios_usd (simState s)) years
            /\ dense (State.annual_pv_ratios_market (simState s)) years
            /\ State.annual_pr_ratios (simState s) = None.
Proof.
  intros H. cbv zeta.
  set (P := fun (s : Sim) (m : Z) =>
              (0 <= m)%Z
              /\ State.month (simState s) = of_Z m
              /\ State.history (simState s) <> None
              /\ State.initial_values (simState s) <> None
              /\ annual_arrays_hold s (Z.to_nat (m / 12))).
  assert (Hstep : forall s m, P s m -> run_is_over s = false ->
                              P (snd (simulationStep s)) (m + 1)%Z).
  { intros s m (Pos & Hm & Hh & Hi & A) Hrun.
    destruct (@initialised_after_step s m Pos Hm Hh Hi Hrun)
      as (M' & H' & I').
    unfold P. split; [lia |]. split; [exact M' |]. split; [exact H' |].
    split; [exact I' |]. now apply annual_arrays_step. }
  assert (H0 : P sim 0%Z).
  { pose proof (annual_arrays_initial _ _ _ H) as A.
    destruct (initialize_Normal _ _ _ H) as (v & p & st & _ & Hs & ->).
    destruct (read_state_fields _ _ Hs)
      as (M & _ & _ & _ & _ & _ & _ & Hh & Hi).
    unfold P. cbn [simState]. split; [lia |]. split; [exact M |].
    split; [congruence |]. split; [exact Hi | exact A]. }
  destruct (@steps_invariant P Hstep n sim 0%Z H0)
    as (m' & B & Pos & Hm & _ & _ & A).
  exists m'. split; [lia |]. split; [exact Hm | exact A].
Qed.

(** The annual arrays after twelve months of the run without buyback. *)
Lemma annual_arrays_are_dense_witness :
  initialize no_buyback_controls (Some "v2"%string) constructor
  = (Normal tt, no_buyback_v2)
  /\ exists m : Z,
       (0 <= m <= 12)%Z
       /\ State.month (simState (steps 12 no_buyback_v2)) = of_Z m.
Proof.
  assert (E : initialize no_buyback_controls (Some "v2"%string) constructor
              = (Normal tt, no_buyback_v2)) by (vm_compute; reflexivity).
  split; [exact E |].
  destruct (annual_arrays_are_dense no_buyback_controls (Some "v2"%string)
              constructor 12 E) as (m & B & Hm & _).
  exists m. split; [exact B | exact Hm].
Defined.

(** ** Staking, purchases and the treasuries *)

Lemma before_recording_staked sim :
  State.total_staked_woo (simState (before_recording sim))
  = if is_v1 sim && (Burn.market_purchase_tokens (month_burn sim) >? 0)
    then State.total_staked_woo (simState sim)
         + Burn.market_purchase_tokens (month_burn sim)
    else State.total_staked_woo (simState sim).
Proof.
  unfold before_recording.
  assert (P : forall i s, State.total_staked_woo (simState (updatePrice i s))
                          = State.total_staked_woo (simState s))
    by (intros; unfold updatePrice; split_ifs; reflexivity).
  assert (U : forall b s, State.total_staked_woo (simState (updateSupply b s))
                          = State.total_staked_woo (simState s))
    by (intros; unfold updateSupply; split_ifs; reflexivity).
  assert (T : forall d b s,
             State.total_staked_woo (simState (updateTreasury d b s))
             = State.total_staked_woo (simState s))
    by (intros; unfold updateTreasury, updateTreasuryV1, updateTreasuryV2;
        destruct (is_v1 s); reflexivity).
  rewrite P, U.
  set (s1 := updateIntermediateVariables (calculateFees sim)
               (month_distribution sim) (month_burn sim) (month_impact sim)
               sim).
  set (s2 := updateTreasury (month_distribution sim) (month_burn sim) s1).
  assert (V : is_v1 s2 = is_v1 sim).
  { apply is_v1_ext. subst s2.
    destruct (updateTreasury_frame (month_distribution sim) (month_burn sim)
                s1) as (_ & _ & _ & _ & _ & V2 & _).
    rewrite V2. reflexivity. }
  assert (K : State.total_staked_woo (simState s2)
              = State.total_staked_woo (simState sim))
    by (subst s2; rewrite T; reflexivity).
  unfold updateStakerPositions, updateStakerPositionsV1,
    updateStakerPositionsV2.
  rewrite V. destruct (is_v1 sim); cbn [andb]; [| exact K].
  destruct (Burn.market_purchase_tokens (month_burn sim) >? 0);
    [| exact K].
  cbn [simState set_simState State.set_total_staked_woo
       State.total_staked_woo].
  now rewrite K.
Qed.

Lemma recordHistory_staked b d f sim :
  State.total_staked_woo (simState (snd (recordHistory b d f sim)))
  = State.total_staked_woo (simState sim).
Proof.
  unfold recordHistory, try_catch, recordHistory_body, throw,
    record_annual_ratios.
  destruct (State.history (simState sim));
    [destruct (State.initial_values (simState sim)) |];
    split_ifs; reflexivity.
Qed.

Lemma simulationStep_staked sim :
  State.total_staked_woo (simState (snd (simulationStep sim)))
  = if negb (run_is_over sim) && is_v1 sim
       && (Burn.market_purchase_tokens (month_burn sim) >? 0)
    then State.total_staked_woo (simState sim)
         + Burn.market_purchase_tokens (month_burn sim)
    else State.total_staked_woo (simState sim).
Proof.
  rewrite simulationStep_snd. destruct (run_is_over sim); [reflexivity |].
  cbn [negb andb]. rewrite <- before_recording_staked.
  rewrite simulationStep_body_unfold.
  pose proof (recordHistory_staked (month_burn sim) (month_distribution sim)
                (calculateFees sim) (before_recording sim)) as R.
  destruct (recordHistory (month_burn sim) (month_distribution sim)
              (calculateFees sim) (before_recording sim)) as [[[] |] s6];
    exact R.
Qed.

Lemma is_v1_step sim : is_v1 (snd (simulationStep sim)) = is_v1 sim.
Proof. apply is_v1_ext, simulationStep_frame. Qed.

Lemma is_v1_steps n : forall sim, is_v1 (steps n sim) = is_v1 sim.
Proof.
  induction n as [| n IH]; intros sim; [reflexivity |].
  cbn [steps]. rewrite IH. apply is_v1_step.
Qed.

(** X5.  Under v2 nothing is ever staked or unstaked: whatever the object, and
    however many times [simulationStep] is called, [total_staked_woo] keeps
    its value. *)
Theorem staking_is_static_under_v2 n : forall sim,
  is_v1 sim = false ->
  State.total_staked_woo (simState (steps n sim))
  = State.total_staked_woo (simState sim).
Proof.
  induction n as [| n IH]; intros sim V; [reflexivity |].
  cbn [steps]. rewrite IH by (rewrite is_v1_step; exact V).
  rewrite simulationStep_staked, V, andb_false_r. reflexivity.
Qed.

(** Thirty-six calls on the default object under v2. *)
Lemma staking_is_static_under_v2_witness :
  is_v1 default_v2 = false
  /\ State.total_staked_woo (simState (steps 36 default_v2))
     = State.total_staked_woo (simState default_v2).
Proof.
  assert (V : is_v1 default_v2 = false) by (vm_compute; reflexivity).
  split; [exact V |].
  exact (@staking_is_static_under_v2 36 default_v2 V).
Defined.







Lemma inflow_tokens_nonneg sim (usd : num) :
  isFinite usd = true -> 0 <= usd ->
  exists t, inflow_tokens sim usd = Fin t /\ (0 <= t)%Qc.
Proof.
  unfold inflow_tokens, gtb, ltb, le, leb, div.
  destruct usd as [u | | |]; try discriminate. intros _ Hu.
  apply Qc_leb_true in Hu.
  destruct (State.woo_price (simState sim)) as [p | | |].
  - destruct (Qc_ltb 0 p) eqn:E.
    + apply Qc_ltb_true in E.
      replace (Qc_eqb p 0) with false
        by (symmetry; apply Qc_eqb_false; intros ->;
            exact (Qlt_irrefl _ E)).
      exists (u / p)%Qc. split; [reflexivity |].
      unfold Qcle, Qclt in *. rewrite this_div.
      change (this 0%Qc) with 0%Q in *.
      apply Qle_shift_div_l; [exact E |]. rewrite Qmult_0_l. exact Hu.
    + exists 0%Qc. split; [reflexivity | apply Qcle_refl].
  - exists 0%Qc. split; [reflexivity | apply Qcle_refl].
  - exists 0%Qc. split; [reflexivity | apply Qcle_refl].
  - exists 0%Qc. split; [reflexivity | apply Qcle_refl].
Qed.

(** X8.  Under v2 the treasuries only accumulate: in a step whose two treasury
    inflows are finite and not negative, neither balance goes down, since
    [updateTreasuryV2] subtracts nothing. *)
Theorem treasuries_only_grow_under_v2 sim :
  is_v1 sim = false ->
  isFinite (Dist.woofi_treasury_inflow_usd (month_distribution sim)) = true ->
  0 <= Dist.woofi_treasury_inflow_usd (month_distribution sim) ->
  isFinite (Dist.woox_treasury_inflow_usd (month_distribution sim)) = true ->
  0 <= Dist.woox_treasury_inflow_usd (month_distribution sim) ->
  isFinite (State.woofi_treasury_balance (simState sim)) = true ->
  isFinite (State.woox_treasury_balance (simState sim)) = true ->
  let s := snd (simulationStep sim) in
  State.woofi_treasury_balance (simState sim)
  <= State.woofi_treasury_balance (simState s)
  /\ State.woox_treasury_balance (simState sim)
     <= State.woox_treasury_balance (simState s).
Proof.
  intros V F1 N1 F2 N2 Fa Fb. cbv zeta.
  destruct (State.woofi_treasury_balance (simState sim)) as [a | | |] eqn:Ea;
    try discriminate Fa.
  destruct (State.woox_treasury_balance (simState sim)) as [b | | |] eqn:Eb;
    try discriminate Fb.
  rewrite simulationStep_snd. destruct (run_is_over sim).
  - rewrite Ea, Eb. unfold le, leb. split; apply Qc_leb_true, Qcle_refl.
  - destruct (simulationStep_body_effect sim) as (_ & _ & T & _).
    set (s' := snd (simulationStep_body sim)) in *.
    assert (Ha : State.woofi_treasury_balance (simState s')
                 = fst (treasuries s')) by reflexivity.
    assert (Hb : State.woox_treasury_balance (simState s')
                 = snd (treasuries s')) by reflexivity.
    rewrite Ha, Hb, T. unfold updateTreasury. rewrite V.
    unfold updateTreasuryV2, treasuries.
    cbn [simState set_simState State.set_treasury
         State.woofi_treasury_balance State.woox_treasury_balance fst snd].
    fold (inflow_tokens sim
            (Dist.woofi_treasury_inflow_usd (month_distribution sim))).
    fold (inflow_tokens sim
            (Dist.woox_treasury_inflow_usd (month_distribution sim))).
    destruct (inflow_tokens_nonneg sim F1 N1) as (t1 & -> & P1).
    destruct (inflow_tokens_nonneg sim F2 N2) as (t2 & -> & P2).
    rewrite Ea, Eb. unfold le, leb, add. split; qc_lra.
Qed.

(** The first month of the default run under v2. *)
Lemma treasuries_only_grow_under_v2_witness :
  is_v1 default_v2 = false
  /\ 0 <= Dist.woofi_treasury_inflow_usd (month_distribution default_v2)
  /\ 0 <= Dist.woox_treasury_inflow_usd (month_distribution default_v2)
  /\ State.woofi_treasury_balance (simState default_v2)
     <= State.woofi_treasury_balance
          (simState (snd (simulationStep default_v2)))
  /\ State.woox_treasury_balance (simState default_v2)
     <= State.woox_treasury_balance
          (simState (snd (simulationStep default_v2))).
Proof.
  assert (V : is_v1 default_v2 = false) by (vm_compute; reflexivity).
  assert (F1 : isFinite (Dist.woofi_treasury_inflow_usd
                           (month_distribution default_v2)) = true)
    by (vm_compute; reflexivity).
  assert (N1 : 0 <= Dist.woofi_treasury_inflow_usd
                      (month_distribution default_v2))
    by (vm_compute; reflexivity).
  assert (F2 : isFinite (Dist.woox_treasury_inflow_usd
                           (month_distribution default_v2)) = true)
    by (vm_compute; reflexivity).
  assert (N2 : 0 <= Dist.woox_treasury_inflow_usd
                      (month_distribution default_v2))
    by (vm_compute; reflexivity).
  assert (Fa : isFinite (State.woofi_treasury_balance (simState default_v2))
               = true) by (vm_compute; reflexivity).
  assert (Fb : isFinite (State.woox_treasury_balance (simState default_v2))
               = true) by (vm_compute; reflexivity).
  split; [exact V |]. split; [exact N1 |]. split; [exact N2 |].
  exact (treasuries_only_grow_under_v2 default_v2 V F1 N1 F2 N2 Fa Fb).
Defined.

(** ** What the history holds *)

(** A property of the history that every recording step keeps holds of the
    history of a run. *)
Lemma run_history_invariant (Q : History.t -> Prop) controls model sim0 sim :
  initialize controls model sim0 = (Normal tt, sim) ->
  Q History.empty ->
  (forall s h iv,
     is_v1 s = is_v1 sim -> Q h ->
     Q (recorded_history (month_burn s) (month_distribution s)
          (calculateFees s) (before_recording s) h iv)) ->
  forall n,
    exists h, State.history (simState (steps n sim)) = Some h /\ Q h.
Proof.
  intros H Q0 Qstep n.
  set (P := fun (s : Sim) (m : Z) =>
              (0 <= m)%Z
              /\ State.month (simState s) = of_Z m
              /\ State.initial_values (simState s) <> None
              /\ is_v1 s = is_v1 sim
              /\ exists h, State.history (simState s) = Some h /\ Q h).
  assert (Hstep : forall s m, P s m -> run_is_over s = false ->
                              P (snd (simulationStep s)) (m + 1)%Z).
  { intros s m (Pos & Hm & Hi & V & h & Hh & Qh) Hrun.
    destruct (State.initial_values (simState s)) as [iv |] eqn:Ei;
      [| contradiction].
    pose proof (simulationStep_initialised s Pos Hm Hrun Hh Ei) as E.
    cbv zeta in E. unfold P. rewrite is_v1_step, E. cbn [snd].
    destruct (before_recording_effect s) as (_ & _ & _ & M0 & _ & I0 & _).
    rewrite month_after_recording, initial_values_after_recording,
      history_after_recording.
    split; [lia |].
    split; [rewrite M0, Hm; change 1 with (of_Z 1); apply add_of_Z |].
    split; [congruence |]. split; [exact V |].
    eexists. split; [reflexivity |]. now apply Qstep. }
  assert (H0 : P sim 0%Z).
  { destruct (initialize_Normal _ _ _ H) as (v & p & st & _ & Hs & E).
    destruct (read_state_fields _ _ Hs)
      as (M & _ & _ & _ & _ & _ & _ & Hh & Hi).
    unfold P. rewrite E. cbn [simState]. split; [lia |]. split; [exact M |].
    split; [exact Hi |]. split; [reflexivity |].
    exists History.empty. now split. }
  destruct (@steps_invariant P Hstep n sim 0%Z H0)
    as (m' & _ & _ & _ & _ & _ & h & Hh & Qh).
  now exists h.
Qed.

Lemma Forall_push {A : Type} (P : A -> Prop) (l : list A) (x : A) :
  Forall P l -> P x -> Forall P (push l x).
Proof.
  intros Hl Hx. unfold push. apply Forall_app. split; [exact Hl |].
  now constructor.
Qed.

(** X9.  The treasury runway that the history records is [Infinity] in every
    month of every run, under both models: [recordHistory] divides by
    [burnData.tokens_to_burn], a property that neither burn stage puts in
    the object it returns. *)
Theorem recorded_runway_is_always_infinite controls model sim0 sim n :
  initialize controls model sim0 = (Normal tt, sim) ->
  exists h,
    State.history (simState (steps n sim)) = Some h
    /\ Forall (fun x => x = PInf) (History.treasury_runway_months h)
    /\ Forall (fun x => x = PInf) (History.treasury_runway h).
Proof.
  intros H.
  apply (@run_history_invariant
           (fun h => Forall (fun x => x = PInf)
                       (History.treasury_runway_months h)
                     /\ Forall (fun x => x = PInf) (History.treasury_runway h))
           controls model sim0 sim H).
  - split; constructor.
  - intros s h iv _ (Q1 & Q2). split.
    + change (History.treasury_runway_months
                (recorded_history (month_burn s) (month_distribution s)
                   (calculateFees s) (before_recording s) h iv))
        with (push (History.treasury_runway_months h) PInf).
      now apply Forall_push.
    + change (History.treasury_runway
                (recorded_history (month_burn s) (month_distribution s)
                   (calculateFees s) (before_recording s) h iv))
        with (push (History.treasury_runway h) PInf).
      now apply Forall_push.
Qed.

(** Twelve months of the run without buyback. *)
Lemma recorded_runway_is_always_infinite_witness :
  initialize no_buyback_controls (Some "v2"%string) constructor
  = (Normal tt, no_buyback_v2)
  /\ exists h,
       State.history (simState (steps 12 no_buyback_v2)) = Some h
       /\ Forall (fun x => x = PInf) (History.treasury_runway_months h).
Proof.
  assert (E : initialize no_buyback_controls (Some "v2"%string) constructor
              = (Normal tt, no_buyback_v2)) by (vm_compute; reflexivity).
  split; [exact E |].
  destruct (recorded_runway_is_always_infinite no_buyback_controls
              (Some "v2"%string) constructor 12 E) as (h & Hh & R & _).
  exists h. split; [exact Hh | exact R].
Defined.

Lemma zero_millionth : 0 / lit 1e6 = 0.
Proof. apply zero_div_Fin. reflexivity. Qed.

(** X10.  The series of one model stay at zero under the other: in a run under v1
    every recorded buyback amount and every recorded buyback fee is 0, and
    in a run under v2 every recorded auto-compound amount is 0. *)
Theorem model_series_are_exclusive controls model sim0 sim n :
  initialize controls model sim0 = (Normal tt, sim) ->
  exists h,
    State.history (simState (steps n sim)) = Some h
    /\ if is_v1 sim
       then Forall (fun x => x = 0) (History.buyback_amounts h)
            /\ Forall (fun x => x = 0)
                 (match History.buyback_fees_received h with
                  | Some l => l
                  | None => []
                  end)
       else Forall (fun x => x = 0) (History.auto_compound_amounts h).
Proof.
  intros H.
  apply (@run_history_invariant
           (fun h =>
              if is_v1 sim
              then Forall (fun x => x = 0) (History.buyback_amounts h)
                   /\ Forall (fun x => x = 0)
                        (match History.buyback_fees_received h with
                         | Some l => l
                         | None => []
                         end)
              else Forall (fun x => x = 0) (History.auto_compound_amounts h))
           controls model sim0 sim H).
  - destruct (is_v1 sim); [split |]; constructor.
  - intros s h iv V Q.
    assert (V0 : is_v1 (before_recording s) = is_v1 sim).
    { rewrite <- V. apply is_v1_ext.
      now destruct (before_recording_effect s)
        as (_ & _ & _ & _ & _ & _ & V0 & _). }
    unfold recorded_history, push_analytics, push_snapshot.
    cbn [History.buyback_amounts History.buyback_fees_received
         History.auto_compound_amounts].
    rewrite V0. destruct (is_v1 sim) eqn:Ev.
    + destruct Q as (Q1 & Q2). split; apply Forall_push; auto.
      unfold month_distribution, distributeFees. rewrite V.
      cbn [distributeFeesV1 Dist.buyback_fees_total]. apply zero_millionth.
    + now apply Forall_push.
Qed.

(** Twelve months of the run without buyback, under v2. *)
Lemma model_series_are_exclusive_witness :
  initialize no_buyback_controls (Some "v2"%string) constructor
  = (Normal tt, no_buyback_v2)
  /\ exists h, State.history (simState (steps 12 no_buyback_v2)) = Some h.
Proof.
  assert (E : initialize no_buyback_controls (Some "v2"%string) constructor
              = (Normal tt, no_buyback_v2)) by (vm_compute; reflexivity).
  split; [exact E |].
  destruct (model_series_are_exclusive no_buyback_controls
              (Some "v2"%string) constructor 12 E) as (h & Hh & _).
  exists h. exact Hh.
Defined.

Lemma recorded_history_series b d f s h iv :
  let h' := recorded_history b d f s h iv in
  let st := simState s in
  History.months h' = push (History.months h) (State.month st + 1)
  /\ History.price h' = push (History.price h) (State.woo_price st)
  /\ History.circulating h'
     = push (History.circulating h) (State.circulating_supply st / lit 1e6)
  /\ History.staked h'
     = push (History.staked h) (State.total_staked_woo st / lit 1e6)
  /\ History.woofi_treasury h'
     = push (History.woofi_treasury h)
         (State.woofi_treasury_balance st / lit 1e6)
  /\ History.woox_treasury h'
     = push (History.woox_treasury h)
         (State.woox_treasury_balance st / lit 1e6)
  /\ History.cumulative_burned h'
     = push (History.cumulative_burned h)
         (State.cumulative_tokens_burned st / lit 1e6)
  /\ History.tempImpact h'
     = push (History.tempImpact h)
         (State.temporary_price_impact st * lit 100).
Proof.
  cbv zeta.
  split; [reflexivity |]. split; [reflexivity |]. split; [reflexivity |].
  split; [reflexivity |]. split; [reflexivity |]. split; [reflexivity |].
  split; reflexivity.
Qed.

Lemma state_after_recording (annual : bool) h s :
  let s1 := set_simState (State.set_history h (simState s)) s in
  let st' :=
    simState
      (increment_month (if annual then record_annual_ratios h s1 else s1)) in
  State.month st' = State.month (simState s) + 1
  /\ State.woo_price st' = State.woo_price (simState s)
  /\ State.circulating_supply st' = State.circulating_supply (simState s)
  /\ State.total_staked_woo st' = State.total_staked_woo (simState s)
  /\ State.woofi_treasury_balance st'
     = State.woofi_treasury_balance (simState s)
  /\ State.woox_treasury_balance st'
     = State.woox_treasury_balance (simState s)
  /\ State.cumulative_tokens_burned st'
     = State.cumulative_tokens_burned (simState s)
  /\ State.temporary_price_impact st'
     = State.temporary_price_impact (simState s).
Proof.
  cbv zeta. unfold record_annual_ratios.
  destruct annual; [destruct (is_v1 _) |]; repeat split.
Qed.

Lemma last_record_after_recording (annual : bool) b d f s h iv :
  let h' := recorded_history b d f s h iv in
  let s1 := set_simState (State.set_history h' (simState s)) s in
  last_record_matches h'
    (simState
       (increment_month
          (if annual then record_annual_ratios h' s1 else s1))).
Proof.
  cbv zeta.
  destruct (recorded_history_series b d f s h iv)
    as (H1 & H2 & H3 & H4 & H5 & H6 & H7 & H8).
  destruct (state_after_recording annual (recorded_history b d f s h iv) s)
    as (S1 & S2 & S3 & S4 & S5 & S6 & S7 & S8).
  unfold last_record_matches.
  rewrite H1, H2, H3, H4, H5, H6, H7, H8, S1, S2, S3, S4, S5, S6, S7, S8.
  unfold push. rewrite !last_last. repeat split.
Qed.

(** X11.  A month is recorded after its updates: in a run started by [initialize],
    once a month has been played, the last entry of the month, price,
    circulating supply, staked tokens, treasury, cumulative burn and
    temporary impact series is the current value of the state (in millions
    of tokens, or in percent), also after the calls that end the run. *)
Theorem history_records_end_of_month_state controls model sim0 sim n :
  initialize controls model sim0 = (Normal tt, sim) ->
  let st := simState (steps n sim) in
  exists h,
    State.history st = Some h
    /\ (State.month st = 0 /\ History.months h = []
        \/ last_record_matches h st).
Proof.
  intros H. cbv zeta.
  set (P := fun (s : Sim) (m : Z) =>
              (0 <= m)%Z
              /\ State.month (simState s) = of_Z m
              /\ State.initial_values (simState s) <> None
              /\ exists h,
                   State.history (simState s) = Some h
                   /\ (State.month (simState s) = 0 /\ History.months h = []
                       \/ last_record_matches h (simState s))).
  assert (Hstep : forall s m, P s m -> run_is_over s = false ->
                              P (snd (simulationStep s)) (m + 1)%Z).
  { intros s m (Pos & Hm & Hi & h & Hh & _) Hrun.
    destruct (State.initial_values (simState s)) as [iv |] eqn:Ei;
      [| contradiction].
    pose proof (simulationStep_initialised s Pos Hm Hrun Hh Ei) as E.
    cbv zeta in E. unfold P. rewrite E. cbn [snd].
    destruct (before_recording_effect s) as (_ & _ & _ & M0 & _ & I0 & _).
    rewrite month_after_recording, initial_values_after_recording,
      history_after_recording.
    split; [lia |].
    split; [rewrite M0, Hm; change 1 with (of_Z 1); apply add_of_Z |].
    split; [congruence |].
    eexists. split; [reflexivity |]. right.
    apply last_record_after_recording. }
  assert (H0 : P sim 0%Z).
  { destruct (initialize_Normal _ _ _ H) as (v & p & st & _ & Hs & ->).
    destruct (read_state_fields _ _ Hs)
      as (M & _ & _ & _ & _ & _ & _ & Hh & Hi).
    unfold P. cbn [simState]. split; [lia |]. split; [exact M |].
    split; [exact Hi |]. exists History.empty. split; [exact Hh |].
    left. now split. }
  destruct (@steps_invariant P Hstep n sim 0%Z H0)
    as (m' & _ & _ & _ & _ & h & Hh & L).
  now exists h.
Qed.

(** Twelve months of the run without buyback. *)
Lemma history_records_end_of_month_state_witness :
  initialize no_buyback_controls (Some "v2"%string) constructor
  = (Normal tt, no_buyback_v2)
  /\ exists h, State.history (simState (steps 12 no_buyback_v2)) = Some h.
Proof.
  assert (E : initialize no_buyback_controls (Some "v2"%string) constructor
              = (Normal tt, no_buyback_v2)) by (vm_compute; reflexivity).
  split; [exact E |].
  destruct (history_records_end_of_month_state no_buyback_controls
              (Some "v2"%string) constructor 12 E) as (h & Hh & _).
  exists h. exact Hh.
Defined.

(** ** The timer of the application *)

Lemma geb_of_Z (a b : Z) : (of_Z a >=? of_Z b) = (b <=? a)%Z.
Proof.
  unfold geb, leb, of_Z. destruct (b <=? a)%Z eqn:E.
  - apply Qc_leb_true. unfold Qcle. rewrite !this_Q2Qc.
    rewrite <- Zle_Qle. now apply Z.leb_le.
  - apply Qc_leb_false. unfold Qclt. rewrite !this_Q2Qc.
    rewrite <- Zlt_Qlt. now apply Z.leb_gt.
Qed.

Lemma run_timer_stops display k sim :
  fst (simulationStep sim) = Normal false ->
  run_timer display (S k) sim = (true, snd (simulationStep sim)).
Proof.
  cbn [run_timer]. destruct (simulationStep sim) as [[[] |] s'];
    cbn [fst snd]; intros E; try discriminate E.
  destruct (display s'); reflexivity.
Qed.

Lemma run_timer_ticks display k sim :
  (forall s, display s = Normal tt) ->
  fst (simulationStep sim) = Normal true ->
  run_timer display (S k) sim
  = run_timer display k (snd (simulationStep sim)).
Proof.
  intros Hd. cbn [run_timer]. destruct (simulationStep sim) as [[[] |] s'];
    cbn [fst snd]; intros E; try discriminate E.
  now rewrite Hd.
Qed.

(** The facts about an object that a run under v2 depends on: a natural
    month counter [m], a history, initial values. *)
Lemma step_under_v2 sim (m : Z) :
  initialised sim -> is_v1 sim = false ->
  State.month (simState sim) = of_Z m ->
  (State.month (simState sim)
   >=? Params.simulation_months (simParams sim)) = false ->
  let s := snd (simulationStep sim) in
  fst (simulationStep sim) = Normal true
  /\ initialised s /\ is_v1 s = false
  /\ State.month (simState s) = of_Z (m + 1)
  /\ Params.simulation_months (simParams s)
     = Params.simulation_months (simParams sim).
Proof.
  intros I V Hm G. cbv zeta.
  assert (Hrun : run_is_over sim = false)
    by (unfold run_is_over; now rewrite G, V).
  pose proof (initialised_step I) as I'.
  destruct I as (m0 & h & iv & _ & _ & Hh & Hi).
  assert (Hc : State.history (simState sim) <> None) by congruence.
  assert (Ic : State.initial_values (simState sim) <> None) by congruence.
  destruct (simulationStep_continues sim Hrun Hc Ic) as (T & M).
  split; [exact T |]. split; [exact I' |].
  split; [rewrite is_v1_step; exact V |].
  split; [rewrite M, Hm; change 1 with (of_Z 1); apply add_of_Z |].
  now rewrite (proj2 (simulationStep_frame sim)).
Qed.

Lemma run_on_schedule display (D : Z) (j : nat) : forall sim (m : Z),
  (forall s, display s = Normal tt) ->
  initialised sim -> is_v1 sim = false ->
  State.month (simState sim) = of_Z m ->
  Params.simulation_months (simParams sim) = of_Z D ->
  (m + Z.of_nat j <= D)%Z ->
  let s := steps j sim in
  run_timer display j sim = (false, s)
  /\ initialised s /\ is_v1 s = false
  /\ State.month (simState s) = of_Z (m + Z.of_nat j)
  /\ Params.simulation_months (simParams s) = of_Z D.
Proof.
  induction j as [| j IH]; intros sim m Ok I V Hm Hd B; cbv zeta.
  - cbn [run_timer steps]. rewrite Z.add_0_r. now repeat split.
  - assert (G : (State.month (simState sim)
                 >=? Params.simulation_months (simParams sim)) = false)
      by (rewrite Hm, Hd, geb_of_Z; apply Z.leb_gt; lia).
    destruct (step_under_v2 I V Hm G) as (T & I' & V' & M' & D').
    rewrite (@run_timer_ticks display j sim Ok T). cbn [steps].
    rewrite Hd in D'.
    destruct (IH _ _ Ok I' V' M' D' ltac:(lia)) as (R & I2 & V2 & M2 & D2).
    split; [exact R |]. split; [exact I2 |]. split; [exact V2 |].
    split; [| exact D2]. rewrite M2. f_equal. lia.
Qed.

Lemma steps_add (a b : nat) : forall sim,
  steps (a + b) sim = steps b (steps a sim).
Proof.
  induction a as [| a IH]; intros sim; [reflexivity |].
  cbn [Nat.add steps]. apply IH.
Qed.

Lemma run_timer_add display (a b : nat) : forall sim,
  fst (run_timer display a sim) = false ->
  run_timer display (a + b) sim
  = run_timer display b (snd (run_timer display a sim)).
Proof.
  induction a as [| a IH]; intros sim; [reflexivity |].
  cbn [Nat.add run_timer].
  destruct (simulationStep sim) as [[[] |] s']; cbn [fst snd];
    try discriminate; destruct (display s'); cbn [fst snd];
    try discriminate; apply IH.
Qed.

Lemma steps_when_over n : forall sim,
  run_is_over sim = true -> steps n sim = sim.
Proof.
  induction n as [| n IH]; intros sim H; [reflexivity |].
  cbn [steps]. rewrite simulationStep_snd, H. now apply IH.
Qed.

(** X12.  Under v2 a run lasts exactly the configured number of months, whatever
    the parameters and whatever the state becomes: with a duration of [d]
    months the first [d] calls of [simulationStep] return [true], the month
    counter being [k] after [k] of them, and every later call returns
    [false] and changes nothing.  The timer of the application, as long as
    its display code raises no error, therefore keeps ticking through [d]
    ticks and is stopped by the tick number [d + 1], with the object as it
    was after [d] months. *)
Theorem run_completes_on_schedule controls model sim0 sim (d : nat) display :
  initialize controls model sim0 = (Normal tt, sim) ->
  is_v1 sim = false ->
  Params.simulation_months (simParams sim) = of_Z (Z.of_nat d) ->
  (forall s, display s = Normal tt) ->
  (forall k, (k < d)%nat ->
     fst (simulationStep (steps k sim)) = Normal true)
  /\ (forall k, (k <= d)%nat ->
       State.month (simState (steps k sim)) = of_Z (Z.of_nat k)
       /\ run_timer display k sim = (false, steps k sim))
  /\ (forall k, (d <= k)%nat ->
       simulationStep (steps k sim) = (Normal false, steps d sim)
       /\ run_timer display (S k) sim = (true, steps d sim)).
Proof.
  intros H V Hd Ok.
  pose proof (initialize_initialised _ _ _ H) as I.
  assert (Hm : State.month (simState sim) = of_Z 0).
  { destruct (initialize_Normal _ _ _ H) as (v & p & st & _ & Hs & ->).
    now destruct (read_state_fields _ _ Hs) as (M & _). }
  assert (Sched : forall k, (k <= d)%nat ->
                run_timer display k sim = (false, steps k sim)
                /\ initialised (steps k sim) /\ is_v1 (steps k sim) = false
                /\ State.month (simState (steps k sim)) = of_Z (Z.of_nat k)
                /\ Params.simulation_months (simParams (steps k sim))
                   = of_Z (Z.of_nat d)).
  { intros k B.
    exact (@run_on_schedule display (Z.of_nat d) k sim 0%Z Ok I V Hm Hd
             ltac:(lia)). }
  destruct (Sched d (Nat.le_refl d)) as (Rd & _ & Vd & Md & Dd).
  assert (G : (State.month (simState (steps d sim))
               >=? Params.simulation_months (simParams (steps d sim))) = true)
    by (rewrite Md, Dd, geb_of_Z; apply Z.leb_le; lia).
  assert (O : run_is_over (steps d sim) = true)
    by (unfold run_is_over; now rewrite G).
  assert (L : forall k, (d <= k)%nat -> steps k sim = steps d sim).
  { intros k B. replace k with (d + (k - d))%nat by lia.
    rewrite steps_add. now apply steps_when_over. }
  split; [| split].
  - intros k B. destruct (Sched k ltac:(lia)) as (_ & Ik & Vk & Mk & Dk).
    assert (Gk : (State.month (simState (steps k sim))
                  >=? Params.simulation_months (simParams (steps k sim)))
                 = false)
      by (rewrite Mk, Dk, geb_of_Z; apply Z.leb_gt; lia).
    exact (proj1 (step_under_v2 Ik Vk Mk Gk)).
  - intros k B. destruct (Sched k B) as (R & _ & _ & M & _). now split.
  - intros k B. rewrite (L k B). split.
    + now rewrite simulationStep_unfold, O.
    + replace (S k) with (d + S (k - d))%nat by lia.
      rewrite run_timer_add by (now rewrite Rd). rewrite Rd. cbn [snd].
      rewrite run_timer_stops.
      * now rewrite simulationStep_snd, O.
      * now rewrite simulationStep_unfold, O.
Qed.

(** The run without buyback, of 36 months, with a display that does
    nothing. *)
Lemma run_completes_on_schedule_witness :
  initialize no_buyback_controls (Some "v2"%string) constructor
  = (Normal tt, no_buyback_v2)
  /\ is_v1 no_buyback_v2 = false
  /\ Params.simulation_months (simParams no_buyback_v2)
     = of_Z (Z.of_nat 36)
  /\ run_timer (fun _ => Normal tt) 37 no_buyback_v2
     = (true, steps 36 no_buyback_v2).
Proof.
  assert (E : initialize no_buyback_controls (Some "v2"%string) constructor
              = (Normal tt, no_buyback_v2)) by (vm_compute; reflexivity).
  assert (V : is_v1 no_buyback_v2 = false) by (vm_compute; reflexivity).
  assert (D : Params.simulation_months (simParams no_buyback_v2)
              = of_Z (Z.of_nat 36)) by (vm_compute; reflexivity).
  split; [exact E |]. split; [exact V |]. split; [exact D |].
  exact (proj2 (proj2 (proj2 (@run_completes_on_schedule no_buyback_controls
                                (Some "v2"%string) constructor no_buyback_v2
                                36 (fun _ => Normal tt) E V D
                                (fun _ => eq_refl)))
                  36%nat (Nat.le_refl 36))).
Defined.

(** X13.  Under v2 a run whose duration is not a number never ends: the test
    [currentMonth >= simulation_months] is false in every month, every call
    of [simulationStep] returns [true] and plays one more month, and the
    timer is never stopped by the simulation. *)
Theorem run_without_duration_never_ends controls model sim0 sim display :
  initialize controls model sim0 = (Normal tt, sim) ->
  is_v1 sim = false ->
  Params.simulation_months (simParams sim) = NaN ->
  (forall s, display s = Normal tt) ->
  forall k,
    fst (simulationStep (steps k sim)) = Normal true
    /\ State.month (simState (steps k sim)) = of_Z (Z.of_nat k)
    /\ run_timer display k sim = (false, steps k sim).
Proof.
  intros H V Hd Ok.
  pose proof (initialize_initialised _ _ _ H) as I.
  assert (Hm : State.month (simState sim) = of_Z 0).
  { destruct (initialize_Normal _ _ _ H) as (v & p & st & _ & Hs & ->).
    now destruct (read_state_fields _ _ Hs) as (M & _). }
  assert (Sched : forall k s (m : Z),
                initialised s -> is_v1 s = false ->
                State.month (simState s) = of_Z m ->
                Params.simulation_months (simParams s) = NaN ->
                fst (simulationStep (steps k s)) = Normal true
                /\ State.month (simState (steps k s))
                   = of_Z (m + Z.of_nat k)
                /\ run_timer display k s = (false, steps k s)).
  { induction k as [| k IH]; intros s m Is Vs Ms Ds;
      assert (G : (State.month (simState s)
                   >=? Params.simulation_months (simParams s)) = false)
        by (rewrite Ms, Ds; reflexivity);
      destruct (step_under_v2 Is Vs Ms G) as (T & I' & V' & M' & D').
    - cbn [run_timer steps]. rewrite Z.add_0_r. now repeat split.
    - rewrite (@run_timer_ticks display k s Ok T). cbn [steps].
      rewrite Ds in D'.
      destruct (IH _ _ I' V' M' D') as (T2 & M2 & R).
      split; [exact T2 |]. split; [| exact R]. rewrite M2. f_equal. lia. }
  intros k. exact (Sched k sim 0%Z I V Hm Hd).
Qed.

(** The run without buyback, with a duration that is not a number. *)
Lemma run_without_duration_never_ends_witness :
  initialize endless_controls (Some "v2"%string) constructor
  = (Normal tt, endless_v2)
  /\ is_v1 endless_v2 = false
  /\ Params.simulation_months (simParams endless_v2) = NaN
  /\ fst (simulationStep (steps 1000 endless_v2)) = Normal true.
Proof.
  assert (E : initialize endless_controls (Some "v2"%string) constructor
              = (Normal tt, endless_v2)) by (vm_compute; reflexivity).
  assert (V : is_v1 endless_v2 = false) by (vm_compute; reflexivity).
  assert (D : Params.simulation_months (simParams endless_v2) = NaN)
    by (vm_compute; reflexivity).
  split; [exact E |]. split; [exact V |]. split; [exact D |].
  exact (proj1 (@run_without_duration_never_ends endless_controls
                  (Some "v2"%string) constructor endless_v2
                  (fun _ => Normal tt) E V D (fun _ => eq_refl) 1000%nat)).
Defined.

(** ** The fee sliders of the page *)

Lemma of_Z_nonzero (T : Z) :
  (T <> 0)%Z -> Qc_eqb (Q2Qc (inject_Z T)) 0 = false.
Proof.
  intros H. apply Qc_eqb_false. intros E. apply H.
  apply (of_Z_inj_iff T 0). unfold of_Z. now f_equal.
Qed.

Lemma gtb_of_Z (a : Z) : (of_Z a >? 0) = (0 <? a)%Z.
Proof.
  unfold gtb, ltb, of_Z. destruct (0 <? a)%Z eqn:E.
  - apply Qc_ltb_true. unfold Qclt. rewrite !this_Q2Qc.
    change 0%Q with (inject_Z 0). rewrite <- Zlt_Qlt. now apply Z.ltb_lt.
  - apply Qc_ltb_false. unfold Qcle. rewrite !this_Q2Qc.
    change 0%Q with (inject_Z 0). rewrite <- Zle_Qle. now apply Z.ltb_ge.
Qed.

Lemma Math_max_0_of_Z (a : Z) : (0 <= a)%Z -> Math_max 0 (of_Z a) = of_Z a.
Proof.
  intros Ha. pose proof (gtb_of_Z a) as G. unfold gtb, ltb, of_Z in G.
  unfold of_Z. rewrite Math_max_Fin, G.
  destruct (0 <? a)%Z eqn:E; [reflexivity |].
  apply Z.ltb_ge in E. now replace a with 0%Z by lia.
Qed.

(** Rounding a share of [r] points: [Math.round(r * (a / T))] is
    [floor((2 r a + T) / (2 T))]. *)
Lemma Math_round_ratio (r a T : Z) :
  (0 < T)%Z ->
  Math_round (of_Z r * (of_Z a / of_Z T)) = of_Z ((2 * r * a + T) / (2 * T)).
Proof.
  intros HT. unfold of_Z, div.
  rewrite of_Z_nonzero by lia. unfold mul, Math_round, of_Z. do 3 f_equal.
  rewrite (Qfloor_comp _ (inject_Z (2 * r * a + T) / inject_Z (2 * T))).
  - symmetry. apply Zdiv_Qdiv.
  - rewrite this_plus, this_mult, this_div, !this_Q2Qc.
    rewrite inject_Z_plus, !inject_Z_mult.
    assert (N : ~ inject_Z T == 0%Q)
      by (intros E; unfold Qeq in E; cbn in E; lia).
    change (inject_Z 2) with 2%Q. field. exact N.
Qed.

Lemma Math_floor_half (r : Z) :
  Math_floor (of_Z r / of_Z 2) = of_Z (r / 2).
Proof.
  unfold of_Z, div. rewrite of_Z_nonzero by lia.
  unfold Math_floor, of_Z. do 3 f_equal.
  rewrite (Qfloor_comp _ (inject_Z r / inject_Z 2)).
  - symmetry. apply Zdiv_Qdiv.
  - rewrite this_div, !this_Q2Qc. reflexivity.
Qed.

Lemma round_split (r a b : Z) :
  (0 <= r)%Z -> (0 <= a)%Z -> (0 <= b)%Z -> (0 < a + b)%Z ->
  let a' := ((2 * r * a + (a + b)) / (2 * (a + b)))%Z in
  let b' := ((2 * r * b + (a + b)) / (2 * (a + b)))%Z in
  (0 <= a')%Z /\ (0 <= b')%Z /\ (r <= a' + b' <= r + 1)%Z.
Proof.
  intros Hr Ha Hb HT. cbv zeta.
  split; [apply Z.div_pos; nia |]. split; [apply Z.div_pos; nia |].
  Z.to_euclidean_division_equations. nia.
Qed.

(** X14.  Moving one of the three fee sliders to [c] percent rebalances the two
    others, whose values were [a] and [b]: each is assigned a whole,
    non-negative number of points, half of the rest (rounded down) each when
    both were at zero.  Because the two shares are rounded one by one, the
    three values then add up to 100 give or take one point, and not always
    to 100. *)
Theorem slider_rebalancing_total (c a b : Z) :
  (0 <= c <= 100)%Z -> (0 <= a)%Z -> (0 <= b)%Z ->
  exists a' b' : Z,
    balance_other_sliders (of_Z c) [of_Z a; of_Z b] = [of_Z a'; of_Z b']
    /\ (0 <= a')%Z /\ (0 <= b')%Z
    /\ (99 <= c + a' + b' <= 101)%Z
    /\ (a + b = 0 -> a' = ((100 - c) / 2)%Z /\ b' = a')%Z.
Proof.
  intros Hc Ha Hb.
  assert (T : fold_left (fun sum val => sum + val) [of_Z a; of_Z b] 0
              = of_Z (a + b)).
  { cbn [fold_left]. change 0 with (of_Z 0). now rewrite !add_of_Z. }
  unfold balance_other_sliders. cbv zeta. rewrite T.
  change (lit 100) with (of_Z 100). rewrite sub_of_Z, gtb_of_Z.
  cbn [List.length map Z.of_nat Pos.of_succ_nat Pos.succ].
  destruct (0 <? a + b)%Z eqn:E.
  - apply Z.ltb_lt in E.
    destruct (@round_split (100 - c) a b ltac:(lia) Ha Hb E)
      as (Pa & Pb & B).
    rewrite !Math_round_ratio by exact E.
    rewrite !Math_max_0_of_Z by assumption.
    eexists. eexists. split; [reflexivity |].
    split; [exact Pa |]. split; [exact Pb |]. split; lia.
  - apply Z.ltb_ge in E. rewrite Math_floor_half.
    assert (P : (0 <= (100 - c) / 2)%Z) by (apply Z.div_pos; lia).
    eexists. eexists. split; [reflexivity |].
    split; [exact P |]. split; [exact P |].
    split; [Z.to_euclidean_division_equations; lia |].
    now split.
Qed.

(** Two sliders at 25 each while the third one is moved to 95. *)
Lemma slider_rebalancing_total_witness :
  exists a' b' : Z,
    balance_other_sliders (of_Z 95) [of_Z 25; of_Z 25] = [of_Z a'; of_Z b']
    /\ (99 <= 95 + a' + b' <= 101)%Z.
Proof.
  destruct (@slider_rebalancing_total 95 25 25 ltac:(lia) ltac:(lia)
              ltac:(lia)) as (a' & b' & E & _ & _ & B & _).
  exists a', b'. split; [exact E | exact B].
Defined.

(** With two sliders at 25 each, moving the third one to 95 leaves 5 points
    to share: each half, 2.5, is rounded up to 3, and the three sliders add
    up to 101. *)
Example slider_total_of_101 :
  match balance_other_sliders (lit 95) [lit 25; lit 25] with
  | [x; y] => strict_eqb x (lit 3) && strict_eqb y (lit 3)
  | _ => false
  end = true.
Proof. vm_compute. reflexivity. Qed.

(** ** The annual cards of the page *)

Lemma leb_of_Z (a b : Z) : (of_Z a <=? of_Z b) = (a <=? b)%Z.
Proof. exact (geb_of_Z b a). Qed.

(** X15.  The cards of the page keep up with the annual arrays.  In a run of [d]
    months started by [initialize], after any number of calls of
    [simulationStep], the annual array of the model holds at most
    [Math.floor(d / 12)] ratios, the number of cards that
    [createPriceToRevenueCards(d)] makes, so that [updatePriceToRevenueCards]
    finds a card for each stored ratio; and the card that shows the progress
    of the running year, number [currentYear], is the one right after the
    last stored ratio.  Under v2 the two arrays have the same length. *)
Theorem annual_ratios_have_cards controls model sim0 sim n (d : Z) :
  initialize controls model sim0 = (Normal tt, sim) ->
  Params.simulation_months (simParams sim) = of_Z d ->
  (0 <= d)%Z ->
  let s := steps n sim in
  let stored_years :=
    List.length
      (or_empty (if is_v1 s then State.annual_pr_ratios (simState s)
                 else State.annual_pv_ratios_usd (simState s))) in
  of_Z (Z.of_nat stored_years)
  <= card_years (Params.simulation_months (simParams s))
  /\ currentYear (simState s) = of_Z (Z.of_nat stored_years + 1)
  /\ (is_v1 s = false ->
      List.length (or_empty (State.annual_pv_ratios_market (simState s)))
      = stored_years).
Proof.
  intros H Hd Dpos. cbv zeta.
  set (P := fun (s : Sim) (m : Z) =>
              (0 <= m <= d)%Z
              /\ State.month (simState s) = of_Z m
              /\ State.history (simState s) <> None
              /\ State.initial_values (simState s) <> None
              /\ Params.simulation_months (simParams s) = of_Z d
              /\ annual_arrays_hold s (Z.to_nat (m / 12))).
  assert (Hstep : forall s m, P s m -> run_is_over s = false ->
                              P (snd (simulationStep s)) (m + 1)%Z).
  { intros s m (Pos & Hm & Hh & Hi & Ds & A) Hrun.
    destruct (@initialised_after_step s m (proj1 Pos) Hm Hh Hi Hrun)
      as (M' & H' & I').
    assert (G : (d <=? m)%Z = false).
    { unfold run_is_over in Hrun. apply orb_false_elim in Hrun.
      destruct Hrun as (G & _). now rewrite Hm, Ds, geb_of_Z in G. }
    apply Z.leb_gt in G.
    unfold P. split; [lia |]. split; [exact M' |]. split; [exact H' |].
    split; [exact I' |].
    split; [now rewrite (proj2 (simulationStep_frame s)) |].
    now apply annual_arrays_step. }
  assert (H0 : P sim 0%Z).
  { pose proof (annual_arrays_initial _ _ _ H) as A.
    destruct (initialize_Normal _ _ _ H) as (v & p & st & _ & Hs & E).
    destruct (read_state_fields _ _ Hs)
      as (M & _ & _ & _ & _ & _ & _ & Hh & Hi).
    unfold P. rewrite E in *. cbn [simState] in *. split; [lia |].
    split; [exact M |]. split; [congruence |]. split; [exact Hi |].
    split; [exact Hd | exact A]. }
  destruct (@steps_invariant P Hstep n sim 0%Z H0)
    as (m' & _ & B & Hm & _ & _ & Ds & A).
  assert (Q : (0 <= m' / 12)%Z) by (apply Z.div_pos; lia).
  assert (L : List.length
                (or_empty
                   (if is_v1 (steps n sim)
                    then State.annual_pr_ratios (simState (steps n sim))
                    else State.annual_pv_ratios_usd
                           (simState (steps n sim))))
              = Z.to_nat (m' / 12)
              /\ (is_v1 (steps n sim) = false ->
                  List.length
                    (or_empty (State.annual_pv_ratios_market
                                 (simState (steps n sim))))
                  = Z.to_nat (m' / 12))).
  { unfold annual_arrays_hold, dense in A.
    destruct (is_v1 (steps n sim)).
    - split; [exact (proj1 (proj1 A)) | discriminate].
    - split; [exact (proj1 (proj1 A)) |]. intros _.
      exact (proj1 (proj1 (proj2 A))). }
  destruct L as (L1 & L2). rewrite L1.
  replace (Z.of_nat (Z.to_nat (m' / 12))) with (m' / 12)%Z by lia.
  split; [| split].
  - rewrite Ds. unfold card_years, le. rewrite floor_div_of_Z, leb_of_Z.
    apply Z.leb_le. apply Z.div_le_mono; lia.
  - unfold currentYear. rewrite Hm, floor_div_of_Z.
    change 1 with (of_Z 1). apply add_of_Z.
  - exact L2.
Qed.

(** The default duration of 36 months, in the run without buyback. *)
Lemma annual_ratios_have_cards_witness :
  initialize no_buyback_controls (Some "v2"%string) constructor
  = (Normal tt, no_buyback_v2)
  /\ Params.simulation_months (simParams no_buyback_v2) = of_Z 36
  /\ (0 <= 36)%Z
  /\ of_Z (Z.of_nat
             (List.length
                (or_empty
                   (if is_v1 (steps 24 no_buyback_v2)
                    then State.annual_pr_ratios
                           (simState (steps 24 no_buyback_v2))
                    else State.annual_pv_ratios_usd
                           (simState (steps 24 no_buyback_v2))))))
     <= card_years
          (Params.simulation_months (simParams (steps 24 no_buyback_v2))).
Proof.
  assert (E : initialize no_buyback_controls (Some "v2"%string) constructor
              = (Normal tt, no_buyback_v2)) by (vm_compute; reflexivity).
  assert (D : Params.simulation_months (simParams no_buyback_v2) = of_Z 36)
    by (vm_compute; reflexivity).
  assert (Pos : (0 <= 36)%Z) by lia.
  split; [exact E |]. split; [exact D |]. split; [exact Pos |].
  exact (proj1 (@annual_ratios_have_cards no_buyback_controls
                  (Some "v2"%string) constructor no_buyback_v2 24 36 E D
                  Pos)).
Defined.
